(** * bocoel: run identity, run loop, persistence and index construction

    A shallow embedding of [bocoel/core/exams/managers.py] (class [Manager])
    and of [bocoel/corpora/indices/backend/faiss.py] (class [FaissIndex]),
    with the properties their specification states about them.

    Conventions of the embedding:
    - a Python [str] is a [string]: the sequence of the bytes of its UTF-8
      encoding, so that [str.encode] is the identity on the representation
      ([" ".join] commutes with the encoding, the separator being one byte);
    - a Python exception is a value of [exn]; a call that may raise returns a
      [result];
    - a [DataFrame] that a method receives, and could mutate, is an object
      of a heap, named by its location; a [DataFrame] that a call creates and
      returns is given as its table;
    - the heap, the file system and the clock make up an explicit [world],
      threaded through the calls;
    - code of the package that is not part of the two modules (the
      examinator, the column names, the helpers of the index) and the
      libraries are either parameters or modelled from the specification,
      which the comments say. *)

From Stdlib Require Import ZArith Ascii List.
From Stdlib Require String Floats.PrimFloat.
From stdpp Require Import gmap strings list fin_maps pretty.
Import (notations) PrimFloat.

(** ** Python exceptions and results *)

Module Py.

Inductive exn : Type :=
| ValueError (msg : string)
| AssertionError (msg : string)
| StopIteration
| FileNotFoundError (msg : string)
| NotADirectoryError (msg : string)
| FileExistsError (msg : string)
| IsADirectoryError (msg : string)
| RuntimeError (msg : string).

Inductive result (A : Type) : Type :=
| Ok (a : A)
| Raise (e : exn).

Arguments Ok {A} a.
Arguments Raise {A} e.

(** [str(x)]: the descriptor of an object. *)
Class Str (A : Type) := str : A -> string.

(** [str] of a Python [str] is the string itself. *)
#[global] Instance Str_string : Str string := fun s => s.

(** [sep.join(items)]. *)
Fixpoint join (sep : string) (items : list string) : string :=
  match items with
  | [] => ""
  | [x] => x
  | x :: rest => x +:+ sep +:+ join sep rest
  end.

End Py.

(** ** [hashlib.md5]: the MD5 digest of RFC 1321, on bytes *)

Module Hashlib.

Local Open Scope Z_scope.

Definition mask32 : Z := 0xffffffff.
Definition w32 (x : Z) : Z := Z.land x mask32.
Definition add32 (a b : Z) : Z := w32 (a + b).
Definition not32 (x : Z) : Z := Z.lxor x mask32.
Definition rotl32 (x c : Z) : Z :=
  w32 (Z.lor (Z.shiftl x c) (Z.shiftr x (32 - c))).

(** Per-round shift amounts. *)
Definition shifts : list Z :=
  [7; 12; 17; 22; 7; 12; 17; 22; 7; 12; 17; 22; 7; 12; 17; 22;
   5; 9; 14; 20; 5; 9; 14; 20; 5; 9; 14; 20; 5; 9; 14; 20;
   4; 11; 16; 23; 4; 11; 16; 23; 4; 11; 16; 23; 4; 11; 16; 23;
   6; 10; 15; 21; 6; 10; 15; 21; 6; 10; 15; 21; 6; 10; 15; 21].

(** [floor(2^32 * abs(sin(i + 1)))] for [i] in 0..63. *)
Definition sines : list Z :=
  [0xd76aa478; 0xe8c7b756; 0x242070db; 0xc1bdceee;
   0xf57c0faf; 0x4787c62a; 0xa8304613; 0xfd469501;
   0x698098d8; 0x8b44f7af; 0xffff5bb1; 0x895cd7be;
   0x6b901122; 0xfd987193; 0xa679438e; 0x49b40821;
   0xf61e2562; 0xc040b340; 0x265e5a51; 0xe9b6c7aa;
   0xd62f105d; 0x02441453; 0xd8a1e681; 0xe7d3fbc8;
   0x21e1cde6; 0xc33707d6; 0xf4d50d87; 0x455a14ed;
   0xa9e3e905; 0xfcefa3f8; 0x676f02d9; 0x8d2a4c8a;
   0xfffa3942; 0x8771f681; 0x6d9d6122; 0xfde5380c;
   0xa4beea44; 0x4bdecfa9; 0xf6bb4b60; 0xbebfbc70;
   0x289b7ec6; 0xeaa127fa; 0xd4ef3085; 0x04881d05;
   0xd9d4d039; 0xe6db99e5; 0x1fa27cf8; 0xc4ac5665;
   0xf4292244; 0x432aff97; 0xab9423a7; 0xfc93a039;
   0x655b59c3; 0x8f0ccc92; 0xffeff47d; 0x85845dd1;
   0x6fa87e4f; 0xfe2ce6e0; 0xa3014314; 0x4e0811a1;
   0xf7537e82; 0xbd3af235; 0x2ad7d2bb; 0xeb86d391].

Record state : Type := State { sa : Z; sb : Z; sc : Z; sd : Z }.

Definition initial : state :=
  State 0x67452301 0xefcdab89 0x98badcfe 0x10325476.

(** One of the 64 operations on the working state, for the block [m] of
    sixteen 32-bit words. *)
Definition operation (m : list Z) (st : state) (i : nat) : state :=
  let '(State a b c d) := st in
  let iz := Z.of_nat i in
  let '(f, g) :=
    if iz <? 16 then (Z.lor (Z.land b c) (Z.land (not32 b) d), iz)
    else if iz <? 32 then
      (Z.lor (Z.land d b) (Z.land (not32 d) c), (5 * iz + 1) mod 16)
    else if iz <? 48 then (Z.lxor b (Z.lxor c d), (3 * iz + 5) mod 16)
    else (Z.lxor c (Z.lor b (not32 d)), (7 * iz) mod 16) in
  let f' := add32 (add32 (add32 f a) (nth i sines 0)) (nth (Z.to_nat g) m 0) in
  State d (add32 b (rotl32 f' (nth i shifts 0))) b c.

(** Little-endian decoding of a 32-bit word from four bytes. *)
Definition word_of_bytes (bs : list Z) : Z :=
  fold_right (fun b acc => Z.lor b (Z.shiftl acc 8)) 0 bs.

Fixpoint words (n : nat) (bs : list Z) : list Z :=
  match n with
  | O => []
  | S n' => word_of_bytes (firstn 4 bs) :: words n' (skipn 4 bs)
  end.

Definition compress (st : state) (block : list Z) : state :=
  let st' := fold_left (operation (words 16 block)) (seq 0 64) st in
  State (add32 (sa st) (sa st')) (add32 (sb st) (sb st'))
        (add32 (sc st) (sc st')) (add32 (sd st) (sd st')).

Fixpoint blocks (n : nat) (bs : list Z) (st : state) : state :=
  match n with
  | O => st
  | S n' => blocks n' (skipn 64 bs) (compress st (firstn 64 bs))
  end.

(** Little-endian encoding of [x] on [n] bytes. *)
Fixpoint bytes_of (n : nat) (x : Z) : list Z :=
  match n with
  | O => []
  | S n' => Z.land x 0xff :: bytes_of n' (Z.shiftr x 8)
  end.

(** The message followed by the bit 1, zeros up to 56 modulo 64, and the
    message length in bits on 64 bits. *)
Definition pad (msg : list Z) : list Z :=
  let len := Z.of_nat (length msg) in
  let zeros := Z.to_nat ((55 - len) mod 64) in
  msg ++ [0x80] ++ repeat 0 zeros ++ bytes_of 8 (Z.land (8 * len) 0xffffffffffffffff).

Definition digest (msg : list Z) : list Z :=
  let padded := pad msg in
  let st := blocks (length padded / 64)%nat padded initial in
  bytes_of 4 (sa st) ++ bytes_of 4 (sb st) ++ bytes_of 4 (sc st) ++ bytes_of 4 (sd st).

Definition hex_digit (x : Z) : ascii :=
  nth (Z.to_nat x)
      (String.list_ascii_of_string "0123456789abcdef") "0"%char.

Fixpoint hex (bs : list Z) : string :=
  match bs with
  | [] => EmptyString
  | b :: bs' =>
      String (hex_digit (Z.shiftr b 4)) (String (hex_digit (Z.land b 0xf)) (hex bs'))
  end.

(** [str.encode(s)]: the bytes of the string. *)
Definition encode (s : string) : list Z :=
  map (fun c => Z.of_N (N_of_ascii c)) (String.list_ascii_of_string s).

(** [hashlib.md5(data).hexdigest()]. *)
Definition md5_hexdigest (data : list Z) : string := hex (digest data).

End Hashlib.

(** ** [Mapping[int, V]]: a Python [dict]

    The items in iteration order, which for a [dict] is the order in which
    the keys were first inserted; a key occurs once. *)

Module Mapping.

Section WithValues.
Context {V : Type}.

Fixpoint get (k : Z) (items : list (Z * V)) : option V :=
  match items with
  | [] => None
  | (k', v) :: items' => if Z.eqb k k' then Some v else get k items'
  end.

Fixpoint distinct (items : list (Z * V)) : bool :=
  match items with
  | [] => true
  | (k, _) :: items' =>
      match get k items' with
      | Some _ => false
      | None => distinct items'
      end
  end.

Record t : Type := Make {
  items : list (Z * V);
  items_distinct : distinct items = true
}.

(** [m[k]], with [None] for a missing key. *)
#[global] Instance lookup : Lookup Z V t := fun k m => get k (items m).

End WithValues.

Arguments t : clear implicits.

End Mapping.

(** ** [collections.OrderedDict] with integer keys

    Bindings in insertion order; assigning to a key that is present keeps
    its position and replaces its value. *)

Module OrderedDict.

Section WithValues.
Context {V : Type}.

Definition t : Type := list (Z * V).

Definition empty : t := [].

Fixpoint get (k : Z) (d : t) : option V :=
  match d with
  | [] => None
  | (k', v) :: d' => if Z.eqb k k' then Some v else get k d'
  end.

(** [d[k] = v]. *)
Fixpoint set (k : Z) (v : V) (d : t) : t :=
  match d with
  | [] => [(k, v)]
  | (k', v') :: d' => if Z.eqb k k' then (k, v) :: d' else (k', v') :: set k v d'
  end.

(** [d.update(other)] for a mapping [other]: [d[k] = other[k]] for every
    key of [other], in the iteration order of [other]. *)
Definition update (d : t) (other : Mapping.t V) : t :=
  fold_left (fun acc kv => set kv.1 kv.2 acc) (Mapping.items other) d.

Definition keys (d : t) : list Z := d.*1.

End WithValues.

Arguments t : clear implicits.

End OrderedDict.

(** ** [pandas.DataFrame]: a table of named columns over a fixed number of rows *)

Module Pandas.

Inductive cell : Type :=
| Text (s : string)
| Number (x : PrimFloat.float).

Record DataFrame : Type := Frame {
  nrows : nat;
  columns : list (string * list cell)
}.

(** [len(df)]. *)
Definition len (df : DataFrame) : nat := nrows df.

Fixpoint set_column (c : string) (vs : list cell) (cols : list (string * list cell))
  : list (string * list cell) :=
  match cols with
  | [] => [(c, vs)]
  | (c', vs') :: cols' =>
      if String.eqb c c' then (c, vs) :: cols' else (c', vs') :: set_column c vs cols'
  end.

(** [df[c] = vs] for a list [vs]: the length must be the number of rows. *)
Definition setitem (df : DataFrame) (c : string) (vs : list cell) : Py.result DataFrame :=
  if Nat.eqb (length vs) (nrows df)
  then Py.Ok (Frame (nrows df) (set_column c vs (columns df)))
  else Py.Raise (Py.ValueError "Length of values does not match length of index").

Fixpoint get_column (c : string) (cols : list (string * list cell)) : option (list cell) :=
  match cols with
  | [] => None
  | (c', vs) :: cols' => if String.eqb c c' then Some vs else get_column c cols'
  end.

(** The cells of column [c] in [df]; a column the table lacks reads as
    missing values. *)
Definition column_or_missing (c : string) (df : DataFrame) : list cell :=
  match get_column c (columns df) with
  | Some vs => vs
  | None => replicate (nrows df) (Number PrimFloat.nan)
  end.

(** The items of [names], each at its first occurrence. *)
Fixpoint first_occurrences (names : list string) : list string :=
  match names with
  | [] => []
  | x :: rest => x :: filter (fun y => y <> x) (first_occurrences rest)
  end.

(** [pd.concat(dfs)]: the rows of the tables one below the other, over the
    union of their columns. *)
Definition concat (dfs : list DataFrame) : Py.result DataFrame :=
  match dfs with
  | [] => Py.Raise (Py.ValueError "No objects to concatenate")
  | _ =>
      let names := first_occurrences (mjoin (map (fun df => (columns df).*1) dfs)) in
      Py.Ok (Frame (sum_list (map nrows dfs))
                   (map (fun c => (c, mjoin (map (column_or_missing c) dfs))) names))
  end.

End Pandas.

(** ** [pathlib] and the file system *)

Module Fs.

(** A path, as the list of its components below the root. *)
Definition path : Type := list string.

(** [str(path)]. *)
Definition path_str (p : path) : string := "/" +:+ Py.join "/" p.

(** A regular file is modelled by what [pd.read_csv] returns on it; the
    text of a csv file, and what of a table it does not keep, are outside
    the model. *)
Inductive node : Type :=
| File (table : Py.result Pandas.DataFrame)
| Dir.

(** The entries of the file system, by full path; the root is a directory
    and has no entry. *)
Definition t : Type := gmap path node.

Definition lookup_node (fs : gmap path node) (p : path) : option node :=
  match p with
  | [] => Some Dir
  | _ => fs !! p
  end.

(** [path.exists()]. *)
Definition exists_ (fs : gmap path node) (p : path) : bool :=
  match lookup_node fs p with
  | Some _ => true
  | None => false
  end.

(** [path.is_dir()]. *)
Definition is_dir (fs : gmap path node) (p : path) : bool :=
  match lookup_node fs p with
  | Some Dir => true
  | _ => false
  end.

(** [path.mkdir(parents=True, exist_ok=True)]: [rest] is what remains to
    create below [prefix]. *)
Fixpoint mkdir_from (prefix rest : path) (fs : gmap path node)
  : Py.result (gmap path node) :=
  match rest with
  | [] => Py.Ok fs
  | c :: rest' =>
      let p := prefix ++ [c] in
      match fs !! p with
      | Some Dir => mkdir_from p rest' fs
      | Some (File _) =>
          match rest' with
          | [] => Py.Raise (Py.FileExistsError (path_str p))
          | _ => Py.Raise (Py.NotADirectoryError (path_str p))
          end
      | None => mkdir_from p rest' (<[p := Dir]> fs)
      end
  end.

Definition mkdir_parents (p : path) (fs : gmap path node) : Py.result (gmap path node) :=
  mkdir_from [] p fs.

(** The name [n] such that [k] is [p / n], if there is one. *)
Fixpoint child_name (p k : path) : option string :=
  match p, k with
  | [], [n] => Some n
  | c :: p', c' :: k' => if String.eqb c c' then child_name p' k' else None
  | _, _ => None
  end.

(** The names of the entries of the directory [p] ([os.listdir]); empty when
    [p] is not a directory. *)
Definition listdir (fs : gmap path node) (p : path) : list string :=
  if is_dir fs p
  then omap (fun kv => child_name p kv.1) (map_to_list fs)
  else [].

(** Whether a name matches the pattern [*.csv]. *)
Definition is_csv (name : string) : bool :=
  let n := String.length name in
  (4 <=? n)%nat && String.eqb (String.substring (n - 4) 4 name) ".csv".

(** [path.glob("*.csv")]: the matching entries of the directory, nothing
    when [p] is not a directory. *)
Definition glob_csv (fs : gmap path node) (p : path) : list path :=
  map (fun n => p ++ [n]) (filter (fun n => is_csv n = true) (listdir fs p)).

(** [pd.read_csv(p)]. *)
Definition read_csv (fs : gmap path node) (p : path) : Py.result Pandas.DataFrame :=
  match lookup_node fs p with
  | Some (File table) => table
  | Some Dir => Py.Raise (Py.IsADirectoryError (path_str p))
  | None => Py.Raise (Py.FileNotFoundError (path_str p))
  end.

(** [df.to_csv(p, index=False)]: creates or overwrites the file [p] in an
    existing directory. The entry stands for the csv file written from the
    table [df]. *)
Definition to_csv (df : Pandas.DataFrame) (p : path) (fs : gmap path node)
  : Py.result (gmap path node) :=
  match lookup_node fs p with
  | Some Dir => Py.Raise (Py.IsADirectoryError (path_str p))
  | _ =>
      if is_dir fs (removelast p)
      then Py.Ok (<[p := File (Py.Ok df)]> fs)
      else Py.Raise (Py.FileNotFoundError (path_str (removelast p)))
  end.

End Fs.

(** ** [datetime] *)

Module Datetime.

Record datetime : Type := {
  year : nat; month : nat; day : nat;
  hour : nat; minute : nat; second : nat
}.

Definition digit (n : nat) : ascii := ascii_of_nat (48 + n mod 10).

(** The decimal digits of [n] on [width] characters, padded with zeros. *)
Fixpoint zero_padded (width n : nat) : string :=
  match width with
  | O => ""
  | S w => zero_padded w (n / 10) +:+ String (digit n) ""
  end.

(** [d.strftime("%Y-%m-%d-%H-%M-%S")]: the year in decimal, as the C
    library prints it (four digits from the year 1000 on, fewer before), the
    other fields on two digits. *)
Definition strftime (d : datetime) : string :=
  Py.join "-" [pretty (year d); zero_padded 2 (month d); zero_padded 2 (day d);
               zero_padded 2 (hour d); zero_padded 2 (minute d); zero_padded 2 (second d)].

End Datetime.

(** ** The world: object heap, file system, clock *)

Module World.

(** The identity of a [DataFrame] object. *)
Definition loc : Type := nat.

Record world : Type := World {
  heap : list Pandas.DataFrame;
  files : gmap Fs.path Fs.node;
  now : Datetime.datetime
}.

Definition with_heap (h : list Pandas.DataFrame) (w : world) : world :=
  World h (files w) (now w).

Definition with_files (fs : gmap Fs.path Fs.node) (w : world) : world :=
  World (heap w) fs (now w).

(** A computation that reads and writes the world and may raise; what it
    wrote before raising stays written. *)
Definition M (A : Type) : Type := world -> Py.result A * world.

Definition ret {A} (a : A) : M A := fun w => (Py.Ok a, w).

Definition raise {A} (e : Py.exn) : M A := fun w => (Py.Raise e, w).

Definition bind {A B} (c : M A) (k : A -> M B) : M B :=
  fun w =>
    match c w with
    | (Py.Ok a, w') => k a w'
    | (Py.Raise e, w') => (Py.Raise e, w')
    end.

Definition lift {A} (r : Py.result A) : M A := fun w => (r, w).

(** A new object holding [df]. *)
Definition alloc (df : Pandas.DataFrame) : M loc :=
  fun w => (Py.Ok (length (heap w)), with_heap (heap w ++ [df]) w).

Definition read (l : loc) : M Pandas.DataFrame :=
  fun w =>
    match heap w !! l with
    | Some df => (Py.Ok df, w)
    | None => (Py.Raise (Py.RuntimeError "no such object"), w)
    end.

Definition write (l : loc) (df : Pandas.DataFrame) : M unit :=
  fun w => (Py.Ok tt, with_heap (<[l := df]> (heap w)) w).

(** [df.copy()]: a new object with the same table. *)
Definition copy (l : loc) : M loc := bind (read l) alloc.

(** [df[c] = vs], in place. *)
Definition setitem (l : loc) (c : string) (vs : list Pandas.cell) : M unit :=
  bind (read l) (fun df => bind (lift (Pandas.setitem df c vs)) (write l)).

(** [df.to_csv(p, index=False)]. *)
Definition to_csv (l : loc) (p : Fs.path) : M unit :=
  bind (read l) (fun df w =>
    match Fs.to_csv df p (files w) with
    | Py.Ok fs => (Py.Ok tt, with_files fs w)
    | Py.Raise e => (Py.Raise e, w)
    end).

End World.

Notation "'do' x <- c1 ; c2" := (World.bind c1 (fun x => c2))
  (at level 10, x name, c1 at level 100, c2 at level 200).
Notation "'exec' c1 ; c2" := (World.bind c1 (fun _ => c2))
  (at level 10, c1 at level 100, c2 at level 200).

(** ** [bocoel.core.exams.managers] *)

Module Columns.

(** The names of the identifier columns (module [columns] of the package). *)
Record t : Type := {
  OPTIMIZER : string; MODEL : string; ADAPTOR : string; INDEX : string;
  STORAGE : string; EMBEDDER : string; TIME : string; MD5 : string
}.

End Columns.

(** A corpus: [corpus.index] is a handle whose [index] is the index proper. *)
Record Handle (I : Type) : Type := { index : I }.
Record Corpus (I St : Type) : Type := { corpus_index : Handle I; storage : St }.
Arguments index {I} _.
Arguments corpus_index {I St} _.
Arguments storage {I St} _.

Module Manager.

Record t : Type := { path : option Fs.path; _start : string }.

(** [Manager.current()]. *)
Definition current : World.M string :=
  fun w => (Py.Ok (Datetime.strftime (World.now w)), w).

(** [Manager.__init__(path)]. *)
Definition __init__ (path : option Fs.path) : World.M t :=
  match path with
  | Some p =>
      fun w =>
        if Fs.exists_ (World.files w) p && negb (Fs.is_dir (World.files w) p)
        then (Py.Raise (Py.ValueError (Fs.path_str p +:+ " is not a directory")), w)
        else
          match Fs.mkdir_parents p (World.files w) with
          | Py.Raise e => (Py.Raise e, w)
          | Py.Ok fs =>
              (do start <- current; World.ret {| path := Some p; _start := start |})
                (World.with_files fs w)
          end
  | None => do start <- current; World.ret {| path := None; _start := start |}
  end.

Section Identity.

Context {O I St Mo Ad E : Type}.
Context `{!Py.Str O, !Py.Str I, !Py.Str St, !Py.Str Mo, !Py.Str Ad, !Py.Str E}.

(** [[str(item) for item in data]] in [Manager.md5]. *)
Definition descriptors (optimizer : O) (corpus : Corpus I St) (model : Mo)
    (adaptor : Ad) (embedder : E) (time : string) : list string :=
  [Py.str optimizer; Py.str embedder; Py.str (index (corpus_index corpus));
   Py.str (storage corpus); Py.str model; Py.str adaptor; Py.str time].

(** [Manager.md5(optimizer, corpus, model, adaptor, embedder, time)]. *)
Definition md5 (optimizer : O) (corpus : Corpus I St) (model : Mo)
    (adaptor : Ad) (embedder : E) (time : string) : string :=
  Hashlib.md5_hexdigest
    (Hashlib.encode
       (Py.join " " (descriptors optimizer corpus model adaptor embedder time))).

Context (columns : Columns.t).

(** [Manager.with_identifier_cols(df, optimizer, corpus, model, adaptor, embedder)]. *)
Definition with_identifier_cols (self : t) (df : World.loc) (optimizer : O)
    (corpus : Corpus I St) (model : Mo) (adaptor : Ad) (embedder : E)
  : World.M (string * World.loc) :=
  do df <- World.copy df;
  let md5 := md5 optimizer corpus model adaptor embedder (_start self) in
  let assign (column data : string) : World.M unit :=
    do d <- World.read df;
    World.setitem df column (replicate (Pandas.len d) (Pandas.Text data)) in
  exec assign (Columns.OPTIMIZER columns) (Py.str optimizer);
  exec assign (Columns.MODEL columns) (Py.str model);
  exec assign (Columns.ADAPTOR columns) (Py.str adaptor);
  exec assign (Columns.INDEX columns) (Py.str (index (corpus_index corpus)));
  exec assign (Columns.STORAGE columns) (Py.str (storage corpus));
  exec assign (Columns.EMBEDDER columns) (Py.str embedder);
  exec assign (Columns.TIME columns) (_start self);
  exec assign (Columns.MD5 columns) md5;
  World.ret (md5, df).

(** [Manager.save(scores, optimizer, corpus, model, adaptor, embedder)]. *)
Definition save (self : t) (scores : World.loc) (optimizer : O)
    (corpus : Corpus I St) (model : Mo) (adaptor : Ad) (embedder : E)
  : World.M unit :=
  do r <- with_identifier_cols self scores optimizer corpus model adaptor embedder;
  match path self with
  | None => World.raise (Py.ValueError "No path specified. Set the path to save the scores.")
  | Some p => World.to_csv r.2 (p ++ [r.1 +:+ ".csv"])
  end.

End Identity.

(** [[pd.read_csv(csv) for csv in csvs]]: the first failure is raised. *)
Fixpoint read_all (fs : gmap Fs.path Fs.node) (csvs : list Fs.path)
  : Py.result (list Pandas.DataFrame) :=
  match csvs with
  | [] => Py.Ok []
  | csv :: rest =>
      match Fs.read_csv fs csv with
      | Py.Raise e => Py.Raise e
      | Py.Ok df =>
          match read_all fs rest with
          | Py.Raise e => Py.Raise e
          | Py.Ok dfs => Py.Ok (df :: dfs)
          end
      end
  end.

(** [Manager.load(path)]. *)
Definition load (path : Fs.path) (w : World.world) : Py.result Pandas.DataFrame :=
  match read_all (World.files w) (Fs.glob_csv (World.files w) path) with
  | Py.Raise e => Py.Raise e
  | Py.Ok [] => Py.Raise (Py.ValueError ("No csv files found in " +:+ Fs.path_str path))
  | Py.Ok dfs => Pandas.concat dfs
  end.

Section Run.

Context {OptState I St : Type}.

(** [optimizer.step()]: the mapping of the step or the exception raised,
    and the optimizer after the call. *)
Context (step : OptState -> Py.result (Mapping.t PrimFloat.float) * OptState).

(** [self.examinator.examine(index=..., results=...)]. *)
Context (examine : Handle I -> OrderedDict.t PrimFloat.float -> Py.result Pandas.DataFrame).

(** What a generator has done when it ends: the values it yielded, the
    exception that ended it if any, and the optimizer it leaves. *)
Record launched : Type := Launched {
  yielded : list (Mapping.t PrimFloat.float);
  raised : option Py.exn;
  optimizer_after : OptState
}.

(** The loop of [_launch] over [steps_range]: [Some n] is a [range] with [n]
    values left, [None] is [itertools.count()]. [fuel] bounds the number of
    iterations unfolded; [None] is returned when it runs out. *)
Fixpoint launch_loop (fuel : nat) (steps_range : option nat) (optimizer : OptState)
  : option launched :=
  match steps_range with
  | Some O => Some (Launched [] None optimizer)
  | _ =>
      match fuel with
      | O => None
      | S fuel' =>
          match step optimizer with
          | (Py.Ok results, optimizer') =>
              match launch_loop fuel' (Nat.pred <$> steps_range) optimizer' with
              | Some l =>
                  Some (Launched (results :: yielded l) (raised l) (optimizer_after l))
              | None => None
              end
          | (Py.Raise Py.StopIteration, optimizer') =>
              Some (Launched [] None optimizer')
          | (Py.Raise e, optimizer') => Some (Launched [] (Some e) optimizer')
          end
      end
  end.

(** [Manager._launch(optimizer, steps)]. *)
Definition _launch (fuel : nat) (optimizer : OptState) (steps : option Z)
  : option launched :=
  launch_loop fuel (Z.to_nat <$> steps) optimizer.

(** The accumulator of [run] after the step results [rs]. *)
Definition accumulate (rs : list (Mapping.t PrimFloat.float))
  : OrderedDict.t PrimFloat.float :=
  fold_left OrderedDict.update rs OrderedDict.empty.

(** [Manager.run(optimizer, corpus, steps)]. *)
Definition run (fuel : nat) (optimizer : OptState) (corpus : Corpus I St)
    (steps : option Z) : option (Py.result Pandas.DataFrame * OptState) :=
  match _launch fuel optimizer steps with
  | None => None
  | Some l =>
      Some (match raised l with
            | Some e => Py.Raise e
            | None => examine (corpus_index corpus) (accumulate (yielded l))
            end,
            optimizer_after l)
  end.

End Run.

End Manager.

(** ** [numpy]: arrays of two dimensions *)

Module Numpy.

(** An array of shape [(length rows, width)]; the width is kept apart from
    the rows, an array without rows having one as well. *)
Record NDArray : Type := Array {
  rows : list (list PrimFloat.float);
  width : nat
}.

Definition shape (a : NDArray) : nat * nat := (length (rows a), width a).

Definition well_formed (a : NDArray) : Prop :=
  Forall (fun r => length r = width a) (rows a).



End Numpy.

(** ** [bocoel.corpora.indices]: distances, boundaries, helpers *)

Module Distance.

(** Modelled from the spec: the enumeration [Distance] of
    [bocoel.corpora.indices.interfaces], a metric kind among L2 and
    INNER_PRODUCT (section 3). *)
Inductive t : Type := L2 | INNER_PRODUCT.

#[global] Instance Str_t : Py.Str t := fun d =>
  match d with
  | L2 => "L2"
  | INNER_PRODUCT => "INNER_PRODUCT"
  end.

(** Modelled from the spec: [Distance.lookup], which resolves a string or an
    enum member to a Distance and fails with InvalidArgument on an unknown
    name (section 4.1). *)
Definition lookup (x : string + t) : Py.result t :=
  match x with
  | inr d => Py.Ok d
  | inl s =>
      if String.eqb s "L2" then Py.Ok L2
      else if String.eqb s "INNER_PRODUCT" then Py.Ok INNER_PRODUCT
      else Py.Raise (Py.ValueError ("Unknown distance: " +:+ s))
  end.

End Distance.

Module Boundary.

(** Modelled from the spec: the value type [Boundary] of
    [bocoel.corpora.indices.interfaces], the (min, max) pair of every
    dimension (section 3). *)
Record t : Type := { bounds : list (PrimFloat.float * PrimFloat.float) }.

Definition dims (b : t) : nat := length (bounds b).

End Boundary.

Module Utils.

Definition l2_norm (row : list PrimFloat.float) : PrimFloat.float :=
  PrimFloat.sqrt (fold_left (fun acc x => acc + x * x)%float row 0%float).

Definition normalize_row (row : list PrimFloat.float) : list PrimFloat.float :=
  let n := l2_norm row in
  if PrimFloat.eqb n 0%float then row else map (fun x => x / n)%float row.

(** Modelled from the spec: [utils.normalize] of [bocoel.corpora.indices],
    which divides each row by its L2 norm and leaves a row of zero norm as
    the zero vector (section 4.1). *)
Definition normalize (embeddings : Numpy.NDArray) : Numpy.NDArray :=
  Numpy.Array (map normalize_row (Numpy.rows embeddings)) (Numpy.width embeddings).

(** Minimum and maximum in the manner of numpy: a NaN wins. *)
Definition minimum (a b : PrimFloat.float) : PrimFloat.float :=
  if PrimFloat.is_nan a then a
  else if PrimFloat.is_nan b then b
  else if PrimFloat.ltb b a then b else a.

Definition maximum (a b : PrimFloat.float) : PrimFloat.float :=
  if PrimFloat.is_nan a then a
  else if PrimFloat.is_nan b then b
  else if PrimFloat.ltb a b then b else a.

(** The extrema of a column of values, [x] the first of them. *)
Definition extrema (x : PrimFloat.float) (xs : list PrimFloat.float)
  : PrimFloat.float * PrimFloat.float :=
  (fold_left minimum xs x, fold_left maximum xs x).

(** Modelled from the spec: [utils.boundaries] of [bocoel.corpora.indices],
    the Boundary whose (min, max) pairs are the column-wise extrema of the
    matrix and whose [dims] is its column count (section 4.1). An empty
    embedding set, a matrix without rows or without columns, has no extrema:
    it is malformed input, refused with InvalidArgument (sections 4.2
    and 7). *)
Definition boundaries (embeddings : Numpy.NDArray) : Py.result Boundary.t :=
  match Numpy.rows embeddings, Numpy.width embeddings with
  | [], _ | _, O => Py.Raise (Py.ValueError "empty embedding set")
  | row :: rest, S _ =>
      Py.Ok {| Boundary.bounds :=
                 map (fun j => extrema (nth j row PrimFloat.nan)
                                 (map (fun r => nth j r PrimFloat.nan) rest))
                     (seq 0 (Numpy.width embeddings)) |}
  end.

End Utils.

(** ** [faiss] and [bocoel.corpora.indices.backend.faiss] *)

Module Faiss.

Inductive metric : Type := METRIC_L2 | METRIC_INNER_PRODUCT.

(** The part of the faiss library the index uses, [B] being the type of its
    index objects; each call may fail. *)
Record api (B : Type) : Type := {
  index_factory : nat -> string -> metric -> Py.result B;
  train : B -> Numpy.NDArray -> Py.result B;
  add : B -> Numpy.NDArray -> Py.result B;
  index_cpu_to_all_gpus : B -> Py.result B
}.

Arguments index_factory {B} _ _ _ _.
Arguments train {B} _ _ _.
Arguments add {B} _ _ _.
Arguments index_cpu_to_all_gpus {B} _ _.

(** Modelled from the spec: a brute-force backend, exact and without
    training, which stores the vectors it is given (section 4.2). *)
Definition flat : api (list (list PrimFloat.float)) := {|
  index_factory := fun _ _ _ => Py.Ok [];
  train := fun index _ => Py.Ok index;
  add := fun index vectors => Py.Ok (index ++ Numpy.rows vectors);
  index_cpu_to_all_gpus := fun index => Py.Ok index
|}.

End Faiss.

Module FaissIndex.

Record t (B : Type) : Type := {
  __embeddings : Numpy.NDArray;
  _batch_size : Z;
  _dist : Distance.t;
  _boundary : Boundary.t;
  _index_string : string;
  _index : B
}.

Arguments __embeddings {B} _.
Arguments _batch_size {B} _.
Arguments _dist {B} _.
Arguments _boundary {B} _.
Arguments _index_string {B} _.
Arguments _index {B} _.

Section WithFaiss.

Context {B : Type} (faiss : Faiss.api B).

(** [FaissIndex._faiss_metric(distance)]. *)
Definition _faiss_metric (distance : Distance.t) : Faiss.metric :=
  match distance with
  | Distance.L2 => Faiss.METRIC_L2
  | Distance.INNER_PRODUCT => Faiss.METRIC_INNER_PRODUCT
  end.

(** [FaissIndex._init_index(index_string, cuda)], on the embeddings and the
    distance already stored in the index. *)
Definition _init_index (embeddings : Numpy.NDArray) (distance : Distance.t)
    (index_string : string) (cuda : bool) : Py.result B :=
  let metric := _faiss_metric distance in
  match Faiss.index_factory faiss (Numpy.shape embeddings).2 index_string metric with
  | Py.Raise e => Py.Raise e
  | Py.Ok index =>
      match Faiss.train faiss index embeddings with
      | Py.Raise e => Py.Raise e
      | Py.Ok index =>
          match Faiss.add faiss index embeddings with
          | Py.Raise e => Py.Raise e
          | Py.Ok index =>
              if cuda then Faiss.index_cpu_to_all_gpus faiss index else Py.Ok index
          end
      end
  end.

(** [FaissIndex.__init__(embeddings, distance, normalize=..., index_string=...,
    cuda=..., batch_size=...)]. *)
Definition __init__ (embeddings : Numpy.NDArray) (distance : string + Distance.t)
    (normalize : bool) (index_string : string) (cuda : bool) (batch_size : Z)
  : Py.result (t B) :=
  let embeddings := if normalize then Utils.normalize embeddings else embeddings in
  match Distance.lookup distance with
  | Py.Raise e => Py.Raise e
  | Py.Ok dist =>
      match Utils.boundaries embeddings with
      | Py.Raise e => Py.Raise e
      | Py.Ok boundary =>
          if Nat.eqb (Boundary.dims boundary) (Numpy.shape embeddings).2
          then
            match _init_index embeddings dist index_string cuda with
            | Py.Raise e => Py.Raise e
            | Py.Ok index =>
                Py.Ok {| __embeddings := embeddings; _batch_size := batch_size;
                         _dist := dist; _boundary := boundary;
                         _index_string := index_string; _index := index |}
            end
          else
            Py.Raise (Py.AssertionError "Boundary dimensions do not match embeddings.")
      end
  end.

(** The properties of the index. *)
Definition batch (self : t B) : Z := _batch_size self.
Definition data (self : t B) : Numpy.NDArray := __embeddings self.
Definition distance (self : t B) : Distance.t := _dist self.
Definition dims (self : t B) : nat := (Numpy.shape (__embeddings self)).2.
Definition boundary (self : t B) : Boundary.t := _boundary self.

(** [FaissIndex.__repr__]. *)
Definition __repr__ (self : t B) : string :=
  "FaissIndex(" +:+ _index_string self +:+ ", " +:+ pretty (dims self) +:+ ")".

End WithFaiss.

#[global] Instance Str_t {B} : Py.Str (t B) := __repr__.

End FaissIndex.

(** ** [bocoel.factories.embedders] *)

Module Embedders.

Inductive EmbedderName : Type := SBERT | HUGGINGFACE | HUGGINGFACE_ENSEMBLE.

(** What [torch.cuda] reports: [cuda.is_available()] and
    [cuda.device_count()]. *)
Record Cuda : Type := { is_available : bool; device_count : nat }.

(** An embedder, given by the constructor call that makes it
    ([common.correct_kwargs(cls)] calls [cls] with the arguments it is
    given). *)
#[warnings="-register-all"]
Inductive Embedder : Type :=
| SbertEmbedder (model_name device : string) (batch_size : Z)
| HuggingfaceEmbedder (path device : string) (batch_size : Z)
| EnsembleEmbedder (embedders : list Embedder).

(** The outcome of [embedder]: the embedder, a [TypeError] (its message
    names the class that [requires] another kind of model name, and the
    model name it [got]), or the exception of the name lookup. The last case
    of the [match], a [ValueError], is not met by a member of the
    enumeration. *)
Inductive outcome : Type :=
| Built (e : Embedder)
| TypeError (requires : string) (got : string + list string)
| LookupError (e : Py.exn).

(** [auto_device(device)]. *)
Definition auto_device (cuda : Cuda) (device : string) : string :=
  if is_available cuda
  then if String.eqb device "auto" then "cuda" else device
  else "cpu".

(** [auto_device_list(device, num_models)]. *)
Definition auto_device_list (cuda : Cuda) (device : string) (num_models : Z)
  : list string :=
  let device_count := device_count cuda in
  if negb (Nat.eqb device_count 0)
  then
    if String.eqb device "auto"
    then map (fun i => "cuda:" +:+ pretty (i mod device_count)%nat)
             (seq 0 (Z.to_nat num_models))
    else replicate (Z.to_nat num_models) device
  else replicate (Z.to_nat num_models) "cpu".

Section WithLookup.

(** [EmbedderName.lookup], of [bocoel.common.StrEnum]. *)
Context (lookup : string + EmbedderName -> Py.result EmbedderName).

(** [embedder(name, model_name=..., device=..., batch_size=...)]. *)
Definition embedder (cuda : Cuda) (name : string + EmbedderName)
    (model_name : string + list string) (device : string) (batch_size : Z)
  : outcome :=
  match lookup name with
  | Py.Raise e => LookupError e
  | Py.Ok SBERT =>
      match model_name with
      | inl model_name =>
          Built (SbertEmbedder model_name (auto_device cuda device) batch_size)
      | inr _ => TypeError "SbertEmbedder requires a single model name." model_name
      end
  | Py.Ok HUGGINGFACE =>
      match model_name with
      | inl model_name =>
          Built (HuggingfaceEmbedder model_name (auto_device cuda device) batch_size)
      | inr _ => TypeError "HuggingfaceEmbedder requires a single model name." model_name
      end
  | Py.Ok HUGGINGFACE_ENSEMBLE =>
      match model_name with
      | inr models =>
          let device_list := auto_device_list cuda device (Z.of_nat (length models)) in
          Built (EnsembleEmbedder
                   (map (fun md => HuggingfaceEmbedder md.1 md.2 batch_size)
                        (zip models device_list)))
      | inl _ =>
          TypeError "HuggingfaceEnsembleEmbedder requires a list of model names."
                    model_name
      end
  end.

End WithLookup.

End Embedders.

(** ** [bocoel.models.scores.cmp.bleu] *)

Module BleuScore.

Section Compare.

(** [nltk.translate.bleu_score.sentence_bleu] and [str.split]. *)
Context (sentence_bleu : list (list string) -> list string -> PrimFloat.float).
Context (split : string -> list string).

(** [BleuScore.compare(generated, reference)]. *)
Definition compare (generated reference : list string) : list PrimFloat.float :=
  map (fun ag => sentence_bleu [split ag.1] (split ag.2)) (zip reference generated).

End Compare.

End BleuScore.

(** * Vocabulary of the statements and sample data *)

(** The text before and after an item of a joined list. *)
Definition joined_before (sep : string) (items : list string) : string :=
  fold_right (fun y acc => y +:+ sep +:+ acc) "" items.

Definition joined_after (sep : string) (items : list string) : string :=
  fold_right (fun y acc => sep +:+ y +:+ acc) "" items.

(** [steps_yield step o rs o']: from [o], [length rs] calls of [step] return
    the mappings [rs] in turn and leave the optimizer [o']. *)
Inductive steps_yield {OptState : Type}
    (step : OptState -> Py.result (Mapping.t PrimFloat.float) * OptState)
  : OptState -> list (Mapping.t PrimFloat.float) -> OptState -> Prop :=
| yield_nil (o : OptState) : steps_yield step o [] o
| yield_cons (o o' o'' : OptState) (r : Mapping.t PrimFloat.float)
    (rs : list (Mapping.t PrimFloat.float)) :
    step o = (Py.Ok r, o') ->
    steps_yield step o' rs o'' ->
    steps_yield step o (r :: rs) o''.

(** Two corpora whose descriptors differ and whose descriptors, joined, read
    the same. *)
Definition corpus_ab_c : Corpus string string :=
  {| corpus_index := {| index := "Index(a, b)" |}; storage := "Storage(c)" |}.

Definition corpus_a_bc : Corpus string string :=
  {| corpus_index := {| index := "Index(a," |}; storage := "b) Storage(c)" |}.

(** A stub optimizer, whose state counts the steps taken: three steps, the
    third of which scores row 0 again, then exhaustion. *)
Definition stub_results : list (Mapping.t PrimFloat.float) :=
  [ Mapping.Make [(0%Z, 0.5%float); (1%Z, 0.25%float)] eq_refl;
    Mapping.Make [(2%Z, 0.75%float)] eq_refl;
    Mapping.Make [(0%Z, 0.125%float); (3%Z, 1%float)] eq_refl ].

Definition stub_step (taken : nat) : Py.result (Mapping.t PrimFloat.float) * nat :=
  match stub_results !! taken with
  | Some r => (Py.Ok r, S taken)
  | None => (Py.Raise Py.StopIteration, taken)
  end.

(** A stand-in for the examinator: one row per accumulated key. *)
Definition stub_examine (h : Handle string) (results : OrderedDict.t PrimFloat.float)
  : Py.result Pandas.DataFrame :=
  Py.Ok (Pandas.Frame (length results)
           [("index", map (fun kv => Pandas.Text (pretty kv.1)) results);
            ("score", map (fun kv => Pandas.Number kv.2) results)]).

(** The table [t] after [df[column] = [data] * len(df)]. *)
Definition assigned (t : Pandas.DataFrame) (column data : string) : Pandas.DataFrame :=
  Pandas.Frame (Pandas.nrows t)
    (Pandas.set_column column (replicate (Pandas.nrows t) (Pandas.Text data))
       (Pandas.columns t)).

(** The table [t] with the eight identifier columns assigned in turn. *)
Definition identified {O I St Mo Ad E : Type}
    `{!Py.Str O, !Py.Str I, !Py.Str St, !Py.Str Mo, !Py.Str Ad, !Py.Str E}
    (columns : Columns.t) (self : Manager.t) (t : Pandas.DataFrame)
    (o : O) (c : Corpus I St) (m : Mo) (a : Ad) (e : E) : Pandas.DataFrame :=
  fold_left (fun t cd => assigned t cd.1 cd.2)
    [ (Columns.OPTIMIZER columns, Py.str o);
      (Columns.MODEL columns, Py.str m);
      (Columns.ADAPTOR columns, Py.str a);
      (Columns.INDEX columns, Py.str (index (corpus_index c)));
      (Columns.STORAGE columns, Py.str (storage c));
      (Columns.EMBEDDER columns, Py.str e);
      (Columns.TIME columns, Manager._start self);
      (Columns.MD5 columns, Manager.md5 o c m a e (Manager._start self)) ]
    t.

(** The file a save is written to: [f"{md5}.csv"] in the output directory. *)
Definition result_file {O I St Mo Ad E : Type}
    `{!Py.Str O, !Py.Str I, !Py.Str St, !Py.Str Mo, !Py.Str Ad, !Py.Str E}
    (self : Manager.t) (o : O) (c : Corpus I St) (m : Mo) (a : Ad) (e : E) : string :=
  Manager.md5 o c m a e (Manager._start self) +:+ ".csv".

(** Sample data: column names, tables, a clock, worlds. *)
Definition sample_columns : Columns.t :=
  {| Columns.OPTIMIZER := "optimizer"; Columns.MODEL := "model";
     Columns.ADAPTOR := "adaptor"; Columns.INDEX := "index";
     Columns.STORAGE := "storage"; Columns.EMBEDDER := "embedder";
     Columns.TIME := "time"; Columns.MD5 := "md5" |}.

Definition sample_scores : Pandas.DataFrame :=
  Pandas.Frame 2 [("score", [Pandas.Number 0.5%float; Pandas.Number 0.25%float])].

Definition sample_other : Pandas.DataFrame :=
  Pandas.Frame 1 [("score", [Pandas.Number 1%float]); ("model", [Pandas.Text "m"])].

Definition sample_now : Datetime.datetime :=
  {| Datetime.year := 2024; Datetime.month := 1; Datetime.day := 1;
     Datetime.hour := 0; Datetime.minute := 0; Datetime.second := 0 |}.

Definition sample_later : Datetime.datetime :=
  {| Datetime.year := 2024; Datetime.month := 1; Datetime.day := 2;
     Datetime.hour := 13; Datetime.minute := 30; Datetime.second := 59 |}.

(** No file at all. *)
Definition world_bare : World.world :=
  World.World [sample_scores] ∅ sample_now.

(** An output directory without entries. *)
Definition world_empty_dir : World.world :=
  World.World [sample_scores] (<[ ["out"] := Fs.Dir ]> ∅) sample_now.

(** An output directory with two result files, a file of another kind and a
    subdirectory. *)
Definition world_results : World.world :=
  World.World [sample_scores]
    (<[ ["out"; "a.csv"] := Fs.File (Py.Ok sample_scores) ]>
       (<[ ["out"; "b.csv"] := Fs.File (Py.Ok sample_other) ]>
          (<[ ["out"; "notes.txt"] := Fs.File (Py.Raise (Py.ValueError "not a table")) ]>
             (<[ ["out"; "old"] := Fs.Dir ]>
                (<[ ["out"] := Fs.Dir ]> ∅)))))
    sample_later.

(** The directory of [world_results] with a subdirectory named like a
    result file. *)
Definition world_with_subdir : World.world :=
  World.with_files
    (<[ ["out"; "old.csv"] := Fs.Dir ]> (World.files world_results)) world_results.

Definition sample_manager : Manager.t :=
  {| Manager.path := Some ["out"]; Manager._start := "2024-01-01-00-00-00" |}.

(** Sample embeddings: four points of the plane, and a matrix with an
    infinite value. *)
Definition sample_embeddings : Numpy.NDArray :=
  Numpy.Array [[0; 0]; [1; 0]; [0; 1]; [1; 1]]%float 2.


(** The table after the assignments [l] of a text to a column, in turn. *)
Definition assign_all (l : list (string * string)) (t : Pandas.DataFrame)
  : Pandas.DataFrame :=
  fold_left (fun t cd => assigned t cd.1 cd.2) l t.

(** The names and the contents of the identifier columns, in the order of
    their assignment. *)
Definition identifier_columns {O I St Mo Ad E : Type}
    `{!Py.Str O, !Py.Str I, !Py.Str St, !Py.Str Mo, !Py.Str Ad, !Py.Str E}
    (columns : Columns.t) (self : Manager.t)
    (o : O) (c : Corpus I St) (m : Mo) (a : Ad) (e : E) : list (string * string) :=
  [ (Columns.OPTIMIZER columns, Py.str o);
    (Columns.MODEL columns, Py.str m);
    (Columns.ADAPTOR columns, Py.str a);
    (Columns.INDEX columns, Py.str (index (corpus_index c)));
    (Columns.STORAGE columns, Py.str (storage c));
    (Columns.EMBEDDER columns, Py.str e);
    (Columns.TIME columns, Manager._start self);
    (Columns.MD5 columns, Manager.md5 o c m a e (Manager._start self)) ].

(** Whether the character [c] occurs in [s]. *)
Fixpoint contains (c : ascii) (s : string) : bool :=
  match s with
  | EmptyString => false
  | String d s' => Ascii.eqb c d || contains c s'
  end.

(** Whether a character is a lowercase hexadecimal digit. *)
Definition is_hex (c : ascii) : bool :=
  existsb (Ascii.eqb c) (String.list_ascii_of_string "0123456789abcdef").

(** The items of [l], each at its first occurrence. *)
Fixpoint first_seen (l : list Z) : list Z :=
  match l with
  | [] => []
  | x :: rest => x :: filter (fun y => y <> x) (first_seen rest)
  end.

(** The strings of [n] characters taken from [alphabet]. *)
Fixpoint strings_over (alphabet : list ascii) (n : nat) : list string :=
  match n with
  | O => [""]
  | S n' => c ← alphabet; s ← strings_over alphabet n'; [String c s]
  end.

(** A clock reading with a year of four digits, whose other fields have
    the width [strftime] gives them. *)
Definition printable (d : Datetime.datetime) : Prop :=
  (1000 <= Datetime.year d < 10 ^ 4 /\ Datetime.month d < 100
   /\ Datetime.day d < 100 /\ Datetime.hour d < 100 /\ Datetime.minute d < 100
   /\ Datetime.second d < 100)%nat.

(** A stub optimizer that fails in its second step. *)
Definition failing_step (taken : nat) : Py.result (Mapping.t PrimFloat.float) * nat :=
  match taken with
  | O => (Py.Ok (Mapping.Make [(7%Z, 0.5%float)] eq_refl), 1%nat)
  | _ => (Py.Raise (Py.RuntimeError "backend failure"), taken)
  end.

(** A name lookup for the embedders, by member name. *)
Definition sample_lookup (name : string + Embedders.EmbedderName)
  : Py.result Embedders.EmbedderName :=
  match name with
  | inr n => Py.Ok n
  | inl s =>
      if String.eqb s "SBERT" then Py.Ok Embedders.SBERT
      else if String.eqb s "HUGGINGFACE" then Py.Ok Embedders.HUGGINGFACE
      else if String.eqb s "HUGGINGFACE_ENSEMBLE" then Py.Ok Embedders.HUGGINGFACE_ENSEMBLE
      else Py.Raise (Py.ValueError s)
  end.

(** A stand-in for the BLEU score: 1 when the words are those of a
    reference, 0 otherwise. *)
Definition stub_bleu (references : list (list string)) (hypothesis : list string)
  : PrimFloat.float :=
  if bool_decide (hypothesis ∈ references) then 1%float else 0%float.

Definition two_gpus : Embedders.Cuda :=
  {| Embedders.is_available := true; Embedders.device_count := 2 |}.

(** * Properties *)

(** ** The digest *)

(** The test suite of RFC 1321, section A.5. *)
Example md5_empty :
  Hashlib.md5_hexdigest (Hashlib.encode "") = "d41d8cd98f00b204e9800998ecf8427e".
Proof. vm_compute. reflexivity. Qed.

Example md5_abc :
  Hashlib.md5_hexdigest (Hashlib.encode "abc") = "900150983cd24fb0d6963f7d28e17f72".
Proof. vm_compute. reflexivity. Qed.

Example md5_alphabet :
  Hashlib.md5_hexdigest (Hashlib.encode "abcdefghijklmnopqrstuvwxyz")
  = "c3fcd3d76192e4007dfb496cca67e13b".
Proof. vm_compute. reflexivity. Qed.

Example md5_two_blocks :
  Hashlib.md5_hexdigest
    (Hashlib.encode
       "12345678901234567890123456789012345678901234567890123456789012345678901234567890")
  = "57edf4a22be3c955ac49da2e2107b67a".
Proof. vm_compute. reflexivity. Qed.

(** MD5 is not injective: two printable texts with the same digest. A change
    of the hashed text is therefore no guarantee of a change of the digest. *)
Example md5_text_collision :
  "TEXTCOLLBYfGiJUETHQ4hAcKSMd5zYpgqf1YRDhkmxHkhPWptrkoyz28wnI9V0aHeAuaKnak"
  <> "TEXTCOLLBYfGiJUETHQ4hEcKSMd5zYpgqf1YRDhkmxHkhPWptrkoyz28wnI9V0aHeAuaKnak"
  /\ Hashlib.md5_hexdigest
       (Hashlib.encode
          "TEXTCOLLBYfGiJUETHQ4hAcKSMd5zYpgqf1YRDhkmxHkhPWptrkoyz28wnI9V0aHeAuaKnak")
     = Hashlib.md5_hexdigest
         (Hashlib.encode
            "TEXTCOLLBYfGiJUETHQ4hEcKSMd5zYpgqf1YRDhkmxHkhPWptrkoyz28wnI9V0aHeAuaKnak").
Proof. split; [discriminate | vm_compute; reflexivity]. Qed.

(** The digest in hexadecimal: 32 characters among sixteen. *)

Lemma hex_length (bs : list Z) : String.length (Hashlib.hex bs) = (2 * length bs)%nat.
Proof. induction bs as [|b bs IH]; simpl; [done | rewrite IH; lia]. Qed.

Lemma bytes_of_length (n : nat) (x : Z) : length (Hashlib.bytes_of n x) = n.
Proof. revert x. induction n as [|n IH]; intros x; simpl; [done | by rewrite IH]. Qed.

Lemma bytes_of_range (n : nat) (x : Z) :
  Forall (fun b => 0 <= b < 256)%Z (Hashlib.bytes_of n x).
Proof.
  revert x. induction n as [|n IH]; intros x; simpl; constructor; [|apply IH].
  change 255%Z with (Z.ones 8). rewrite Z.land_ones by lia.
  apply Z.mod_pos_bound. lia.
Qed.

Lemma hex_digit_is_hex (x : Z) :
  (0 <= x < 16)%Z -> is_hex (Hashlib.hex_digit x) = true.
Proof.
  intros Hx. unfold Hashlib.hex_digit.
  assert (Z.to_nat x < 16)%nat as Hn by lia.
  generalize dependent (Z.to_nat x). intros n Hn.
  do 16 (destruct n as [|n]; [reflexivity|]). lia.
Qed.

Lemma hex_is_hex (bs : list Z) :
  Forall (fun b => 0 <= b < 256)%Z bs ->
  forallb is_hex (String.list_ascii_of_string (Hashlib.hex bs)) = true.
Proof.
  induction 1 as [|b bs Hb Hbs IH]; [done|].
  cbn [Hashlib.hex String.list_ascii_of_string forallb].
  rewrite IH, !hex_digit_is_hex; [done| |].
  - change 15%Z with (Z.ones 4). rewrite Z.land_ones by lia.
    apply Z.mod_pos_bound. lia.
  - rewrite Z.shiftr_div_pow2 by lia. change (2 ^ 4)%Z with 16%Z.
    split; [apply Z.div_pos; lia | apply Z.div_lt_upper_bound; lia].
Qed.

Lemma digest_bytes (msg : list Z) :
  length (Hashlib.digest msg) = 16%nat
  /\ Forall (fun b => 0 <= b < 256)%Z (Hashlib.digest msg).
Proof.
  unfold Hashlib.digest. cbv zeta. split.
  - by rewrite !length_app, !bytes_of_length.
  - rewrite !Forall_app. repeat split; apply bytes_of_range.
Qed.

Lemma is_hex_elem (c : ascii) :
  is_hex c = true -> c ∈ String.list_ascii_of_string "0123456789abcdef".
Proof.
  unfold is_hex. intros [c' [Hin Heq]]%existsb_exists.
  apply Ascii.eqb_eq in Heq as ->. by apply list_elem_of_In.
Qed.

Lemma elem_of_strings_over (alphabet : list ascii) (s : string) :
  Forall (fun c => c ∈ alphabet) (String.list_ascii_of_string s) ->
  s ∈ strings_over alphabet (String.length s).
Proof.
  induction s as [|c s IH]; simpl; intros Hall.
  - by left.
  - apply Forall_cons in Hall as [Hc Hall].
    apply list_elem_of_bind. exists c. split; [|done].
    apply list_elem_of_bind. exists s. split; [by left | by apply IH].
Qed.

Lemma md5_hexdigest_range (data : list Z) :
  Hashlib.md5_hexdigest data
  ∈ strings_over (String.list_ascii_of_string "0123456789abcdef") 32.
Proof.
  unfold Hashlib.md5_hexdigest.
  destruct (digest_bytes data) as [Hlen Hrange].
  set (h := Hashlib.hex _).
  assert (String.length h = 32%nat) as <- by (unfold h; by rewrite hex_length, Hlen).
  apply elem_of_strings_over.
  apply Forall_forall. intros x Hx. apply is_hex_elem.
  pose proof (hex_is_hex _ Hrange) as Hhex. fold h in Hhex.
  rewrite forallb_forall in Hhex. apply Hhex. by apply list_elem_of_In.
Qed.

(** A function from the numbers into finitely many strings takes some value
    twice. *)
Lemma pigeonhole (f : nat -> string) (codomain : list string) :
  (forall n, f n ∈ codomain) -> ~ (forall n m, f n = f m -> n = m).
Proof.
  intros Hcod Hinj.
  assert (Inj (=) (=) f) as Hf by (intros n m; apply Hinj).
  assert (NoDup (f <$> seq 0 (S (length codomain)))) as Hnd.
  { apply (NoDup_fmap_2 f), NoDup_seq. }
  apply NoDup_submseteq with (k := codomain) in Hnd.
  - apply submseteq_length in Hnd.
    rewrite length_fmap, length_seq in Hnd. lia.
  - intros x [n [-> _]]%list_elem_of_fmap. apply Hcod.
Qed.

(** ** Strings and [join] *)

Lemma str_app_cons (c : ascii) (s t : string) :
  String c s +:+ t = String c (s +:+ t).
Proof. reflexivity. Qed.

Lemma str_app_nil_l (s : string) : "" +:+ s = s.
Proof. reflexivity. Qed.

Lemma str_app_nil_r (s : string) : s +:+ "" = s.
Proof. induction s as [|c s IH]; [done|]. by rewrite str_app_cons, IH. Qed.

Lemma str_app_assoc (a b c : string) : (a +:+ b) +:+ c = a +:+ b +:+ c.
Proof. induction a as [|x a IH]; [done|]. by rewrite !str_app_cons, IH. Qed.

Lemma str_length_app (a b : string) :
  String.length (a +:+ b) = (String.length a + String.length b)%nat.
Proof. induction a as [|x a IH]; [done|]. rewrite str_app_cons. simpl. by rewrite IH. Qed.

Lemma str_app_inv_head (s a b : string) : s +:+ a = s +:+ b -> a = b.
Proof.
  induction s as [|x s IH]; [done|]. rewrite !str_app_cons. intros [=]. auto.
Qed.

Lemma str_app_inv_tail (t a b : string) : a +:+ t = b +:+ t -> a = b.
Proof.
  revert b. induction a as [|x a IH]; intros [|y b];
    rewrite ?str_app_cons, ?str_app_nil_l; intros H.
  - done.
  - apply (f_equal String.length) in H. simpl in H.
    rewrite str_length_app in H. lia.
  - apply (f_equal String.length) in H. simpl in H.
    rewrite str_length_app in H. lia.
  - injection H as -> H. f_equal. by apply IH.
Qed.

Lemma join_cons (sep x : string) (items : list string) :
  Py.join sep (x :: items) = x +:+ joined_after sep items.
Proof.
  revert x. induction items as [|y items IH]; intros x.
  - simpl. by rewrite str_app_nil_r.
  - change (Py.join sep (x :: y :: items))
      with (x +:+ sep +:+ Py.join sep (y :: items)).
    by rewrite IH.
Qed.

Lemma join_middle (sep x : string) (l1 l2 : list string) :
  Py.join sep (l1 ++ x :: l2) = joined_before sep l1 +:+ x +:+ joined_after sep l2.
Proof.
  induction l1 as [|y l1 IH]; simpl app.
  - apply join_cons.
  - destruct (l1 ++ x :: l2) as [|z rest] eqn:E.
    + by destruct l1.
    + change (Py.join sep (y :: z :: rest)) with (y +:+ sep +:+ Py.join sep (z :: rest)).
      rewrite IH. simpl. by rewrite !str_app_assoc.
Qed.

(** Replacing one item of a list by another item changes the joined text. *)
Lemma join_insert_ne (sep x : string) (i : nat) (items : list string) :
  <[i := x]> items <> items ->
  Py.join sep (<[i := x]> items) <> Py.join sep items.
Proof.
  intros Hne Heq. apply Hne.
  destruct (items !! i) as [y|] eqn:Hi.
  - apply list_elem_of_split_length in Hi as (l1 & l2 & -> & ->).
    rewrite insert_app_r_alt in Heq |- * by lia.
    replace (length l1 - length l1)%nat with 0%nat in * by lia. simpl in *.
    rewrite !join_middle in Heq.
    apply str_app_inv_head, str_app_inv_tail in Heq. by subst.
  - apply list_insert_ge. by apply lookup_ge_None.
Qed.

(** ** The run identity *)

Section IdentityProperties.

Context {O I St Mo Ad E : Type}.
Context `{!Py.Str O, !Py.Str I, !Py.Str St, !Py.Str Mo, !Py.Str Ad, !Py.Str E}.

(** The digest is a function of the seven descriptors. *)
Lemma md5_of_descriptors (o o' : O) (c c' : Corpus I St) (m m' : Mo) (a a' : Ad)
    (e e' : E) (t t' : string) :
  Manager.descriptors o c m a e t = Manager.descriptors o' c' m' a' e' t' ->
  Manager.md5 o c m a e t = Manager.md5 o' c' m' a' e' t'.
Proof. unfold Manager.md5. by intros ->. Qed.

(** The digests are fewer than the descriptors: with all else fixed, two
    optimizers of different descriptors have the same run identity. *)
Lemma md5_collides_in_optimizer (c : Corpus I St) (m : Mo) (a : Ad) (e : E)
    (time : string) :
  ~ (forall o o' : string,
       o <> o' -> Manager.md5 o c m a e time <> Manager.md5 o' c m a e time).
Proof.
  intros Hdiff.
  apply (pigeonhole (fun n => Manager.md5 (pretty n) c m a e time)
           (strings_over (String.list_ascii_of_string "0123456789abcdef") 32)).
  - intros n. apply md5_hexdigest_range.
  - intros n n' Heq. destruct (decide (n = n')) as [|Hne]; [done|].
    destruct (Hdiff (pretty n) (pretty n')); [|done].
    intros Hp. by apply (inj pretty) in Hp.
Qed.

(** C1, as amended. [Manager.md5] is deterministic: it is the MD5 digest of
    the seven descriptors (of the optimizer, the embedder, the corpus index,
    the corpus storage, the model, the adaptor, and the time) joined by single
    spaces, so that two calls with the same descriptors return the same
    digest. Changing exactly one of the seven descriptors changes the text
    that is hashed. A change of the corpus alone may change two descriptors at
    once and leave the hashed text, hence the digest, as it was. *)
Theorem md5_deterministic_and_text_sensitive (o o' : O) (c c' : Corpus I St)
    (m m' : Mo) (a a' : Ad) (e e' : E) (t t' : string) :
  let ds := Manager.descriptors o c m a e t in
  let ds' := Manager.descriptors o' c' m' a' e' t' in
  Manager.md5 o c m a e t = Hashlib.md5_hexdigest (Hashlib.encode (Py.join " " ds))
  /\ (ds' = ds -> Manager.md5 o' c' m' a' e' t' = Manager.md5 o c m a e t)
  /\ (forall (i : nat) (x : string),
        ds' = <[i := x]> ds -> ds' <> ds -> Py.join " " ds' <> Py.join " " ds).
Proof.
  intros ds ds'. split; [reflexivity|]. split.
  - intros Heq. by apply md5_of_descriptors.
  - intros i x -> Hne. by apply join_insert_ne.
Qed.

End IdentityProperties.

(** C1, counterexample: with the other five arguments fixed, the change of
    the corpus from [corpus_ab_c] to [corpus_a_bc] changes both of its
    descriptors and does not change the digest. *)
Lemma md5_corpus_change_same_digest :
  corpus_ab_c <> corpus_a_bc
  /\ Py.str (index (corpus_index corpus_ab_c)) <> Py.str (index (corpus_index corpus_a_bc))
  /\ Py.str (storage corpus_ab_c) <> Py.str (storage corpus_a_bc)
  /\ Manager.md5 "optimizer" corpus_ab_c "model" "adaptor" "embedder" "2024-01-01-00-00-00"
     = Manager.md5 "optimizer" corpus_a_bc "model" "adaptor" "embedder" "2024-01-01-00-00-00".
Proof.
  split; [discriminate|]. split; [discriminate|]. split; [discriminate|].
  assert (Py.join " " (Manager.descriptors "optimizer" corpus_ab_c "model" "adaptor"
                         "embedder" "2024-01-01-00-00-00")
          = Py.join " " (Manager.descriptors "optimizer" corpus_a_bc "model" "adaptor"
                           "embedder" "2024-01-01-00-00-00")) as Htext
    by reflexivity.
  unfold Manager.md5. by rewrite Htext.
Qed.

(** C1, witness: the optimizer's descriptor alone changes, and so does the
    hashed text; with all descriptors equal the digests are equal. *)
Lemma md5_deterministic_and_text_sensitive_witness :
  Manager.md5 "ax" corpus_ab_c "model" "adaptor" "embedder" "2024-01-01-00-00-00"
  = Manager.md5 "ax" corpus_ab_c "model" "adaptor" "embedder" "2024-01-01-00-00-00"
  /\ Py.join " " (Manager.descriptors "kmeans" corpus_ab_c "model" "adaptor" "embedder"
                    "2024-01-01-00-00-00")
     <> Py.join " " (Manager.descriptors "ax" corpus_ab_c "model" "adaptor" "embedder"
                       "2024-01-01-00-00-00").
Proof.
  pose proof (md5_deterministic_and_text_sensitive
                "ax" "kmeans" corpus_ab_c corpus_ab_c "model" "model"
                "adaptor" "adaptor" "embedder" "embedder"
                "2024-01-01-00-00-00" "2024-01-01-00-00-00") as (_ & _ & Hsens).
  pose proof (md5_deterministic_and_text_sensitive
                "ax" "ax" corpus_ab_c corpus_ab_c "model" "model"
                "adaptor" "adaptor" "embedder" "embedder"
                "2024-01-01-00-00-00" "2024-01-01-00-00-00") as (_ & Hdet & _).
  split.
  - apply Hdet. reflexivity.
  - apply (Hsens 0%nat "kmeans"); [reflexivity | discriminate].
Defined.

(** ** The accumulator of [run] *)

Section Accumulator.

Context {V : Type}.
Implicit Types (d : OrderedDict.t V) (r : Mapping.t V) (k : Z) (v : V).

Lemma get_set k k' v d :
  OrderedDict.get k (OrderedDict.set k' v d)
  = if Z.eqb k k' then Some v else OrderedDict.get k d.
Proof.
  induction d as [|[k0 v0] d IH]; simpl.
  - done.
  - destruct (Z.eqb_spec k' k0) as [->|Hne]; simpl.
    + by destruct (Z.eqb k k0).
    + rewrite IH. destruct (Z.eqb_spec k k0) as [->|]; [|done].
      destruct (Z.eqb_spec k0 k'); [congruence | done].
Qed.

Lemma get_fold_set_absent k (l : list (Z * V)) d :
  k ∉ l.*1 ->
  OrderedDict.get k (fold_left (fun acc kv => OrderedDict.set kv.1 kv.2 acc) l d)
  = OrderedDict.get k d.
Proof.
  revert d. induction l as [|[k' v'] l IH]; intros d Hk; simpl in *; [done|].
  apply not_elem_of_cons in Hk as [Hne Hk].
  rewrite IH by done. rewrite get_set.
  destruct (Z.eqb_spec k k'); [congruence | done].
Qed.

Lemma get_fold_set_present k v (l : list (Z * V)) d :
  NoDup l.*1 -> (k, v) ∈ l ->
  OrderedDict.get k (fold_left (fun acc kv => OrderedDict.set kv.1 kv.2 acc) l d)
  = Some v.
Proof.
  revert d. induction l as [|[k' v'] l IH]; intros d Hnd Hin; simpl in *.
  - by apply elem_of_nil in Hin.
  - apply NoDup_cons in Hnd as [Hfresh Hnd].
    apply elem_of_cons in Hin as [[= <- <-]|Hin].
    + rewrite get_fold_set_absent by done. rewrite get_set.
      by rewrite Z.eqb_refl.
    + by apply IH.
Qed.

Lemma mapping_get_Some k v (l : list (Z * V)) :
  Mapping.get k l = Some v -> (k, v) ∈ l.
Proof.
  induction l as [|[k' v'] l IH]; simpl; [done|].
  destruct (Z.eqb_spec k k') as [->|_].
  - intros [= ->]. left.
  - intros Hget. right. by apply IH.
Qed.

Lemma mapping_get_None k (l : list (Z * V)) :
  Mapping.get k l = None -> k ∉ l.*1.
Proof.
  induction l as [|[k' v'] l IH]; simpl.
  - intros _. apply not_elem_of_nil.
  - destruct (Z.eqb_spec k k') as [->|Hne]; [done|].
    intros Hget. apply not_elem_of_cons. split; [done | by apply IH].
Qed.

Lemma mapping_distinct_NoDup (l : list (Z * V)) :
  Mapping.distinct l = true -> NoDup l.*1.
Proof.
  induction l as [|[k v] l IH]; simpl.
  - intros _. constructor.
  - destruct (Mapping.get k l) eqn:Hget; [done|].
    intros Hd. constructor; [by apply mapping_get_None | by apply IH].
Qed.

Lemma mapping_NoDup_keys r : NoDup (Mapping.items r).*1.
Proof. apply mapping_distinct_NoDup, Mapping.items_distinct. Qed.

Lemma mapping_get_elem k v (l : list (Z * V)) :
  NoDup l.*1 -> (k, v) ∈ l -> Mapping.get k l = Some v.
Proof.
  induction l as [|[k' v'] l IH]; simpl; intros Hnd Hin.
  - by apply elem_of_nil in Hin.
  - apply NoDup_cons in Hnd as [Hfresh Hnd].
    apply elem_of_cons in Hin as [[= <- <-]|Hin].
    + by rewrite Z.eqb_refl.
    + destruct (Z.eqb_spec k k') as [->|_]; [|by apply IH].
      destruct Hfresh. apply list_elem_of_fmap. by exists (k', v).
Qed.

Lemma mapping_elem_of_items r k v :
  (k, v) ∈ Mapping.items r <-> r !! k = Some v.
Proof.
  split; [|apply mapping_get_Some].
  apply mapping_get_elem, mapping_NoDup_keys.
Qed.

(** After [d.update(r)], a key of [r] has the value [r] gives it, and any
    other key the value it had. *)
Lemma get_update k d r :
  OrderedDict.get k (OrderedDict.update d r)
  = match r !! k with
    | Some v => Some v
    | None => OrderedDict.get k d
    end.
Proof.
  unfold OrderedDict.update. destruct (r !! k) as [v|] eqn:Hk.
  - apply get_fold_set_present.
    + apply mapping_NoDup_keys.
    + by apply mapping_elem_of_items.
  - apply get_fold_set_absent. by apply mapping_get_None.
Qed.

Lemma get_fold_update_absent k (rs : list (Mapping.t V)) d :
  Forall (fun r => r !! k = None) rs ->
  OrderedDict.get k (fold_left OrderedDict.update rs d) = OrderedDict.get k d.
Proof.
  revert d. induction rs as [|r rs IH]; intros d Hrs; simpl; [done|].
  apply Forall_cons in Hrs as [Hr Hrs].
  rewrite IH by done. by rewrite get_update, Hr.
Qed.

Lemma is_Some_get_fold_update k (rs : list (Mapping.t V)) d :
  is_Some (OrderedDict.get k (fold_left OrderedDict.update rs d))
  <-> is_Some (OrderedDict.get k d) \/ exists r, r ∈ rs /\ is_Some (r !! k).
Proof.
  revert d. induction rs as [|r rs IH]; intros d; simpl.
  - split; [by left|]. intros [?|(r & Hr & _)]; [done|].
    by apply elem_of_nil in Hr.
  - rewrite IH, get_update. split.
    + intros [Hsome|(r' & Hr' & Hk)].
      * destruct (r !! k) as [v|] eqn:Hr; [|by left].
        right. exists r. split; [by left | by rewrite Hr].
      * right. exists r'. split; [by right | done].
    + intros [Hsome|(r' & Hr' & Hk)].
      * left. by destruct (r !! k).
      * apply elem_of_cons in Hr' as [->|Hr'].
        -- left. destruct (r !! k); [by eexists | by destruct Hk].
        -- right. by exists r'.
Qed.

Lemma keys_set k v d :
  OrderedDict.keys (OrderedDict.set k v d)
  = if decide (k ∈ OrderedDict.keys d) then OrderedDict.keys d
    else OrderedDict.keys d ++ [k].
Proof.
  unfold OrderedDict.keys. induction d as [|[k0 v0] d IH].
  - destruct (decide (k ∈ ([] : OrderedDict.t V).*1)) as [Hin|_]; [|done].
    by apply elem_of_nil in Hin.
  - cbn [OrderedDict.set]. rewrite fmap_cons. cbn [fst].
    destruct (Z.eqb_spec k k0) as [->|Hne].
    + rewrite decide_True by (by left). done.
    + rewrite fmap_cons, IH. cbn [fst].
      destruct (decide (k ∈ d.*1)) as [Hin|Hout].
      * rewrite decide_True by (by right). done.
      * rewrite decide_False; [done|]. intros [?|?]%elem_of_cons; done.
Qed.


Lemma NoDup_keys_set k v d :
  NoDup (OrderedDict.keys d) -> NoDup (OrderedDict.keys (OrderedDict.set k v d)).
Proof.
  intros Hnd. rewrite keys_set. destruct (decide _) as [|Hout]; [done|].
  apply NoDup_app. split; [done|]. split; [|apply NoDup_singleton].
  intros x Hx ->%list_elem_of_singleton. done.
Qed.

Lemma keys_fold_set (l : list (Z * V)) d :
  NoDup (OrderedDict.keys d) ->
  NoDup (OrderedDict.keys
           (fold_left (fun acc kv => OrderedDict.set kv.1 kv.2 acc) l d))
  /\ exists new,
       OrderedDict.keys (fold_left (fun acc kv => OrderedDict.set kv.1 kv.2 acc) l d)
       = OrderedDict.keys d ++ new.
Proof.
  revert d. induction l as [|[k v] l IH]; intros d Hnd; simpl.
  - split; [done|]. exists []. by rewrite app_nil_r.
  - destruct (IH (OrderedDict.set k v d)) as [Hnd' [new Hnew]].
    { by apply NoDup_keys_set. }
    split; [done|]. rewrite Hnew, keys_set.
    destruct (decide _); [by exists new|].
    exists (k :: new). by rewrite <- app_assoc.
Qed.

Lemma keys_fold_update (rs : list (Mapping.t V)) d :
  NoDup (OrderedDict.keys d) ->
  NoDup (OrderedDict.keys (fold_left OrderedDict.update rs d))
  /\ exists new,
       OrderedDict.keys (fold_left OrderedDict.update rs d)
       = OrderedDict.keys d ++ new.
Proof.
  revert d. induction rs as [|r rs IH]; intros d Hnd; simpl.
  - split; [done|]. exists []. by rewrite app_nil_r.
  - destruct (keys_fold_set (Mapping.items r) d Hnd) as [Hnd1 [new1 Hnew1]].
    destruct (IH (OrderedDict.update d r) Hnd1) as [Hnd2 [new2 Hnew2]].
    split; [done|]. exists (new1 ++ new2).
    rewrite Hnew2. unfold OrderedDict.update at 1. rewrite Hnew1.
    by rewrite <- app_assoc.
Qed.

Lemma fold_update_items (rs : list (Mapping.t V)) d :
  fold_left OrderedDict.update rs d
  = fold_left (fun acc kv => OrderedDict.set kv.1 kv.2 acc)
      (mjoin (map Mapping.items rs)) d.
Proof.
  revert d. induction rs as [|r rs IH]; intros d; [done|].
  change (mjoin (map Mapping.items (r :: rs)))
    with (Mapping.items r ++ mjoin (map Mapping.items rs)).
  rewrite fold_left_app. cbn [fold_left]. by rewrite IH.
Qed.

(** The keys after a sequence of assignments: those there were, then the
    new ones in the order of their first assignment. *)
Lemma keys_fold_set_first_seen (l : list (Z * V)) d :
  OrderedDict.keys (fold_left (fun acc kv => OrderedDict.set kv.1 kv.2 acc) l d)
  = OrderedDict.keys d
    ++ filter (fun k => k ∉ OrderedDict.keys d) (first_seen l.*1).
Proof.
  revert d. induction l as [|[k v] l IH]; intros d.
  - simpl. by rewrite app_nil_r.
  - cbn [fold_left fst snd]. rewrite IH, keys_set, fmap_cons.
    cbn [first_seen fst].
    destruct (decide (k ∈ OrderedDict.keys d)) as [Hin|Hout].
    + f_equal. rewrite filter_cons_False by (by intros ?).
      rewrite list_filter_filter. apply list_filter_iff.
      intros x. split; [|tauto]. intros Hx. split; [done|]. by intros ->.
    + rewrite <- app_assoc. f_equal. rewrite filter_cons_True by done.
      cbn [app]. f_equal. rewrite list_filter_filter. apply list_filter_iff.
      intros x. rewrite not_elem_of_app, list_elem_of_singleton. tauto.
Qed.

(** The keys of the accumulation of step results: the keys of the results
    in the order of the steps, each at its first occurrence. *)
Lemma keys_accumulate (rs : list (Mapping.t V)) :
  OrderedDict.keys (fold_left OrderedDict.update rs OrderedDict.empty)
  = first_seen (mjoin (map Mapping.items rs)).*1.
Proof.
  rewrite fold_update_items, keys_fold_set_first_seen.
  cbn [OrderedDict.keys OrderedDict.empty fmap list_fmap app].
  induction (first_seen _) as [|x l IH]; [done|].
  rewrite filter_cons_True by apply not_elem_of_nil. by rewrite IH.
Qed.

End Accumulator.



(** ** The run loop *)

Section RunLoop.

Context {OptState I St : Type}.
Context (step : OptState -> Py.result (Mapping.t PrimFloat.float) * OptState).
Context (examine : Handle I -> OrderedDict.t PrimFloat.float -> Py.result Pandas.DataFrame).

(** The optimizer is a state machine: the steps it takes from a state, and
    the state they leave, are determined. *)
Lemma steps_yield_deterministic (o o1 o2 : OptState)
    (rs : list (Mapping.t PrimFloat.float)) :
  steps_yield step o rs o1 -> steps_yield step o rs o2 -> o1 = o2.
Proof.
  induction 1 as [o|o o' o'' r rs Hstep Hrest IH]; inversion 1; subst; [done|].
  apply IH. congruence.
Qed.

Lemma steps_yield_take (o o1 : OptState) (rs : list (Mapping.t PrimFloat.float)) :
  steps_yield step o rs o1 ->
  forall n : nat, exists o', steps_yield step o (take n rs) o'.
Proof.
  induction 1 as [o|o o' o'' r rs Hstep Hrest IH]; intros n.
  - exists o. rewrite take_nil. constructor.
  - destruct n as [|n]; simpl.
    + exists o. constructor.
    + destruct (IH n) as [o3 Htake]. exists o3. by eapply yield_cons.
Qed.

(** A budget that the optimizer outlasts leaves the optimizer where the
    last of the budgeted steps left it. *)
Lemma launch_loop_budget_exact (o o1 : OptState) (rs : list (Mapping.t PrimFloat.float)) :
  steps_yield step o rs o1 ->
  forall fuel : nat,
    (length rs <= fuel)%nat ->
    Manager.launch_loop step fuel (Some (length rs)) o
    = Some (Manager.Launched rs None o1).
Proof.
  induction 1 as [o|o o' o'' r rs Hstep Hrest IH]; intros fuel Hfuel.
  - by destruct fuel.
  - destruct fuel as [|fuel]; [simpl in Hfuel; lia|]. simpl in Hfuel.
    simpl. rewrite Hstep. simpl. rewrite IH by lia. done.
Qed.

(** Without a budget, or with one the optimizer does not outlast, the loop
    ends when the optimizer signals exhaustion. *)
Lemma launch_loop_exhausted (o o1 o2 : OptState) (rs : list (Mapping.t PrimFloat.float)) :
  steps_yield step o rs o1 ->
  step o1 = (Py.Raise Py.StopIteration, o2) ->
  forall (steps_range : option nat) (fuel : nat),
    (forall n, steps_range = Some n -> (length rs < n)%nat) ->
    (length rs < fuel)%nat ->
    Manager.launch_loop step fuel steps_range o = Some (Manager.Launched rs None o2).
Proof.
  induction 1 as [o|o o' o'' r rs Hstep Hrest IH]; intros Hstop steps_range fuel Hrange Hfuel.
  - destruct fuel as [|fuel]; [simpl in Hfuel; lia|].
    destruct steps_range as [[|n]|]; simpl.
    + specialize (Hrange 0%nat eq_refl). simpl in Hrange. lia.
    + by rewrite Hstop.
    + by rewrite Hstop.
  - destruct fuel as [|fuel]; [simpl in Hfuel; lia|]. simpl in Hfuel.
    assert (Manager.launch_loop step fuel (Nat.pred <$> steps_range) o'
            = Some (Manager.Launched rs None o2)) as Hloop.
    { apply IH; [done| |lia].
      intros n Hn. destruct steps_range as [m|]; [|done].
      injection Hn as <-. specialize (Hrange m eq_refl). simpl in Hrange. lia. }
    destruct steps_range as [[|n]|]; simpl.
    + specialize (Hrange 0%nat eq_refl). lia.
    + rewrite Hstep. simpl in Hloop. by rewrite Hloop.
    + rewrite Hstep. simpl in Hloop. by rewrite Hloop.
Qed.

(** C2. [Manager.run] stops at the earlier of the optimizer signalling
    exhaustion and the budget being consumed, and exhaustion is a successful
    completion. Let the optimizer return the step results [rs] in turn, and
    then signal exhaustion, unless the budget [steps] is consumed within [rs];
    an absent budget counts as the number of steps the optimizer has in it,
    and [fuel] only bounds the unfolding of the loop. Then:
    - the generator yields [taken], the first [min budget (length rs)] step
      results, and ends without an exception;
    - it leaves the optimizer in the state [final]: when the budget is
      consumed within [rs], the state after exactly the [taken] steps, with
      no further call of [step]; otherwise the state that the call signalling
      exhaustion leaves;
    - [run] returns what the examinator makes of the accumulation of
      [taken], together with that state;
    - the accumulation holds the keys of the [taken] results in the order
      in which the steps first gave them, each once, and each with the value
      of the last of the [taken] results that holds it. *)
Theorem run_stops_at_exhaustion_or_budget (o o1 : OptState)
    (rs : list (Mapping.t PrimFloat.float)) (corpus : Corpus I St)
    (steps : option Z) (fuel : nat) :
  steps_yield step o rs o1 ->
  (exists o2, step o1 = (Py.Raise Py.StopIteration, o2))
  \/ (exists z, steps = Some z /\ (Z.to_nat z <= length rs)%nat) ->
  (length rs < fuel)%nat ->
  let budget := match steps with
                | None => length rs
                | Some z => Z.to_nat z
                end in
  let taken := take budget rs in
  let accumulated := Manager.accumulate taken in
  exists final : OptState,
    Manager._launch step fuel o steps = Some (Manager.Launched taken None final)
    /\ length taken = Nat.min budget (length rs)
    /\ match steps with
       | Some z =>
           if decide (Z.to_nat z <= length rs)%nat
           then steps_yield step o taken final
           else step o1 = (Py.Raise Py.StopIteration, final)
       | None => step o1 = (Py.Raise Py.StopIteration, final)
       end
    /\ Manager.run step examine fuel o corpus steps
       = Some (examine (corpus_index corpus) accumulated, final)
    /\ OrderedDict.keys accumulated
       = first_seen (mjoin (map Mapping.items taken)).*1
    /\ (forall k : Z,
          is_Some (OrderedDict.get k accumulated)
          <-> exists r, r ∈ taken /\ is_Some (r !! k))
    /\ (forall rs1 r rs2 k v,
          taken = rs1 ++ r :: rs2 ->
          r !! k = Some v ->
          Forall (fun r' => r' !! k = None) rs2 ->
          OrderedDict.get k accumulated = Some v).
Proof.
  intros Hyield Hend Hfuel budget taken accumulated.
  assert (exists final,
            Manager._launch step fuel o steps
            = Some (Manager.Launched taken None final)
            /\ match steps with
               | Some z =>
                   if decide (Z.to_nat z <= length rs)%nat
                   then steps_yield step o taken final
                   else step o1 = (Py.Raise Py.StopIteration, final)
               | None => step o1 = (Py.Raise Py.StopIteration, final)
               end) as (final & Hl & Hfinal).
  { unfold Manager._launch, taken, budget. destruct steps as [z|]; simpl.
    - destruct (decide (Z.to_nat z <= length rs)%nat) as [Hle|Hgt].
      + destruct (steps_yield_take _ _ _ Hyield (Z.to_nat z)) as [o' Htake].
        exists o'. split; [|done].
        pose proof (launch_loop_budget_exact _ _ _ Htake fuel) as Hloop.
        rewrite length_take, Nat.min_l in Hloop by done.
        apply Hloop. lia.
      + destruct Hend as [[o2 Hstop]|(z' & [= <-] & Hle)]; [|lia].
        exists o2. split; [|done]. rewrite take_ge by lia.
        eapply launch_loop_exhausted; [done..| |done].
        intros n [= <-]. lia.
    - destruct Hend as [[o2 Hstop]|(z' & [=] & _)].
      exists o2. split; [|done]. rewrite firstn_all.
      eapply launch_loop_exhausted; [done..| |done]. by intros n [=]. }
  exists final. split; [exact Hl|].
  split; [apply length_take|]. split; [exact Hfinal|].
  split; [unfold Manager.run; by rewrite Hl|].
  split; [apply keys_accumulate|]. split.
  - intros k. unfold accumulated, Manager.accumulate.
    rewrite is_Some_get_fold_update. split.
    + intros [[v Hv]|Hr]; [discriminate Hv | done].
    + by right.
  - intros rs1 r rs2 k v Heq Hr Hlater.
    unfold accumulated, Manager.accumulate. rewrite Heq, fold_left_app. simpl.
    rewrite get_fold_update_absent by done.
    by rewrite get_update, Hr.
Qed.

End RunLoop.

Lemma stub_yields_three : steps_yield stub_step 0%nat stub_results 3%nat.
Proof. repeat (eapply yield_cons; [reflexivity|]). apply yield_nil. Qed.

(** C2, witness: the stub, whose state counts the results it has returned,
    is exhausted after exactly 3 steps. With a budget of 5 and with no
    budget, [run] returns the table of the 3 step results, rows 0, 1, 2, 3
    in the order they were first scored, row 0 with its later score; with a
    budget of 2 it takes 2 steps and returns the table of the first 2 step
    results, without error. *)
Lemma run_stops_at_exhaustion_or_budget_witness :
  stub_step 3%nat = (Py.Raise Py.StopIteration, 3%nat)
  /\ Manager.run stub_step stub_examine 10 0%nat corpus_ab_c (Some 5%Z)
     = Some (Py.Ok (Pandas.Frame 4
                      [("index", [Pandas.Text "0"; Pandas.Text "1";
                                  Pandas.Text "2"; Pandas.Text "3"]);
                       ("score", [Pandas.Number 0.125; Pandas.Number 0.25;
                                  Pandas.Number 0.75; Pandas.Number 1])]),
             3%nat)
  /\ Manager.run stub_step stub_examine 10 0%nat corpus_ab_c None
     = Manager.run stub_step stub_examine 10 0%nat corpus_ab_c (Some 5%Z)
  /\ Manager.run stub_step stub_examine 10 0%nat corpus_ab_c (Some 2%Z)
     = Some (Py.Ok (Pandas.Frame 3
                      [("index", [Pandas.Text "0"; Pandas.Text "1"; Pandas.Text "2"]);
                       ("score", [Pandas.Number 0.5; Pandas.Number 0.25;
                                  Pandas.Number 0.75])]),
             2%nat).
Proof.
  assert (exists o2, stub_step 3%nat = (Py.Raise Py.StopIteration, o2)) as Hstop
    by (by exists 3%nat).
  pose proof (run_stops_at_exhaustion_or_budget stub_step stub_examine 0%nat 3%nat
                stub_results corpus_ab_c (Some 5%Z) 10 stub_yields_three
                (or_introl Hstop)) as Hfive.
  pose proof (run_stops_at_exhaustion_or_budget stub_step stub_examine 0%nat 3%nat
                stub_results corpus_ab_c None 10 stub_yields_three
                (or_introl Hstop)) as Hnone.
  pose proof (run_stops_at_exhaustion_or_budget stub_step stub_examine 0%nat 3%nat
                stub_results corpus_ab_c (Some 2%Z) 10 stub_yields_three
                (or_introl Hstop)) as Htwo.
  destruct Hfive as (f5 & _ & _ & Hf5 & Hrun5 & _); [simpl; lia|].
  destruct Hnone as (fn & _ & _ & Hfn & Hrunn & _); [simpl; lia|].
  destruct Htwo as (f2 & Hl2 & _ & _ & Hrun2 & _); [simpl; lia|].
  simpl in Hf5, Hfn. injection Hf5 as <-. injection Hfn as <-.
  assert (f2 = 2%nat) as -> by (vm_compute in Hl2; congruence).
  split; [reflexivity|].
  split; [rewrite Hrun5; reflexivity|].
  split; [rewrite Hrunn, Hrun5; reflexivity|].
  rewrite Hrun2. reflexivity.
Defined.

(** ** Directories *)

Lemma child_name_spec (p k : Fs.path) (n : string) :
  Fs.child_name p k = Some n <-> k = p ++ [n].
Proof.
  revert k. induction p as [|c p IH]; intros k; simpl.
  - destruct k as [|k1 [|k2 k]]; split; intros H; by simplify_eq.
  - destruct k as [|c' k]; [done|].
    destruct (String.eqb_spec c c') as [->|Hne].
    + rewrite IH. split; [by intros -> | by intros [= ->]].
    + split; [done | intros [= -> _]; done].
Qed.

Lemma lookup_node_child (fs : gmap Fs.path Fs.node) (p : Fs.path) (n : string) :
  Fs.lookup_node fs (p ++ [n]) = fs !! (p ++ [n]).
Proof. by destruct p. Qed.

Lemma elem_of_listdir (fs : gmap Fs.path Fs.node) (p : Fs.path) (n : string) :
  Fs.is_dir fs p = true ->
  n ∈ Fs.listdir fs p <-> is_Some (fs !! (p ++ [n])).
Proof.
  intros Hdir. unfold Fs.listdir. rewrite Hdir, list_elem_of_omap. split.
  - intros ([k x] & Hin & Hchild). simpl in Hchild.
    apply child_name_spec in Hchild as ->.
    apply elem_of_map_to_list in Hin. by exists x.
  - intros [x Hx]. exists (p ++ [n], x). split.
    + by apply elem_of_map_to_list.
    + by apply child_name_spec.
Qed.

Lemma listdir_not_dir (fs : gmap Fs.path Fs.node) (p : Fs.path) :
  Fs.is_dir fs p = false -> Fs.listdir fs p = [].
Proof. unfold Fs.listdir. by intros ->. Qed.

Lemma NoDup_children (p : Fs.path) (l : list (Fs.path * Fs.node)) :
  NoDup l.*1 -> NoDup (omap (fun kv => Fs.child_name p kv.1) l).
Proof.
  induction l as [|[k x] l IH]; simpl; intros Hnd; [constructor|].
  apply NoDup_cons in Hnd as [Hfresh Hnd].
  destruct (Fs.child_name p k) as [n|] eqn:Hk; [|by apply IH].
  apply NoDup_cons. split; [|by apply IH].
  intros ([k' x'] & Hin & Hk')%list_elem_of_omap. simpl in Hk'.
  apply child_name_spec in Hk, Hk'. subst.
  apply Hfresh, list_elem_of_fmap. by exists (p ++ [n], x').
Qed.

Lemma NoDup_listdir (fs : gmap Fs.path Fs.node) (p : Fs.path) :
  NoDup (Fs.listdir fs p).
Proof.
  unfold Fs.listdir. destruct (Fs.is_dir fs p); [|constructor].
  apply NoDup_children, NoDup_fst_map_to_list.
Qed.

(** ** Loading *)

(** Reading the files named [names] in the directory [p], all of them
    regular files that parse. *)
Lemma read_all_files (fs : gmap Fs.path Fs.node) (p : Fs.path) (names : list string) :
  (forall n, n ∈ names -> exists t, fs !! (p ++ [n]) = Some (Fs.File (Py.Ok t))) ->
  exists files : list (string * Pandas.DataFrame),
    files.*1 = names
    /\ Forall (fun nt => fs !! (p ++ [nt.1]) = Some (Fs.File (Py.Ok nt.2))) files
    /\ Manager.read_all fs (map (fun n => p ++ [n]) names) = Py.Ok files.*2.
Proof.
  induction names as [|n names IH]; intros Hfiles.
  - by exists [].
  - destruct (Hfiles n) as [t Ht]; [by left|].
    destruct IH as (files & Hnames & Hall & Hread).
    { intros n' Hn'. apply Hfiles. by right. }
    exists ((n, t) :: files). split; [by rewrite <- Hnames|]. split.
    + by constructor.
    + simpl. unfold Fs.read_csv. rewrite lookup_node_child, Ht. by rewrite Hread.
Qed.

Lemma fst_map_pair {A B} (f : A -> B) (l : list A) :
  (map (fun x => (x, f x)) l).*1 = l.
Proof.
  induction l as [|x l IH]; [done|].
  cbn [map]. rewrite fmap_cons. cbn [fst]. by rewrite IH.
Qed.

Lemma get_column_map (f : string -> list Pandas.cell) (names : list string) (c : string) :
  c ∈ names ->
  Pandas.get_column c (map (fun c' => (c', f c')) names) = Some (f c).
Proof.
  induction names as [|c0 names IH]; intros Hin.
  - by apply elem_of_nil in Hin.
  - simpl. destruct (String.eqb_spec c c0) as [->|Hne]; [done|].
    apply IH. by apply elem_of_cons in Hin as [?|?].
Qed.

(** What [pd.concat] makes of tables: as many rows as they have together;
    their columns, each once, in the order of their first appearance; and
    under each name the columns of that name one below the other, a table
    without the column giving missing values for its rows. *)
Lemma concat_spec (dfs : list Pandas.DataFrame) :
  dfs <> [] ->
  exists df,
    Pandas.concat dfs = Py.Ok df
    /\ Pandas.nrows df = sum_list (map Pandas.nrows dfs)
    /\ (Pandas.columns df).*1
       = Pandas.first_occurrences (mjoin (map (fun t => (Pandas.columns t).*1) dfs))
    /\ (forall c, c ∈ (Pandas.columns df).*1 ->
                  Pandas.get_column c (Pandas.columns df)
                  = Some (mjoin (map (Pandas.column_or_missing c) dfs))).
Proof.
  intros Hne.
  set (f := fun c => mjoin (map (Pandas.column_or_missing c) dfs)).
  set (names := Pandas.first_occurrences
                  (mjoin (map (fun t => (Pandas.columns t).*1) dfs))).
  exists (Pandas.Frame (sum_list (map Pandas.nrows dfs))
            (map (fun c => (c, f c)) names)).
  split; [by destruct dfs|]. split; [done|].
  cbn [Pandas.columns]. rewrite fst_map_pair. split; [done|].
  intros c Hc. by apply get_column_map.
Qed.

(** C3. [Manager.load] raises a [ValueError] on an existing directory with no
    entry matching [*.csv], and on a path that does not exist. On a directory
    with at least one result file, provided that every entry matching [*.csv]
    is a regular file that [pd.read_csv] parses, it returns the vertical
    concatenation of the tables of all the csv files of the directory: the
    table has the rows of all of them, the columns of all of them, and under
    each column name the cells of the files one below the other (missing
    values where a file has no such column). *)
Theorem load_contract (path : Fs.path) (w : World.world) :
  let fs := World.files w in
  (Fs.is_dir fs path = true ->
   (forall n, Fs.is_csv n = true -> fs !! (path ++ [n]) = None) ->
   exists msg, Manager.load path w = Py.Raise (Py.ValueError msg))
  /\ (Fs.exists_ fs path = false ->
      exists msg, Manager.load path w = Py.Raise (Py.ValueError msg))
  /\ (Fs.is_dir fs path = true ->
      (exists n, Fs.is_csv n = true /\ is_Some (fs !! (path ++ [n]))) ->
      (forall n node, Fs.is_csv n = true -> fs !! (path ++ [n]) = Some node ->
                      exists t, node = Fs.File (Py.Ok t)) ->
      exists (files : list (string * Pandas.DataFrame)) (df : Pandas.DataFrame),
        files <> []
        /\ NoDup files.*1
        /\ (forall n t, (n, t) ∈ files
                        <-> Fs.is_csv n = true
                            /\ fs !! (path ++ [n]) = Some (Fs.File (Py.Ok t)))
        /\ Manager.load path w = Py.Ok df
        /\ Pandas.concat files.*2 = Py.Ok df
        /\ Pandas.nrows df = sum_list (map Pandas.nrows files.*2)
        /\ (Pandas.columns df).*1
           = Pandas.first_occurrences
               (mjoin (map (fun t => (Pandas.columns t).*1) files.*2))
        /\ (forall c, c ∈ (Pandas.columns df).*1 ->
                      Pandas.get_column c (Pandas.columns df)
                      = Some (mjoin (map (Pandas.column_or_missing c) files.*2)))).
Proof.
  intros fs. split; [|split].
  - intros Hdir Hnone. unfold Manager.load, Fs.glob_csv. fold fs.
    assert (filter (fun n => Fs.is_csv n = true) (Fs.listdir fs path) = []) as ->.
    { apply elem_of_nil_inv. intros n [Hcsv Hin]%list_elem_of_filter.
      apply elem_of_listdir in Hin as [x Hx]; [|done].
      rewrite Hnone in Hx; done. }
    simpl. by eexists.
  - intros Hex. unfold Manager.load, Fs.glob_csv. fold fs.
    rewrite listdir_not_dir.
    + simpl. by eexists.
    + unfold Fs.exists_, Fs.is_dir in *. by destruct (Fs.lookup_node fs path).
  - intros Hdir (n0 & Hcsv0 & Hsome0) Hfiles.
    set (names := filter (fun n => Fs.is_csv n = true) (Fs.listdir fs path)).
    assert (forall n, n ∈ names <-> Fs.is_csv n = true /\ is_Some (fs !! (path ++ [n])))
      as Hnames.
    { intros n. unfold names. rewrite list_elem_of_filter, elem_of_listdir by done.
      tauto. }
    destruct (read_all_files fs path names) as (files & Hfst & Hall & Hread).
    { intros n [Hcsv [node Hnode]]%Hnames.
      destruct (Hfiles n node Hcsv Hnode) as [t ->]. by exists t. }
    assert (files <> []) as Hne.
    { intros ->. simpl in Hfst.
      assert (n0 ∈ names) as Hin by by apply Hnames.
      rewrite <- Hfst in Hin. by apply elem_of_nil in Hin. }
    destruct (concat_spec files.*2) as (df & Hconcat & Hrows & Hcols & Hcells).
    { by destruct files. }
    exists files, df. split; [done|]. split.
    { rewrite Hfst. apply NoDup_filter, NoDup_listdir. }
    split; [|split; [|done]].
    + intros n t. rewrite Forall_forall in Hall. split.
      * intros Hin. split; [|by apply (Hall (n, t))].
        assert (n ∈ names) as Hn.
        { rewrite <- Hfst. apply list_elem_of_fmap. by exists (n, t). }
        by apply Hnames in Hn as [? _].
      * intros [Hcsv Hnode].
        assert (n ∈ files.*1) as Hn.
        { rewrite Hfst. apply Hnames. split; [done | by eexists]. }
        apply list_elem_of_fmap in Hn as ([n' t'] & -> & Hin). simpl in *.
        pose proof (Hall _ Hin) as Ht'. simpl in Ht'.
        rewrite Hnode in Ht'. by injection Ht' as ->.
    + unfold Manager.load, Fs.glob_csv. fold fs. fold names.
      rewrite Hread. destruct (files.*2) as [|d ds] eqn:E; [|done].
      by destruct files.
Qed.

(** C3, witness: an empty directory, a missing path, and a directory with
    two result files among other entries, of 1 and 2 rows, one of them with
    a column the other lacks; the cells are given up to the order in which
    the files are read. *)
Lemma load_contract_witness :
  (exists msg, Manager.load ["out"] world_empty_dir = Py.Raise (Py.ValueError msg))
  /\ (exists msg, Manager.load ["out"] world_bare = Py.Raise (Py.ValueError msg))
  /\ (exists df score model,
        Manager.load ["out"] world_results = Py.Ok df
        /\ Pandas.nrows df = 3%nat
        /\ (Pandas.columns df).*1 = ["score"; "model"]
        /\ Pandas.get_column "score" (Pandas.columns df) = Some score
        /\ score ≡ₚ [Pandas.Number 0.5; Pandas.Number 0.25; Pandas.Number 1]
        /\ Pandas.get_column "model" (Pandas.columns df) = Some model
        /\ model ≡ₚ [Pandas.Number PrimFloat.nan; Pandas.Number PrimFloat.nan;
                     Pandas.Text "m"]).
Proof.
  split; [|split].
  - apply (proj1 (load_contract ["out"] world_empty_dir)); [reflexivity|].
    intros n _. simpl. by apply lookup_insert_None.
  - apply (proj1 (proj2 (load_contract ["out"] world_bare))). reflexivity.
  - destruct (proj2 (proj2 (load_contract ["out"] world_results)))
      as (files & df & Hne & Hnd & Hfiles & Hload & Hconcat & Hrows & Hcols & Hcells).
    + reflexivity.
    + exists "a.csv". split; [reflexivity | by eexists].
    + intros n node Hcsv Hnode. simpl in Hnode.
      repeat (apply lookup_insert_Some in Hnode as [[Heq <-]|[_ Hnode]];
              [first [discriminate Heq
                     | injection Heq as <-; first [discriminate Hcsv | by eexists]]|]).
      by rewrite lookup_empty in Hnode.
    + assert (Manager.load ["out"] world_results
              = Pandas.concat [sample_other; sample_scores]) as Heval
        by (vm_compute; reflexivity).
      rewrite Hload in Heval.
      vm_compute in Heval. injection Heval as ->.
      eexists _, _, _. split; [exact Hload|].
      split; [reflexivity|]. split; [reflexivity|].
      split; [reflexivity|]. split; [|split; [reflexivity|]].
      * apply Permutation_cons_append.
      * apply Permutation_cons_append.
Defined.

(** C3, counterexample: the directory holds the result files a.csv and
    b.csv, and a subdirectory named old.csv; [glob("*.csv")] yields the
    subdirectory with the files, [pd.read_csv] fails on it, and [load]
    returns no table. *)
Lemma load_fails_beside_result_files :
  Fs.is_dir (World.files world_with_subdir) ["out"] = true
  /\ Fs.is_csv "a.csv" = true
  /\ World.files world_with_subdir !! ["out"; "a.csv"]
     = Some (Fs.File (Py.Ok sample_scores))
  /\ Manager.load ["out"] world_with_subdir
     = Py.Raise (Py.IsADirectoryError "/out/old.csv")
  /\ ~ exists df, Manager.load ["out"] world_with_subdir = Py.Ok df.
Proof.
  assert (Manager.load ["out"] world_with_subdir
          = Py.Raise (Py.IsADirectoryError "/out/old.csv")) as Hload
    by (vm_compute; reflexivity).
  split; [reflexivity|]. split; [reflexivity|]. split; [reflexivity|].
  split; [exact Hload|]. intros [df Hdf]. rewrite Hload in Hdf. discriminate Hdf.
Qed.

(** ** Computations in the world *)

Lemma bind_ok {A B} (c : World.M A) (k : A -> World.M B) (w w' : World.world) (a : A) :
  c w = (Py.Ok a, w') -> World.bind c k w = k a w'.
Proof. unfold World.bind. by intros ->. Qed.

Lemma copy_spec (w : World.world) (l : World.loc) (t : Pandas.DataFrame) :
  World.heap w !! l = Some t ->
  World.copy l w
  = (Py.Ok (length (World.heap w)), World.with_heap (World.heap w ++ [t]) w).
Proof.
  intros Hl. unfold World.copy.
  erewrite bind_ok; [reflexivity|]. unfold World.read. by rewrite Hl.
Qed.

(** One [assign] of [with_identifier_cols], on the newest object. *)
Lemma assign_spec (w : World.world) (h : list Pandas.DataFrame) (t : Pandas.DataFrame)
    (column data : string) :
  World.heap w = h ++ [t] ->
  World.bind (World.read (length h))
    (fun d => World.setitem (length h) column
                (replicate (Pandas.len d) (Pandas.Text data))) w
  = (Py.Ok tt, World.with_heap (h ++ [assigned t column data]) w).
Proof.
  intros Hw.
  assert (World.read (length h) w = (Py.Ok t, w)) as Hread.
  { unfold World.read. by rewrite Hw, list_lookup_middle. }
  rewrite (bind_ok _ _ _ _ _ Hread).
  unfold World.setitem. rewrite (bind_ok _ _ _ _ _ Hread).
  unfold World.lift, Pandas.setitem, Pandas.len.
  rewrite length_replicate, Nat.eqb_refl.
  erewrite bind_ok; [|reflexivity].
  unfold World.write. rewrite Hw. do 2 f_equal.
  rewrite insert_app_r_alt by lia.
  by replace (length h - length h)%nat with 0%nat by lia.
Qed.

Section Identification.

Context {O I St Mo Ad E : Type}.
Context `{!Py.Str O, !Py.Str I, !Py.Str St, !Py.Str Mo, !Py.Str Ad, !Py.Str E}.
Context (columns : Columns.t).

(** [with_identifier_cols] on a table [t] held by the object [df]: a new
    object is made, holding [t] with the identifier columns, and returned
    with the run identity. *)
Lemma with_identifier_cols_spec (self : Manager.t) (w : World.world) (df : World.loc)
    (t : Pandas.DataFrame) (o : O) (c : Corpus I St) (m : Mo) (a : Ad) (e : E) :
  World.heap w !! df = Some t ->
  Manager.with_identifier_cols columns self df o c m a e w
  = (Py.Ok (Manager.md5 o c m a e (Manager._start self), length (World.heap w)),
     World.with_heap (World.heap w ++ [identified columns self t o c m a e]) w).
Proof.
  intros Hdf. unfold Manager.with_identifier_cols.
  rewrite (bind_ok _ _ _ _ _ (copy_spec w df t Hdf)).
  repeat (erewrite bind_ok; [|by apply assign_spec]).
  reflexivity.
Qed.

End Identification.

(** ** Identifier columns and saving *)

Section Saving.

Context {O I St Mo Ad E : Type}.
Context `{!Py.Str O, !Py.Str I, !Py.Str St, !Py.Str Mo, !Py.Str Ad, !Py.Str E}.
Context (columns : Columns.t).

Lemma identified_nrows (self : Manager.t) (t : Pandas.DataFrame) (o : O)
    (c : Corpus I St) (m : Mo) (a : Ad) (e : E) :
  Pandas.nrows (identified columns self t o c m a e) = Pandas.nrows t.
Proof. reflexivity. Qed.

(** Saving without an output directory. *)
Lemma save_no_path (self : Manager.t) (w : World.world) (scores : World.loc)
    (t : Pandas.DataFrame) (o : O) (c : Corpus I St) (m : Mo) (a : Ad) (e : E) :
  Manager.path self = None ->
  World.heap w !! scores = Some t ->
  Manager.save columns self scores o c m a e w
  = (Py.Raise (Py.ValueError "No path specified. Set the path to save the scores."),
     World.with_heap (World.heap w ++ [identified columns self t o c m a e]) w).
Proof.
  intros Hpath Hscores. unfold Manager.save.
  rewrite (bind_ok _ _ _ _ _ (with_identifier_cols_spec columns self w scores t
                                 o c m a e Hscores)).
  by rewrite Hpath.
Qed.

(** Saving into an output directory that exists. *)
Lemma save_spec (self : Manager.t) (q : Fs.path) (w : World.world) (scores : World.loc)
    (t : Pandas.DataFrame) (o : O) (c : Corpus I St) (m : Mo) (a : Ad) (e : E) :
  Manager.path self = Some q ->
  World.heap w !! scores = Some t ->
  Fs.is_dir (World.files w) q = true ->
  World.files w !! (q ++ [result_file self o c m a e]) <> Some Fs.Dir ->
  Manager.save columns self scores o c m a e w
  = (Py.Ok tt,
     World.World
       (World.heap w ++ [identified columns self t o c m a e])
       (<[q ++ [result_file self o c m a e] :=
            Fs.File (Py.Ok (identified columns self t o c m a e))]> (World.files w))
       (World.now w)).
Proof.
  intros Hpath Hscores Hdir Hfree. unfold Manager.save.
  rewrite (bind_ok _ _ _ _ _ (with_identifier_cols_spec columns self w scores t
                                 o c m a e Hscores)).
  rewrite Hpath. simpl. unfold World.to_csv.
  erewrite bind_ok; cycle 1.
  { unfold World.read. simpl. by rewrite list_lookup_middle. }
  simpl. unfold Fs.to_csv. fold (result_file self o c m a e).
  rewrite lookup_node_child, removelast_last, Hdir.
  by destruct (World.files w !! (q ++ [result_file self o c m a e])) as [[]|].
Qed.

(** C9. [Manager.with_identifier_cols] does not mutate the input table. On
    an object [df] holding the table [t], it returns the run identity and a
    new object [df'], distinct from [df], which holds [t] with the
    identifier columns; afterwards [df], like every object there was, holds
    the table it held before, and no file has changed. *)
Theorem with_identifier_cols_keeps_input (self : Manager.t) (w : World.world)
    (df : World.loc) (t : Pandas.DataFrame) (o : O) (c : Corpus I St) (m : Mo)
    (a : Ad) (e : E) :
  World.heap w !! df = Some t ->
  exists (df' : World.loc) (w' : World.world),
    Manager.with_identifier_cols columns self df o c m a e w
    = (Py.Ok (Manager.md5 o c m a e (Manager._start self), df'), w')
    /\ df' <> df
    /\ World.heap w' !! df = Some t
    /\ (forall l t0, World.heap w !! l = Some t0 -> World.heap w' !! l = Some t0)
    /\ World.heap w' !! df' = Some (identified columns self t o c m a e)
    /\ World.files w' = World.files w.
Proof.
  intros Hdf. eexists _, _. split; [by apply with_identifier_cols_spec|].
  simpl. split; [|split; [|split; [|split]]].
  - apply lookup_lt_Some in Hdf. lia.
  - by apply lookup_app_l_Some.
  - intros l t0 Hl. by apply lookup_app_l_Some.
  - by rewrite list_lookup_middle.
  - done.
Qed.

(** [Manager(path)]: the start time is the time of the construction. *)
Lemma init_start (p : option Fs.path) (w0 w1 : World.world) (self : Manager.t) :
  Manager.__init__ p w0 = (Py.Ok self, w1) ->
  Manager.path self = p
  /\ Manager._start self = Datetime.strftime (World.now w0).
Proof.
  unfold Manager.__init__. destruct p as [q|].
  - destruct (_ && _); [done|].
    destruct (Fs.mkdir_parents q (World.files w0)); [|done].
    by intros [= <- <-].
  - by intros [= <- <-].
Qed.

(** C4. [Manager.save] on a manager constructed with no output path raises
    a [ValueError], whatever the scores table and the descriptors, and leaves
    the file system as it was; nor did the construction write any file. *)
Theorem save_without_path_raises (w0 w1 : World.world) (self : Manager.t)
    (w : World.world) (scores : World.loc) (t : Pandas.DataFrame) (o : O)
    (c : Corpus I St) (m : Mo) (a : Ad) (e : E) :
  Manager.__init__ None w0 = (Py.Ok self, w1) ->
  World.heap w !! scores = Some t ->
  World.files w1 = World.files w0
  /\ exists (msg : string) (w' : World.world),
       Manager.save columns self scores o c m a e w = (Py.Raise (Py.ValueError msg), w')
       /\ World.files w' = World.files w.
Proof.
  intros Hinit Hscores.
  destruct (init_start None w0 w1 self Hinit) as [Hpath _].
  split.
  - unfold Manager.__init__ in Hinit. by injection Hinit as _ <-.
  - eexists _, _. split; [by apply save_no_path|done].
Qed.

(** C10. The start time of a manager is read from the clock once, by the
    constructor. Every later [with_identifier_cols] and [save] through the
    manager, in whatever world and at whatever time, uses that time: the run
    identity is [md5] of the descriptors and of the time of the construction,
    and the file saved to is named after it. [md5] itself is a static method
    and hashes the time its caller passes: it gives the run identity of the
    manager when it is passed the start time of the manager. *)
Theorem start_recorded_once (p : option Fs.path) (w0 w1 : World.world)
    (self : Manager.t) (w : World.world) (df : World.loc) (t : Pandas.DataFrame)
    (o : O) (c : Corpus I St) (m : Mo) (a : Ad) (e : E) :
  Manager.__init__ p w0 = (Py.Ok self, w1) ->
  World.heap w !! df = Some t ->
  let identity := Manager.md5 o c m a e (Datetime.strftime (World.now w0)) in
  Manager._start self = Datetime.strftime (World.now w0)
  /\ (exists df' w', Manager.with_identifier_cols columns self df o c m a e w
                     = (Py.Ok (identity, df'), w'))
  /\ (forall q, p = Some q ->
        Fs.is_dir (World.files w) q = true ->
        World.files w !! (q ++ [identity +:+ ".csv"]) <> Some Fs.Dir ->
        exists w', Manager.save columns self df o c m a e w = (Py.Ok tt, w')
                   /\ World.files w'
                      = <[q ++ [identity +:+ ".csv"] :=
                            Fs.File (Py.Ok (identified columns self t o c m a e))]>
                          (World.files w))
  /\ (forall time : string,
        time = Manager._start self -> Manager.md5 o c m a e time = identity).
Proof.
  intros Hinit Hdf identity.
  destruct (init_start p w0 w1 self Hinit) as [Hpath Hstart].
  split; [done|]. split; [|split].
  - eexists _, _. unfold identity. rewrite <- Hstart.
    by apply with_identifier_cols_spec.
  - intros q -> Hdir Hfree. unfold identity in *. rewrite <- Hstart in *.
    eexists. split; [by apply save_spec|]. reflexivity.
  - intros time ->. unfold identity. by rewrite Hstart.
Qed.

End Saving.

(** ** One file per run identity *)

Lemma is_dir_insert_child (fs : gmap Fs.path Fs.node) (q : Fs.path) (n : string)
    (x : Fs.node) :
  Fs.is_dir (<[q ++ [n] := x]> fs) q = Fs.is_dir fs q.
Proof.
  unfold Fs.is_dir, Fs.lookup_node. destruct q as [|c q]; [done|].
  rewrite lookup_insert_ne; [done|].
  intros Heq. apply (f_equal length) in Heq.
  rewrite length_app in Heq. simpl in Heq. lia.
Qed.

Lemma elem_of_listdir_insert (fs : gmap Fs.path Fs.node) (q : Fs.path) (n m : string)
    (x : Fs.node) :
  Fs.is_dir fs q = true ->
  m ∈ Fs.listdir (<[q ++ [n] := x]> fs) q <-> m = n \/ m ∈ Fs.listdir fs q.
Proof.
  intros Hdir.
  rewrite !elem_of_listdir by (by rewrite ?is_dir_insert_child).
  rewrite lookup_insert_is_Some. split.
  - intros [Heq|[_ Hsome]]; [left | by right].
    by apply app_inv_head in Heq as [= ->].
  - intros [->|Hsome]; [by left|].
    destruct (decide (q ++ [n] = q ++ [m])); [by left | by right].
Qed.

Lemma listdir_empty_lookup (fs : gmap Fs.path Fs.node) (q : Fs.path) (n : string) :
  Fs.is_dir fs q = true -> Fs.listdir fs q = [] -> fs !! (q ++ [n]) = None.
Proof.
  intros Hdir Hempty. apply eq_None_not_Some. intros Hsome.
  apply (elem_of_listdir fs q n Hdir) in Hsome.
  rewrite Hempty in Hsome. by apply elem_of_nil in Hsome.
Qed.

Section Dedup.

Context {O I St Mo Ad E : Type}.
Context `{!Py.Str O, !Py.Str I, !Py.Str St, !Py.Str Mo, !Py.Str Ad, !Py.Str E}.
Context (columns : Columns.t).

(** Two saves, one after the other, into an output directory [q] that is
    empty to begin with: both succeed, and the directory holds the files they
    are named for, one file if the names are the same. *)
Lemma two_saves (self1 self2 : Manager.t) (q : Fs.path)
    (w : World.world) (s1 s2 : World.loc) (t1 t2 : Pandas.DataFrame)
    (o o' : O) (c c' : Corpus I St) (m m' : Mo) (a a' : Ad) (e e' : E) :
  Manager.path self1 = Some q ->
  Manager.path self2 = Some q ->
  Fs.is_dir (World.files w) q = true ->
  Fs.listdir (World.files w) q = [] ->
  World.heap w !! s1 = Some t1 ->
  World.heap w !! s2 = Some t2 ->
  let f1 := result_file self1 o c m a e in
  let f2 := result_file self2 o' c' m' a' e' in
  exists w1 w2 : World.world,
    Manager.save columns self1 s1 o c m a e w = (Py.Ok tt, w1)
    /\ Manager.save columns self2 s2 o' c' m' a' e' w1 = (Py.Ok tt, w2)
    /\ (f1 = f2 -> Fs.listdir (World.files w2) q = [f1])
    /\ (f1 <> f2 -> Fs.listdir (World.files w2) q ≡ₚ [f1; f2]).
Proof.
  intros Hp1 Hp2 Hdir Hempty Hs1 Hs2 f1 f2.
  pose proof (listdir_empty_lookup _ _ f1 Hdir Hempty) as Hf1.
  pose proof (listdir_empty_lookup _ _ f2 Hdir Hempty) as Hf2.
  eexists _, _. split.
  { apply (save_spec columns self1 q w s1 t1); [done..|]. fold f1. by rewrite Hf1. }
  split.
  { apply (save_spec columns self2 q _ s2 t2); simpl.
    - done.
    - by apply lookup_app_l_Some.
    - by rewrite is_dir_insert_child.
    - fold f1 f2. intros Hnode.
      apply lookup_insert_Some in Hnode as [[_ [=]]|[_ Hnode]]. congruence. }
  simpl. fold f1 f2.
  assert (forall n, n ∈ Fs.listdir
                      (<[q ++ [f2] := Fs.File (Py.Ok (identified columns self2 t2 o' c' m' a' e'))]>
                         (<[q ++ [f1] := Fs.File (Py.Ok (identified columns self1 t1 o c m a e))]>
                            (World.files w))) q
                    <-> n = f2 \/ n = f1) as Hnames.
  { intros n. rewrite !elem_of_listdir_insert by (by rewrite ?is_dir_insert_child).
    rewrite Hempty, elem_of_nil. tauto. }
  split.
  - intros Heq. apply Permutation_singleton_r.
    apply NoDup_Permutation; [apply NoDup_listdir | apply NoDup_singleton|].
    intros n. rewrite Hnames, list_elem_of_singleton, Heq. tauto.
  - intros Hfne.
    apply NoDup_Permutation; [apply NoDup_listdir| |].
    + apply NoDup_cons. split; [|apply NoDup_singleton].
      by rewrite list_elem_of_singleton.
    + intros n. rewrite Hnames, !elem_of_cons, elem_of_nil. tauto.
Qed.

(** The name of the result file tells the run identities apart. *)
Lemma result_file_inj (self1 self2 : Manager.t)
    (o o' : O) (c c' : Corpus I St) (m m' : Mo) (a a' : Ad) (e e' : E) :
  result_file self1 o c m a e = result_file self2 o' c' m' a' e'
  <-> Manager.md5 o c m a e (Manager._start self1)
      = Manager.md5 o' c' m' a' e' (Manager._start self2).
Proof.
  unfold result_file. split; [apply str_app_inv_tail | by intros ->].
Qed.

(** C5, as amended. Two managers configured with the same output directory
    [q], empty to begin with, save one after the other. Both saves succeed.
    When the descriptors and the start times are the same, the run
    identities are the same, both saves write the file named after the one
    run identity, and the directory holds exactly that file. A change of
    one descriptor changes the text that is hashed; the directory then holds
    exactly two files when the two run identities differ, and exactly one
    when the digests of the two texts coincide. *)
Theorem save_one_file_per_identity (self1 self2 : Manager.t) (q : Fs.path)
    (w : World.world) (s1 s2 : World.loc) (t1 t2 : Pandas.DataFrame)
    (o o' : O) (c c' : Corpus I St) (m m' : Mo) (a a' : Ad) (e e' : E) :
  Manager.path self1 = Some q ->
  Manager.path self2 = Some q ->
  Fs.is_dir (World.files w) q = true ->
  Fs.listdir (World.files w) q = [] ->
  World.heap w !! s1 = Some t1 ->
  World.heap w !! s2 = Some t2 ->
  let f1 := result_file self1 o c m a e in
  let f2 := result_file self2 o' c' m' a' e' in
  let ds1 := Manager.descriptors o c m a e (Manager._start self1) in
  let ds2 := Manager.descriptors o' c' m' a' e' (Manager._start self2) in
  let id1 := Manager.md5 o c m a e (Manager._start self1) in
  let id2 := Manager.md5 o' c' m' a' e' (Manager._start self2) in
  exists w1 w2 : World.world,
    Manager.save columns self1 s1 o c m a e w = (Py.Ok tt, w1)
    /\ Manager.save columns self2 s2 o' c' m' a' e' w1 = (Py.Ok tt, w2)
    /\ f1 = id1 +:+ ".csv"
    /\ f2 = id2 +:+ ".csv"
    /\ (ds1 = ds2 -> id1 = id2)
    /\ (id1 = id2 -> f1 = f2 /\ Fs.listdir (World.files w2) q = [f1])
    /\ (forall (i : nat) (x : string),
          ds2 = <[i := x]> ds1 -> ds2 <> ds1 -> Py.join " " ds2 <> Py.join " " ds1)
    /\ (id1 <> id2 -> f1 <> f2 /\ Fs.listdir (World.files w2) q ≡ₚ [f1; f2]).
Proof.
  intros Hp1 Hp2 Hdir Hempty Hs1 Hs2 f1 f2 ds1 ds2 id1 id2.
  destruct (two_saves self1 self2 q w s1 s2 t1 t2 o o' c c' m m' a a' e e'
              Hp1 Hp2 Hdir Hempty Hs1 Hs2)
    as (w1 & w2 & Hfirst & Hsecond & Hsame & Hdiff).
  fold f1 f2 in Hsame, Hdiff.
  pose proof (result_file_inj self1 self2 o o' c c' m m' a a' e e') as Hinj.
  fold f1 f2 id1 id2 in Hinj.
  exists w1, w2. split; [exact Hfirst|]. split; [exact Hsecond|].
  split; [reflexivity|]. split; [reflexivity|]. split; [|split; [|split]].
  - intros Hds. unfold id1, id2, Manager.md5. fold ds1 ds2. by rewrite Hds.
  - intros Hid. apply Hinj in Hid. by split; [|apply Hsame].
  - intros i x -> Hne. by apply join_insert_ne.
  - intros Hid.
    assert (f1 <> f2) as Hfne by (by rewrite Hinj).
    by split; [|apply Hdiff].
Qed.

End Dedup.

(** ** The claims at sample inputs *)

(** C9, witness: the scores table of [world_bare] is the same before and
    after; the augmented copy is another object. *)
Lemma with_identifier_cols_keeps_input_witness :
  exists (df' : World.loc) (w' : World.world),
    Manager.with_identifier_cols sample_columns sample_manager 0%nat
      "optimizer" corpus_ab_c "model" "adaptor" "embedder" world_bare
    = (Py.Ok (Manager.md5 "optimizer" corpus_ab_c "model" "adaptor" "embedder"
                (Manager._start sample_manager), df'), w')
    /\ df' <> 0%nat
    /\ World.heap w' !! 0%nat = Some sample_scores
    /\ (forall l t0, World.heap world_bare !! l = Some t0 -> World.heap w' !! l = Some t0)
    /\ World.heap w' !! df'
       = Some (identified sample_columns sample_manager sample_scores
                 "optimizer" corpus_ab_c "model" "adaptor" "embedder")
    /\ World.files w' = World.files world_bare.
Proof.
  apply (with_identifier_cols_keeps_input sample_columns sample_manager world_bare
           0%nat sample_scores "optimizer" corpus_ab_c "model" "adaptor" "embedder").
  reflexivity.
Defined.

(** C4, witness: a manager constructed without a path, saving in a world
    that has an output directory. *)
Lemma save_without_path_raises_witness :
  World.files world_results = World.files world_results
  /\ exists (msg : string) (w' : World.world),
       Manager.save sample_columns
         {| Manager.path := None; Manager._start := "2024-01-02-13-30-59" |} 0%nat
         "optimizer" corpus_ab_c "model" "adaptor" "embedder" world_empty_dir
       = (Py.Raise (Py.ValueError msg), w')
       /\ World.files w' = World.files world_empty_dir.
Proof.
  apply (save_without_path_raises sample_columns world_results world_results
           {| Manager.path := None; Manager._start := "2024-01-02-13-30-59" |}
           world_empty_dir 0%nat sample_scores
           "optimizer" corpus_ab_c "model" "adaptor" "embedder").
  - vm_compute. reflexivity.
  - reflexivity.
Defined.

(** C10, witness: a manager constructed in [world_bare], at
    2024-01-01 00:00:00, and used in [world_results], a day later. *)
Lemma start_recorded_once_witness :
  Manager.__init__ (Some ["out"]) world_bare = (Py.Ok sample_manager, world_empty_dir)
  /\ Manager._start sample_manager = "2024-01-01-00-00-00"
  /\ (exists df' w',
        Manager.with_identifier_cols sample_columns sample_manager 0%nat
          "optimizer" corpus_ab_c "model" "adaptor" "embedder" world_results
        = (Py.Ok (Manager.md5 "optimizer" corpus_ab_c "model" "adaptor" "embedder"
                    "2024-01-01-00-00-00", df'), w'))
  /\ (exists w',
        Manager.save sample_columns sample_manager 0%nat
          "optimizer" corpus_ab_c "model" "adaptor" "embedder" world_results
        = (Py.Ok tt, w')
        /\ is_Some (World.files w'
                      !! ["out";
                          Manager.md5 "optimizer" corpus_ab_c "model" "adaptor"
                            "embedder" "2024-01-01-00-00-00" +:+ ".csv"])).
Proof.
  assert (Manager.__init__ (Some ["out"]) world_bare
          = (Py.Ok sample_manager, world_empty_dir)) as Hinit
    by (vm_compute; reflexivity).
  destruct (start_recorded_once sample_columns (Some ["out"]) world_bare
              world_empty_dir sample_manager world_results 0%nat sample_scores
              "optimizer" corpus_ab_c "model" "adaptor" "embedder" Hinit eq_refl)
    as (Hstart & Hcols & Hsave & _).
  split; [exact Hinit|]. split; [exact Hstart|]. split; [exact Hcols|].
  destruct (Hsave ["out"] eq_refl) as (w' & Hw' & Hfiles).
  - reflexivity.
  - intros Hnode. vm_compute in Hnode. discriminate Hnode.
  - exists w'. split; [exact Hw'|].
    rewrite Hfiles. simpl. rewrite lookup_insert_eq. by eexists.
Defined.

(** C10, counterexample: [md5] called through the manager constructed at
    2024-01-01 00:00:00, with the time of the call for its [time] argument,
    does not give the run identity of the manager. *)
Lemma md5_hashes_the_time_passed :
  Manager._start sample_manager = "2024-01-01-00-00-00"
  /\ Manager.md5 "optimizer" corpus_ab_c "model" "adaptor" "embedder"
       (Datetime.strftime sample_later)
     <> Manager.md5 "optimizer" corpus_ab_c "model" "adaptor" "embedder"
          (Manager._start sample_manager).
Proof.
  split; [reflexivity|].
  intros Heq. vm_compute in Heq. discriminate Heq.
Qed.

(** Two saves that differ in the corpus alone, from [corpus_ab_c] to
    [corpus_a_bc]: both descriptors of the corpus change, and the two saves
    leave one file in the directory. *)
Lemma save_corpus_change_one_file :
  let r1 := Manager.save sample_columns sample_manager 0%nat
              "optimizer" corpus_ab_c "model" "adaptor" "embedder" world_empty_dir in
  let r2 := Manager.save sample_columns sample_manager 0%nat
              "optimizer" corpus_a_bc "model" "adaptor" "embedder" r1.2 in
  corpus_ab_c <> corpus_a_bc
  /\ Manager.descriptors "optimizer" corpus_ab_c "model" "adaptor" "embedder"
       (Manager._start sample_manager)
     <> Manager.descriptors "optimizer" corpus_a_bc "model" "adaptor" "embedder"
          (Manager._start sample_manager)
  /\ r1.1 = Py.Ok tt
  /\ r2.1 = Py.Ok tt
  /\ Fs.listdir (World.files r2.2) ["out"] = ["d4b66794c069a6b0c6e8138b4d152a73.csv"].
Proof.
  split; [discriminate|]. split; [discriminate|].
  vm_compute. repeat split; reflexivity.
Qed.

(** C5, counterexample: it is not so that a change of one descriptor always
    yields two distinct files. The manager, the corpus, the model, the
    adaptor and the embedder being fixed, and the output directory empty to
    begin with, some two optimizers of different descriptors are saved to
    the same file: the run identities are 32 hexadecimal digits, fewer than
    there are descriptors. *)
Lemma save_changed_optimizer_not_always_two_files :
  ~ (forall o o' : string,
       o <> o' ->
       let r1 := Manager.save sample_columns sample_manager 0%nat
                   o corpus_ab_c "model" "adaptor" "embedder" world_empty_dir in
       let r2 := Manager.save sample_columns sample_manager 0%nat
                   o' corpus_ab_c "model" "adaptor" "embedder" r1.2 in
       exists f1 f2 : string,
         f1 <> f2 /\ Fs.listdir (World.files r2.2) ["out"] ≡ₚ [f1; f2]).
Proof.
  intros Htwo.
  apply (md5_collides_in_optimizer corpus_ab_c "model" "adaptor" "embedder"
           (Manager._start sample_manager)).
  intros o o' Hne Hid.
  destruct (Htwo o o' Hne) as (f1 & f2 & Hf & Hperm).
  destruct (two_saves sample_columns sample_manager sample_manager ["out"]
              world_empty_dir 0%nat 0%nat sample_scores sample_scores
              o o' corpus_ab_c corpus_ab_c "model" "model" "adaptor" "adaptor"
              "embedder" "embedder")
    as (w1 & w2 & H1 & H2 & Hsame & _); [reflexivity..|].
  rewrite H1 in Hperm. cbn [snd] in Hperm. rewrite H2 in Hperm. cbn [snd] in Hperm.
  rewrite Hsame in Hperm.
  - apply Permutation_length in Hperm. discriminate Hperm.
  - by apply result_file_inj.
Qed.

(** C5, witness: in the empty output directory, two saves with the same
    descriptors leave one file; with another optimizer, two files. *)
Lemma save_one_file_per_identity_witness :
  (exists w1 w2 : World.world,
     Manager.save sample_columns sample_manager 0%nat
       "ax" corpus_ab_c "model" "adaptor" "embedder" world_empty_dir = (Py.Ok tt, w1)
     /\ Manager.save sample_columns sample_manager 0%nat
          "ax" corpus_ab_c "model" "adaptor" "embedder" w1 = (Py.Ok tt, w2)
     /\ Fs.listdir (World.files w2) ["out"]
        = [result_file sample_manager "ax" corpus_ab_c "model" "adaptor" "embedder"])
  /\ (exists w1 w2 : World.world,
        Manager.save sample_columns sample_manager 0%nat
          "ax" corpus_ab_c "model" "adaptor" "embedder" world_empty_dir = (Py.Ok tt, w1)
        /\ Manager.save sample_columns sample_manager 0%nat
             "kmeans" corpus_ab_c "model" "adaptor" "embedder" w1 = (Py.Ok tt, w2)
        /\ Fs.listdir (World.files w2) ["out"]
           ≡ₚ [result_file sample_manager "ax" corpus_ab_c "model" "adaptor" "embedder";
               result_file sample_manager "kmeans" corpus_ab_c "model" "adaptor"
                 "embedder"]).
Proof.
  split.
  - destruct (save_one_file_per_identity sample_columns sample_manager sample_manager
                ["out"] world_empty_dir 0%nat 0%nat sample_scores sample_scores
                "ax" "ax" corpus_ab_c corpus_ab_c "model" "model" "adaptor" "adaptor"
                "embedder" "embedder")
      as (w1 & w2 & H1 & H2 & _ & _ & Hdet & Hsame & _); [reflexivity..|].
    exists w1, w2. split; [exact H1|]. split; [exact H2|].
    by apply Hsame, Hdet.
  - destruct (save_one_file_per_identity sample_columns sample_manager sample_manager
                ["out"] world_empty_dir 0%nat 0%nat sample_scores sample_scores
                "ax" "kmeans" corpus_ab_c corpus_ab_c "model" "model" "adaptor" "adaptor"
                "embedder" "embedder")
      as (w1 & w2 & H1 & H2 & _ & _ & _ & _ & _ & Hdiff); [reflexivity..|].
    exists w1, w2. split; [exact H1|]. split; [exact H2|].
    apply Hdiff. intros Heq. vm_compute in Heq. discriminate Heq.
Defined.

(** ** Index construction *)

Lemma normalize_shape (a : Numpy.NDArray) :
  Numpy.shape (Utils.normalize a) = Numpy.shape a.
Proof. unfold Numpy.shape, Utils.normalize. simpl. by rewrite length_map. Qed.

(** The boundaries of a matrix with a row and a column have its width. *)
Lemma boundaries_dims (a : Numpy.NDArray) :
  (1 <= (Numpy.shape a).1)%nat ->
  (1 <= (Numpy.shape a).2)%nat ->
  exists b, Utils.boundaries a = Py.Ok b /\ Boundary.dims b = Numpy.width a.
Proof.
  unfold Numpy.shape, Utils.boundaries. cbn [fst snd]. intros Hrows Hwidth.
  destruct (Numpy.rows a) as [|row rest]; [simpl in Hrows; lia|].
  destruct (Numpy.width a) as [|n] eqn:Hn; [lia|].
  eexists. split; [reflexivity|].
  unfold Boundary.dims. cbn [Boundary.bounds].
  by rewrite length_map, length_seq.
Qed.



Section Construction.

Context {B : Type} (faiss : Faiss.api B).

(** The outcome of the construction on a matrix with a row and a column,
    from those of the distance lookup and of the backend. *)
Lemma init_outcome (embeddings : Numpy.NDArray) (distance : string + Distance.t)
    (normalize : bool) (index_string : string) (cuda : bool) (batch_size : Z) :
  (1 <= (Numpy.shape embeddings).1)%nat ->
  (1 <= (Numpy.shape embeddings).2)%nat ->
  let stored := if normalize then Utils.normalize embeddings else embeddings in
  exists boundary,
    Utils.boundaries stored = Py.Ok boundary
    /\ Boundary.dims boundary = Numpy.width stored
    /\ FaissIndex.__init__ faiss embeddings distance normalize index_string cuda
         batch_size
       = match Distance.lookup distance with
         | Py.Raise e => Py.Raise e
         | Py.Ok dist =>
             match FaissIndex._init_index faiss stored dist index_string cuda with
             | Py.Raise e => Py.Raise e
             | Py.Ok index =>
                 Py.Ok {| FaissIndex.__embeddings := stored;
                          FaissIndex._batch_size := batch_size;
                          FaissIndex._dist := dist;
                          FaissIndex._boundary := boundary;
                          FaissIndex._index_string := index_string;
                          FaissIndex._index := index |}
             end
         end.
Proof.
  intros Hrows Hwidth stored.
  destruct (boundaries_dims stored) as (boundary & Hb & Hdims).
  { unfold stored. destruct normalize; [by rewrite normalize_shape | done]. }
  { unfold stored. destruct normalize; [by rewrite normalize_shape | done]. }
  exists boundary. split; [done|]. split; [done|].
  unfold FaissIndex.__init__. fold stored.
  destruct (Distance.lookup distance) as [dist|e]; [|done].
  rewrite Hb, Hdims. unfold Numpy.shape. cbn [snd]. by rewrite Nat.eqb_refl.
Qed.

(** An index that was constructed satisfies the invariant. *)
Lemma init_invariant (embeddings : Numpy.NDArray) (distance : string + Distance.t)
    (normalize : bool) (index_string : string) (cuda : bool) (batch_size : Z)
    (idx : FaissIndex.t B) :
  FaissIndex.__init__ faiss embeddings distance normalize index_string cuda batch_size
  = Py.Ok idx ->
  Boundary.dims (FaissIndex.boundary idx) = FaissIndex.dims idx.
Proof.
  unfold FaissIndex.__init__.
  destruct (Distance.lookup distance) as [dist|e]; [|done].
  destruct (Utils.boundaries _) as [boundary|e]; [|done].
  destruct (Nat.eqb_spec (Boundary.dims boundary)
              (Numpy.shape (if normalize then Utils.normalize embeddings
                            else embeddings)).2) as [Heq|]; [|done].
  destruct (FaissIndex._init_index _ _ _ _ _); [|done].
  by intros [= <-].
Qed.

(** C6. For an embedding matrix of shape N x D with N >= 1 and D >= 1, a
    supported distance, and a backend that accepts the (normalised) data, the
    construction returns an index whose [boundary.dims] is D, as is its
    [dims], the width of the embeddings it holds. The index is an immutable
    value: what holds of it at construction holds of it thereafter. *)
Theorem faiss_boundary_dims (embeddings : Numpy.NDArray)
    (distance : string + Distance.t) (dist : Distance.t) (normalize : bool)
    (index_string : string) (cuda : bool) (batch_size : Z) (index : B) :
  (1 <= (Numpy.shape embeddings).1)%nat ->
  (1 <= (Numpy.shape embeddings).2)%nat ->
  Distance.lookup distance = Py.Ok dist ->
  FaissIndex._init_index faiss
    (if normalize then Utils.normalize embeddings else embeddings)
    dist index_string cuda = Py.Ok index ->
  exists idx : FaissIndex.t B,
    FaissIndex.__init__ faiss embeddings distance normalize index_string cuda batch_size
    = Py.Ok idx
    /\ Boundary.dims (FaissIndex.boundary idx) = (Numpy.shape embeddings).2
    /\ FaissIndex.dims idx = (Numpy.shape embeddings).2
    /\ Boundary.dims (FaissIndex.boundary idx) = Numpy.width (FaissIndex.data idx)
    /\ FaissIndex.distance idx = dist.
Proof.
  intros Hrows Hwidth Hlookup Hbackend.
  destruct (init_outcome embeddings distance normalize index_string cuda batch_size
              Hrows Hwidth) as (boundary & _ & Hdims & Hinit).
  eexists. split.
  { rewrite Hinit, Hlookup, Hbackend. reflexivity. }
  unfold FaissIndex.boundary, FaissIndex.dims, FaissIndex.data, FaissIndex.distance.
  simpl. rewrite Hdims.
  by destruct normalize.
Qed.


End Construction.

(** C6, witness: four points of the plane, both distances, with and
    without normalisation, on the brute-force backend. *)
Lemma faiss_boundary_dims_witness :
  (exists idx,
     FaissIndex.__init__ Faiss.flat sample_embeddings (inr Distance.L2) true "Flat"
       false 64 = Py.Ok idx
     /\ Boundary.dims (FaissIndex.boundary idx) = 2%nat
     /\ FaissIndex.dims idx = 2%nat
     /\ Boundary.dims (FaissIndex.boundary idx) = Numpy.width (FaissIndex.data idx)
     /\ FaissIndex.distance idx = Distance.L2)
  /\ (exists idx,
        FaissIndex.__init__ Faiss.flat sample_embeddings (inl "INNER_PRODUCT") false
          "Flat" false 64 = Py.Ok idx
        /\ Boundary.dims (FaissIndex.boundary idx) = 2%nat
        /\ FaissIndex.dims idx = 2%nat
        /\ Boundary.dims (FaissIndex.boundary idx) = Numpy.width (FaissIndex.data idx)
        /\ FaissIndex.distance idx = Distance.INNER_PRODUCT).
Proof.
  split.
  - apply (faiss_boundary_dims Faiss.flat sample_embeddings (inr Distance.L2)
             Distance.L2 true "Flat" false 64
             (Numpy.rows (Utils.normalize sample_embeddings)));
      [simpl; lia | simpl; lia | reflexivity | reflexivity].
  - apply (faiss_boundary_dims Faiss.flat sample_embeddings (inl "INNER_PRODUCT")
             Distance.INNER_PRODUCT false "Flat" false 64
             (Numpy.rows sample_embeddings));
      [simpl; lia | simpl; lia | reflexivity | reflexivity].
Defined.



(** * Further properties *)

(** ** The run loop: errors, empty budgets, the number of steps *)

Section RunLoopMore.

Context {OptState I St : Type}.
Context (step : OptState -> Py.result (Mapping.t PrimFloat.float) * OptState).
Context (examine : Handle I -> OrderedDict.t PrimFloat.float -> Py.result Pandas.DataFrame).

(** The loop ends with the exception of a step that is not [StopIteration]. *)
Lemma launch_loop_fatal (o o1 o2 : OptState) (rs : list (Mapping.t PrimFloat.float))
    (e : Py.exn) :
  steps_yield step o rs o1 ->
  step o1 = (Py.Raise e, o2) ->
  e <> Py.StopIteration ->
  forall (steps_range : option nat) (fuel : nat),
    (forall n, steps_range = Some n -> (length rs < n)%nat) ->
    (length rs < fuel)%nat ->
    Manager.launch_loop step fuel steps_range o
    = Some (Manager.Launched rs (Some e) o2).
Proof.
  induction 1 as [o|o o' o'' r rs Hstep Hrest IH];
    intros Hfail He steps_range fuel Hrange Hfuel.
  - destruct fuel as [|fuel]; [simpl in Hfuel; lia|].
    destruct steps_range as [[|n]|]; simpl.
    + specialize (Hrange 0%nat eq_refl). simpl in Hrange. lia.
    + rewrite Hfail. by destruct e.
    + rewrite Hfail. by destruct e.
  - destruct fuel as [|fuel]; [simpl in Hfuel; lia|]. simpl in Hfuel.
    assert (Manager.launch_loop step fuel (Nat.pred <$> steps_range) o'
            = Some (Manager.Launched rs (Some e) o2)) as Hloop.
    { apply IH; [done..| |lia].
      intros n Hn. destruct steps_range as [m|]; [|done].
      injection Hn as <-. specialize (Hrange m eq_refl). simpl in Hrange. lia. }
    destruct steps_range as [[|n]|]; simpl.
    + specialize (Hrange 0%nat eq_refl). lia.
    + rewrite Hstep. simpl in Hloop. by rewrite Hloop.
    + rewrite Hstep. simpl in Hloop. by rewrite Hloop.
Qed.

(** X1. An exception of [optimizer.step()] other than [StopIteration] is not
    caught: when the step after the results [rs] raises [e] and the budget,
    if any, is larger than [length rs], [Manager.run] raises [e], and what
    was accumulated is not returned. *)
Theorem run_propagates_step_error (o o1 o2 : OptState)
    (rs : list (Mapping.t PrimFloat.float)) (e : Py.exn) (corpus : Corpus I St)
    (steps : option Z) (fuel : nat) :
  steps_yield step o rs o1 ->
  step o1 = (Py.Raise e, o2) ->
  e <> Py.StopIteration ->
  (forall z, steps = Some z -> (length rs < Z.to_nat z)%nat) ->
  (length rs < fuel)%nat ->
  Manager.run step examine fuel o corpus steps = Some (Py.Raise e, o2).
Proof.
  intros Hyield Hfail He Hsteps Hfuel. unfold Manager.run, Manager._launch.
  erewrite launch_loop_fatal; [reflexivity|done..| |done].
  intros n Hn. destruct steps as [z|]; [|done].
  injection Hn as <-. by apply Hsteps.
Qed.

(** X2. With a budget of zero or less, the optimizer is not stepped at all:
    whatever the fuel, [Manager.run] leaves the optimizer as it was and
    returns what the examinator makes of the empty accumulator. *)
Theorem run_without_budget_steps_nothing (o : OptState) (corpus : Corpus I St)
    (z : Z) (fuel : nat) :
  (z <= 0)%Z ->
  Manager._launch step fuel o (Some z) = Some (Manager.Launched [] None o)
  /\ Manager.run step examine fuel o corpus (Some z)
     = Some (examine (corpus_index corpus) OrderedDict.empty, o).
Proof.
  intros Hz.
  assert (Manager._launch step fuel o (Some z) = Some (Manager.Launched [] None o))
    as Hl.
  { unfold Manager._launch. simpl. replace (Z.to_nat z) with 0%nat by lia.
    by destruct fuel. }
  split; [done|]. unfold Manager.run. by rewrite Hl.
Qed.

(** X3. Once the budget is consumed the optimizer is not stepped again:
    when the optimizer returns the results [rs] and the budget is
    [length rs], the generator yields [rs] and leaves the optimizer in the
    state the last of these steps left it in, whatever a further step would
    do (return, signal exhaustion, or fail). *)
Theorem run_consumed_budget_stops_stepping (o o1 : OptState)
    (rs : list (Mapping.t PrimFloat.float)) (corpus : Corpus I St) (fuel : nat) :
  steps_yield step o rs o1 ->
  (length rs <= fuel)%nat ->
  Manager._launch step fuel o (Some (Z.of_nat (length rs)))
  = Some (Manager.Launched rs None o1)
  /\ Manager.run step examine fuel o corpus (Some (Z.of_nat (length rs)))
     = Some (examine (corpus_index corpus) (Manager.accumulate rs), o1).
Proof.
  intros Hyield Hfuel.
  assert (Manager._launch step fuel o (Some (Z.of_nat (length rs)))
          = Some (Manager.Launched rs None o1)) as Hl.
  { unfold Manager._launch. simpl. rewrite Nat2Z.id.
    by apply launch_loop_budget_exact. }
  split; [done|]. unfold Manager.run. by rewrite Hl.
Qed.

End RunLoopMore.

Lemma failing_step_yields :
  steps_yield failing_step 0%nat [Mapping.Make [(7%Z, 0.5%float)] eq_refl] 1%nat.
Proof. eapply yield_cons; [reflexivity|]. apply yield_nil. Qed.

(** X1, witness: the stub that fails in its second step, without budget
    and with a budget of 3. *)
Lemma run_propagates_step_error_witness :
  Manager.run failing_step stub_examine 5 0%nat corpus_ab_c None
  = Some (Py.Raise (Py.RuntimeError "backend failure"), 1%nat)
  /\ Manager.run failing_step stub_examine 5 0%nat corpus_ab_c (Some 3%Z)
     = Some (Py.Raise (Py.RuntimeError "backend failure"), 1%nat).
Proof.
  split.
  - apply (run_propagates_step_error failing_step stub_examine 0%nat 1%nat 1%nat
             [Mapping.Make [(7%Z, 0.5%float)] eq_refl] (Py.RuntimeError "backend failure")
             corpus_ab_c None 5 failing_step_yields);
      [reflexivity | discriminate | discriminate | simpl; lia].
  - apply (run_propagates_step_error failing_step stub_examine 0%nat 1%nat 1%nat
             [Mapping.Make [(7%Z, 0.5%float)] eq_refl] (Py.RuntimeError "backend failure")
             corpus_ab_c (Some 3%Z) 5 failing_step_yields);
      [reflexivity | discriminate | intros z [= <-]; simpl; lia | simpl; lia].
Defined.

(** X2, witness: a budget of -4 and no fuel. *)
Lemma run_without_budget_steps_nothing_witness :
  Manager._launch stub_step 0 0%nat (Some (-4)%Z) = Some (Manager.Launched [] None 0%nat)
  /\ Manager.run stub_step stub_examine 0 0%nat corpus_ab_c (Some (-4)%Z)
     = Some (stub_examine (corpus_index corpus_ab_c) OrderedDict.empty, 0%nat).
Proof.
  apply (run_without_budget_steps_nothing stub_step stub_examine 0%nat corpus_ab_c
           (-4)%Z 0). lia.
Defined.

(** X3, witness: with a budget of 1 the failing stub is stepped once, and
    its failure is never met. *)
Lemma run_consumed_budget_stops_stepping_witness :
  Manager._launch failing_step 1 0%nat (Some 1%Z)
  = Some (Manager.Launched [Mapping.Make [(7%Z, 0.5%float)] eq_refl] None 1%nat)
  /\ Manager.run failing_step stub_examine 1 0%nat corpus_ab_c (Some 1%Z)
     = Some (stub_examine (corpus_index corpus_ab_c)
               (Manager.accumulate [Mapping.Make [(7%Z, 0.5%float)] eq_refl]), 1%nat).
Proof.
  apply (run_consumed_budget_stops_stepping failing_step stub_examine 0%nat 1%nat
           [Mapping.Make [(7%Z, 0.5%float)] eq_refl] corpus_ab_c 1 failing_step_yields).
  simpl. lia.
Defined.

(** ** The accumulator: its keys *)


(** X5. Later steps neither remove nor reorder what is accumulated: the keys
    accumulated over the step results [rs] stay, in their order, at the head
    of the keys accumulated over [rs] followed by further step results; a row
    that is scored again keeps the place of its first score. *)
Theorem run_accumulator_order_stable (rs more : list (Mapping.t PrimFloat.float)) :
  exists new : list Z,
    OrderedDict.keys (Manager.accumulate (rs ++ more))
    = OrderedDict.keys (Manager.accumulate rs) ++ new.
Proof.
  unfold Manager.accumulate. rewrite fold_left_app.
  apply keys_fold_update, keys_fold_update. constructor.
Qed.

(** ** Construction of a manager *)


(** What [mkdir(parents=True, exist_ok=True)] leaves when it succeeds:
    the entries there were, directories at [prefix / r] for every leading
    part [r] of [rest], and nothing else. *)
Lemma mkdir_from_ok (rest prefix : Fs.path) (fs fs' : gmap Fs.path Fs.node) :
  Fs.mkdir_from prefix rest fs = Py.Ok fs' ->
  fs ⊆ fs'
  /\ (forall r1 r2, rest = r1 ++ r2 -> r1 <> [] -> fs' !! (prefix ++ r1) = Some Fs.Dir)
  /\ (forall k x, fs' !! k = Some x -> fs !! k = None ->
                  x = Fs.Dir /\ exists r1 r2, rest = r1 ++ r2 /\ k = prefix ++ r1).
Proof.
  revert prefix fs. induction rest as [|c rest IH]; intros prefix fs; simpl.
  - intros [= <-]. split; [done|]. split.
    + intros r1 r2 Heq Hne. symmetry in Heq.
      by apply app_eq_nil in Heq as [-> _].
    + intros k x Hk Hnone. congruence.
  - destruct (fs !! (prefix ++ [c])) as [[t|]|] eqn:Hc.
    + by destruct rest.
    + intros Hrest. destruct (IH _ _ Hrest) as (Hsub & Hdirs & Hnew).
      split; [done|]. split.
      * intros [|c' r1] r2 Heq Hne; [done|]. injection Heq as <- ->.
        destruct r1 as [|c'' r1].
        -- eapply lookup_weaken; [exact Hc | done].
        -- replace (prefix ++ c :: c'' :: r1) with ((prefix ++ [c]) ++ c'' :: r1)
             by (by rewrite <- app_assoc).
           by apply (Hdirs (c'' :: r1) r2).
      * intros k x Hk Hnone. destruct (Hnew k x Hk Hnone) as (-> & r1 & r2 & -> & ->).
        split; [done|]. exists (c :: r1), r2. by rewrite <- app_assoc.
    + intros Hrest. destruct (IH _ _ Hrest) as (Hsub & Hdirs & Hnew).
      assert (fs ⊆ <[prefix ++ [c] := Fs.Dir]> fs) as Hins by by apply insert_subseteq.
      split; [by etrans|]. split.
      * intros [|c' r1] r2 Heq Hne; [done|]. injection Heq as <- ->.
        destruct r1 as [|c'' r1].
        -- eapply lookup_weaken; [apply lookup_insert_eq | done].
        -- replace (prefix ++ c :: c'' :: r1) with ((prefix ++ [c]) ++ c'' :: r1)
             by (by rewrite <- app_assoc).
           by apply (Hdirs (c'' :: r1) r2).
      * intros k x Hk Hnone.
        destruct (decide (k = prefix ++ [c])) as [->|Hne].
        -- assert (fs' !! (prefix ++ [c]) = Some Fs.Dir) as Hd.
           { eapply lookup_weaken; [apply lookup_insert_eq | done]. }
           rewrite Hd in Hk. injection Hk as <-. split; [done|].
           by exists [c], rest.
        -- destruct (Hnew k x Hk) as (-> & r1 & r2 & -> & ->).
           { by rewrite lookup_insert_ne. }
           split; [done|]. exists (c :: r1), r2. by rewrite <- app_assoc.
Qed.


(** X7. When [Manager(path)] succeeds, [path] is a directory afterwards, as
    is every path leading to it; every entry there was is still there,
    unchanged; what is new is a directory on the way to [path]; and the
    objects of the heap are untouched. *)
Theorem init_creates_directory (p : Fs.path) (w w' : World.world) (self : Manager.t) :
  Manager.__init__ (Some p) w = (Py.Ok self, w') ->
  Manager.path self = Some p
  /\ Fs.is_dir (World.files w') p = true
  /\ (forall r1 r2, p = r1 ++ r2 -> Fs.is_dir (World.files w') r1 = true)
  /\ World.files w ⊆ World.files w'
  /\ (forall k x, World.files w' !! k = Some x -> World.files w !! k = None ->
                  x = Fs.Dir /\ exists r, p = k ++ r)
  /\ World.heap w' = World.heap w.
Proof.
  intros Hinit. destruct (init_start _ _ _ _ Hinit) as [Hpath _].
  unfold Manager.__init__ in Hinit.
  destruct (_ && _); [done|].
  destruct (Fs.mkdir_parents p (World.files w)) as [fs|e] eqn:Hmk; [|done].
  injection Hinit as _ <-. simpl.
  apply mkdir_from_ok in Hmk as (Hsub & Hdirs & Hnew).
  assert (forall r1 r2, p = r1 ++ r2 -> Fs.is_dir fs r1 = true) as Hlead.
  { intros r1 r2 Heq. destruct r1 as [|c r1]; [done|].
    assert (Fs.lookup_node fs (c :: r1) = Some Fs.Dir) as Hd
      by (by apply (Hdirs (c :: r1) r2 Heq)).
    unfold Fs.is_dir. by rewrite Hd. }
  split; [done|]. split; [by apply (Hlead p []); rewrite app_nil_r|].
  split; [done|]. split; [done|]. split; [|done].
  intros k x Hk Hnone. destruct (Hnew k x Hk Hnone) as (-> & r1 & r2 & -> & ->).
  split; [done|]. by exists r2.
Qed.


(** X7, witness: a directory two levels below an existing one. *)
Lemma init_creates_directory_witness :
  Fs.is_dir (<[ ["out"; "runs"; "today"] := Fs.Dir ]>
               (<[ ["out"; "runs"] := Fs.Dir ]> (World.files world_results)))
            ["out"; "runs"; "today"] = true
  /\ World.files world_results
     ⊆ <[ ["out"; "runs"; "today"] := Fs.Dir ]>
         (<[ ["out"; "runs"] := Fs.Dir ]> (World.files world_results)).
Proof.
  destruct (init_creates_directory ["out"; "runs"; "today"] world_results
              (World.with_files
                 (<[ ["out"; "runs"; "today"] := Fs.Dir ]>
                    (<[ ["out"; "runs"] := Fs.Dir ]> (World.files world_results)))
                 world_results)
              {| Manager.path := Some ["out"; "runs"; "today"];
                 Manager._start := "2024-01-02-13-30-59" |})
    as (_ & Hdir & _ & Hsub & _).
  - vm_compute. reflexivity.
  - split; [exact Hdir | exact Hsub].
Defined.

(** ** The identifier columns *)

Lemma get_set_column (c c' : string) (vs : list Pandas.cell)
    (cols : list (string * list Pandas.cell)) :
  Pandas.get_column c (Pandas.set_column c' vs cols)
  = if String.eqb c c' then Some vs else Pandas.get_column c cols.
Proof.
  induction cols as [|[c0 vs0] cols IH]; simpl.
  - done.
  - destruct (String.eqb_spec c' c0) as [->|Hne]; simpl.
    + by destruct (String.eqb c c0).
    + rewrite IH. destruct (String.eqb_spec c c0) as [->|]; [|done].
      destruct (String.eqb_spec c0 c'); [congruence | done].
Qed.

Lemma names_set_column (c : string) (vs : list Pandas.cell)
    (cols : list (string * list Pandas.cell)) :
  exists new, (Pandas.set_column c vs cols).*1 = cols.*1 ++ new.
Proof.
  induction cols as [|[c0 vs0] cols [new IH]].
  - by exists [c].
  - cbn [Pandas.set_column]. destruct (String.eqb_spec c c0) as [->|Hne].
    + exists []. by rewrite app_nil_r.
    + exists new. by rewrite !fmap_cons, IH.
Qed.

(** Assigning to a column twice is assigning the second time. *)
Lemma set_column_twice (c : string) (vs vs' : list Pandas.cell)
    (cols : list (string * list Pandas.cell)) :
  Pandas.set_column c vs (Pandas.set_column c vs' cols) = Pandas.set_column c vs cols.
Proof.
  induction cols as [|[c0 vs0] cols IH]; simpl.
  - by rewrite String.eqb_refl.
  - destruct (String.eqb_spec c c0) as [->|Hne]; simpl.
    + by rewrite String.eqb_refl.
    + destruct (String.eqb_spec c c0); [done|]. by rewrite IH.
Qed.

(** Assignments to two columns, one of which the table has, commute. *)
Lemma set_column_comm (c c' : string) (vs vs' : list Pandas.cell)
    (cols : list (string * list Pandas.cell)) :
  c <> c' ->
  is_Some (Pandas.get_column c cols) ->
  Pandas.set_column c vs (Pandas.set_column c' vs' cols)
  = Pandas.set_column c' vs' (Pandas.set_column c vs cols).
Proof.
  intros Hne. induction cols as [|[c0 vs0] cols IH]; simpl; intros Hc.
  - by destruct Hc.
  - destruct (String.eqb_spec c c0) as [->|Hc0].
    + destruct (String.eqb_spec c' c0) as [->|Hc0']; [done|]. simpl.
      rewrite String.eqb_refl. by destruct (String.eqb_spec c' c0).
    + destruct (String.eqb_spec c' c0) as [->|Hc0']; simpl.
      * destruct (String.eqb_spec c c0); [done|]. by rewrite String.eqb_refl.
      * destruct (String.eqb_spec c c0); [done|].
        destruct (String.eqb_spec c' c0); [done|]. by rewrite IH.
Qed.

Section Assignments.

Implicit Types (t : Pandas.DataFrame) (l : list (string * string)).

Lemma assign_all_nrows l t : Pandas.nrows (assign_all l t) = Pandas.nrows t.
Proof.
  revert t. induction l as [|[c d] l IH]; intros t; [done|].
  unfold assign_all in *. simpl. by rewrite IH.
Qed.

Lemma assign_all_names l t :
  exists new, (Pandas.columns (assign_all l t)).*1 = (Pandas.columns t).*1 ++ new.
Proof.
  revert t. induction l as [|[c d] l IH]; intros t.
  - exists []. by rewrite app_nil_r.
  - unfold assign_all in *. simpl. destruct (IH (assigned t c d)) as [new Hnew].
    destruct (names_set_column c (replicate (Pandas.nrows t) (Pandas.Text d))
                (Pandas.columns t)) as [new' Hnew'].
    exists (new' ++ new). rewrite Hnew. unfold assigned at 1. simpl.
    by rewrite Hnew', <- app_assoc.
Qed.

Lemma assign_all_absent l t (c : string) :
  c ∉ l.*1 ->
  Pandas.get_column c (Pandas.columns (assign_all l t))
  = Pandas.get_column c (Pandas.columns t).
Proof.
  revert t. induction l as [|[c' d] l IH]; intros t Hc; [done|].
  apply not_elem_of_cons in Hc as [Hne Hc].
  unfold assign_all in *. simpl. rewrite IH by done.
  unfold assigned. simpl. rewrite get_set_column.
  by destruct (String.eqb_spec c c').
Qed.

Lemma assign_all_present l t (c d : string) :
  NoDup l.*1 -> (c, d) ∈ l ->
  Pandas.get_column c (Pandas.columns (assign_all l t))
  = Some (replicate (Pandas.nrows t) (Pandas.Text d)).
Proof.
  revert t. induction l as [|[c' d'] l IH]; intros t Hnd Hin.
  - by apply elem_of_nil in Hin.
  - apply NoDup_cons in Hnd as [Hfresh Hnd].
    apply elem_of_cons in Hin as [[= <- <-]|Hin].
    + change (assign_all ((c, d) :: l) t) with (assign_all l (assigned t c d)).
      rewrite assign_all_absent by done.
      unfold assigned. simpl. by rewrite get_set_column, String.eqb_refl.
    + change (assign_all ((c', d') :: l) t) with (assign_all l (assigned t c' d')).
      by rewrite IH.
Qed.

Lemma assigned_twice t (c d d' : string) :
  assigned (assigned t c d') c d = assigned t c d.
Proof. unfold assigned. simpl. by rewrite set_column_twice. Qed.

Lemma assigned_comm t (c c' d d' : string) :
  c <> c' ->
  is_Some (Pandas.get_column c (Pandas.columns t)) ->
  assigned (assigned t c' d') c d = assigned (assigned t c d) c' d'.
Proof. intros Hne Hc. unfold assigned. simpl. by rewrite set_column_comm. Qed.

(** An assignment that was among the assignments made changes nothing. *)
Lemma assign_all_absorbs l t (c d : string) :
  NoDup l.*1 -> (c, d) ∈ l ->
  assigned (assign_all l t) c d = assign_all l t.
Proof.
  revert t. induction l as [|[c' d'] l IH] using rev_ind; intros t Hnd Hin.
  - by apply elem_of_nil in Hin.
  - rewrite fmap_app in Hnd. apply NoDup_app in Hnd as (Hnd & Hfresh & _).
    unfold assign_all in *. rewrite fold_left_app. simpl.
    apply elem_of_app in Hin as [Hin|[= <- <-]%list_elem_of_singleton].
    + assert (c <> c') as Hne.
      { intros ->. apply (Hfresh c'); [|by left].
        apply list_elem_of_fmap. by exists (c', d). }
      rewrite assigned_comm; [by rewrite IH|done|].
      pose proof (assign_all_present l t c d Hnd Hin) as Hc.
      unfold assign_all in Hc. by rewrite Hc.
    + apply assigned_twice.
Qed.

Lemma assign_all_idempotent l t :
  NoDup l.*1 -> assign_all l (assign_all l t) = assign_all l t.
Proof.
  intros Hnd.
  assert (forall l', l' ⊆ l -> assign_all l' (assign_all l t) = assign_all l t) as H.
  { induction l' as [|[c d] l' IH]; intros Hsub; [done|].
    change (assign_all ((c, d) :: l') (assign_all l t))
      with (assign_all l' (assigned (assign_all l t) c d)).
    rewrite assign_all_absorbs; [|done|apply Hsub; by left].
    apply IH. intros x Hx. apply Hsub. by right. }
  by apply H.
Qed.

Context {O I St Mo Ad E : Type}.
Context `{!Py.Str O, !Py.Str I, !Py.Str St, !Py.Str Mo, !Py.Str Ad, !Py.Str E}.
Context (columns : Columns.t).

(** X8. When the eight identifier column names are pairwise distinct, the
    table [with_identifier_cols] returns has, in every row of each
    identifier column, the descriptor of that column: the descriptors of the
    optimizer, the model, the adaptor, the corpus index, the storage and the
    embedder, the start time of the manager, and the run identity. *)
Theorem with_identifier_cols_fills_columns (self : Manager.t) (w : World.world)
    (df : World.loc) (t : Pandas.DataFrame) (o : O) (c : Corpus I St) (m : Mo)
    (a : Ad) (e : E) :
  World.heap w !! df = Some t ->
  NoDup (identifier_columns columns self o c m a e).*1 ->
  exists (df' : World.loc) (w' : World.world) (t' : Pandas.DataFrame),
    Manager.with_identifier_cols columns self df o c m a e w
    = (Py.Ok (Manager.md5 o c m a e (Manager._start self), df'), w')
    /\ World.heap w' !! df' = Some t'
    /\ forall name data,
         (name, data) ∈ identifier_columns columns self o c m a e ->
         Pandas.get_column name (Pandas.columns t')
         = Some (replicate (Pandas.nrows t) (Pandas.Text data)).
Proof.
  intros Hdf Hnd. eexists _, _, _.
  split; [by apply with_identifier_cols_spec|]. simpl.
  split; [by rewrite list_lookup_middle|].
  intros name data Hin.
  by apply (assign_all_present (identifier_columns columns self o c m a e)).
Qed.

(** X9. [with_identifier_cols] keeps what the table had: the returned table
    has the rows of the input, the columns of the input come first and in
    their order, and a column whose name is none of the identifier column
    names has its cells unchanged. The last column assigned, the run
    identity, holds the identity in every row whatever the column names. *)
Theorem with_identifier_cols_keeps_columns (self : Manager.t) (w : World.world)
    (df : World.loc) (t : Pandas.DataFrame) (o : O) (c : Corpus I St) (m : Mo)
    (a : Ad) (e : E) :
  World.heap w !! df = Some t ->
  exists (df' : World.loc) (w' : World.world) (t' : Pandas.DataFrame),
    Manager.with_identifier_cols columns self df o c m a e w
    = (Py.Ok (Manager.md5 o c m a e (Manager._start self), df'), w')
    /\ World.heap w' !! df' = Some t'
    /\ Pandas.nrows t' = Pandas.nrows t
    /\ (exists new, (Pandas.columns t').*1 = (Pandas.columns t).*1 ++ new)
    /\ (forall name,
          name ∉ (identifier_columns columns self o c m a e).*1 ->
          Pandas.get_column name (Pandas.columns t')
          = Pandas.get_column name (Pandas.columns t))
    /\ Pandas.get_column (Columns.MD5 columns) (Pandas.columns t')
       = Some (replicate (Pandas.nrows t)
                 (Pandas.Text (Manager.md5 o c m a e (Manager._start self)))).
Proof.
  intros Hdf. eexists _, _, _.
  split; [by apply with_identifier_cols_spec|]. simpl.
  split; [by rewrite list_lookup_middle|].
  split; [done|].
  split; [apply (assign_all_names (identifier_columns columns self o c m a e))|].
  split.
  - intros name Hname.
    by apply (assign_all_absent (identifier_columns columns self o c m a e)).
  - unfold identified. simpl. by rewrite get_set_column, String.eqb_refl.
Qed.

(** X10. Identifying twice is identifying once: when the identifier column
    names are pairwise distinct, [with_identifier_cols] on the table it
    returned, with the same manager and descriptors, returns that table
    again, in a new object. *)
Theorem with_identifier_cols_idempotent (self : Manager.t) (w : World.world)
    (df : World.loc) (t : Pandas.DataFrame) (o : O) (c : Corpus I St) (m : Mo)
    (a : Ad) (e : E) :
  World.heap w !! df = Some t ->
  NoDup (identifier_columns columns self o c m a e).*1 ->
  exists (df1 df2 : World.loc) (w1 w2 : World.world) (t' : Pandas.DataFrame),
    Manager.with_identifier_cols columns self df o c m a e w
    = (Py.Ok (Manager.md5 o c m a e (Manager._start self), df1), w1)
    /\ Manager.with_identifier_cols columns self df1 o c m a e w1
       = (Py.Ok (Manager.md5 o c m a e (Manager._start self), df2), w2)
    /\ df2 <> df1
    /\ World.heap w2 !! df1 = Some t'
    /\ World.heap w2 !! df2 = Some t'.
Proof.
  intros Hdf Hnd.
  pose proof (with_identifier_cols_spec columns self w df t o c m a e Hdf) as Hfirst.
  set (w1 := World.with_heap
               (World.heap w ++ [identified columns self t o c m a e]) w) in *.
  assert (World.heap w1 !! length (World.heap w)
          = Some (identified columns self t o c m a e)) as Hdf1.
  { simpl. by rewrite list_lookup_middle. }
  pose proof (with_identifier_cols_spec columns self w1 _ _ o c m a e Hdf1) as Hsecond.
  eexists _, _, _, _, _. split; [exact Hfirst|]. split; [exact Hsecond|].
  simpl. rewrite length_app. simpl. split; [lia|]. split.
  - apply lookup_app_l_Some. by rewrite list_lookup_middle.
  - rewrite list_lookup_middle by (rewrite length_app; simpl; lia).
    f_equal.
    apply (assign_all_idempotent (identifier_columns columns self o c m a e) t Hnd).
Qed.

End Assignments.

(** X8, X9, X10, witnesses: the scores table of [world_bare], under the
    sample column names. *)
Lemma sample_identifier_columns_distinct :
  NoDup (identifier_columns sample_columns sample_manager
           "optimizer" corpus_ab_c "model" "adaptor" "embedder").*1.
Proof. apply (bool_decide_unpack _). vm_compute. reflexivity. Qed.

Lemma with_identifier_cols_fills_columns_witness :
  exists (df' : World.loc) (w' : World.world) (t' : Pandas.DataFrame),
    Manager.with_identifier_cols sample_columns sample_manager 0%nat
      "optimizer" corpus_ab_c "model" "adaptor" "embedder" world_bare
    = (Py.Ok (Manager.md5 "optimizer" corpus_ab_c "model" "adaptor" "embedder"
                (Manager._start sample_manager), df'), w')
    /\ World.heap w' !! df' = Some t'
    /\ Pandas.get_column "storage" (Pandas.columns t')
       = Some [Pandas.Text "Storage(c)"; Pandas.Text "Storage(c)"].
Proof.
  destruct (with_identifier_cols_fills_columns sample_columns sample_manager
              world_bare 0%nat sample_scores "optimizer" corpus_ab_c "model"
              "adaptor" "embedder" eq_refl sample_identifier_columns_distinct)
    as (df' & w' & t' & Hcall & Hheap & Hcols).
  exists df', w', t'. split; [exact Hcall|]. split; [exact Hheap|].
  apply (Hcols "storage" "Storage(c)").
  apply list_elem_of_In. simpl. tauto.
Defined.

Lemma with_identifier_cols_keeps_columns_witness :
  exists (df' : World.loc) (w' : World.world) (t' : Pandas.DataFrame),
    Manager.with_identifier_cols sample_columns sample_manager 0%nat
      "optimizer" corpus_ab_c "model" "adaptor" "embedder" world_bare
    = (Py.Ok (Manager.md5 "optimizer" corpus_ab_c "model" "adaptor" "embedder"
                (Manager._start sample_manager), df'), w')
    /\ World.heap w' !! df' = Some t'
    /\ Pandas.nrows t' = 2%nat
    /\ Pandas.get_column "score" (Pandas.columns t')
       = Some [Pandas.Number 0.5%float; Pandas.Number 0.25%float].
Proof.
  destruct (with_identifier_cols_keeps_columns sample_columns sample_manager
              world_bare 0%nat sample_scores "optimizer" corpus_ab_c "model"
              "adaptor" "embedder" eq_refl)
    as (df' & w' & t' & Hcall & Hheap & Hrows & _ & Hkeep & _).
  exists df', w', t'. split; [exact Hcall|]. split; [exact Hheap|].
  split; [exact Hrows|].
  rewrite (Hkeep "score"); [reflexivity|].
  apply (bool_decide_unpack _). vm_compute. reflexivity.
Defined.

Lemma with_identifier_cols_idempotent_witness :
  exists (df1 df2 : World.loc) (w1 w2 : World.world) (t' : Pandas.DataFrame),
    Manager.with_identifier_cols sample_columns sample_manager 0%nat
      "optimizer" corpus_ab_c "model" "adaptor" "embedder" world_bare
    = (Py.Ok (Manager.md5 "optimizer" corpus_ab_c "model" "adaptor" "embedder"
                (Manager._start sample_manager), df1), w1)
    /\ Manager.with_identifier_cols sample_columns sample_manager df1
         "optimizer" corpus_ab_c "model" "adaptor" "embedder" w1
       = (Py.Ok (Manager.md5 "optimizer" corpus_ab_c "model" "adaptor" "embedder"
                   (Manager._start sample_manager), df2), w2)
    /\ df2 <> df1
    /\ World.heap w2 !! df1 = Some t'
    /\ World.heap w2 !! df2 = Some t'.
Proof.
  apply (with_identifier_cols_idempotent sample_columns sample_manager world_bare
           0%nat sample_scores "optimizer" corpus_ab_c "model" "adaptor" "embedder"
           eq_refl sample_identifier_columns_distinct).
Defined.

(** ** Saving and loading together *)

Lemma substring_skip (s t : string) (m : nat) :
  String.substring (String.length s) m (s +:+ t) = String.substring 0 m t.
Proof. induction s as [|c s IH]; [done|]. rewrite str_app_cons. exact IH. Qed.

(** The name of a result file matches the pattern [*.csv]. *)
Lemma is_csv_result (s : string) : Fs.is_csv (s +:+ ".csv") = true.
Proof.
  unfold Fs.is_csv. rewrite str_length_app. simpl String.length.
  replace (String.length s + 4 - 4)%nat with (String.length s) by lia.
  rewrite substring_skip. apply andb_true_intro. split.
  - apply Nat.leb_le. lia.
  - reflexivity.
Qed.

Lemma read_all_raises (fs : gmap Fs.path Fs.node) (csvs : list Fs.path) :
  (exists p e, p ∈ csvs /\ Fs.read_csv fs p = Py.Raise e) ->
  exists p e, p ∈ csvs /\ Fs.read_csv fs p = Py.Raise e
              /\ Manager.read_all fs csvs = Py.Raise e.
Proof.
  induction csvs as [|csv csvs IH]; intros (p & e & Hin & Hread).
  - by apply elem_of_nil in Hin.
  - simpl. destruct (Fs.read_csv fs csv) as [df|e0] eqn:Hcsv.
    + apply elem_of_cons in Hin as [->|Hin]; [congruence|].
      destruct IH as (p' & e' & Hin' & Hread' & Hall); [by exists p, e|].
      exists p', e'. rewrite Hall. split; [by right | done].
    + exists csv, e0. split; [by left | done].
Qed.

Section SaveLoad.

Context {O I St Mo Ad E : Type}.
Context `{!Py.Str O, !Py.Str I, !Py.Str St, !Py.Str Mo, !Py.Str Ad, !Py.Str E}.
Context (columns : Columns.t).

(** X11. The file that [save] writes is the one that [load] looks for:
    after a save into an empty output directory, the name of the saved file
    matches [*.csv], and the paths that [glob("*.csv")] yields for the
    directory, which are the files [load] reads, are exactly the path of
    the saved file. *)
Theorem load_globs_saved_file (self : Manager.t) (q : Fs.path) (w : World.world)
    (scores : World.loc) (t : Pandas.DataFrame) (o : O) (c : Corpus I St) (m : Mo)
    (a : Ad) (e : E) :
  Manager.path self = Some q ->
  World.heap w !! scores = Some t ->
  Fs.is_dir (World.files w) q = true ->
  Fs.listdir (World.files w) q = [] ->
  exists w' : World.world,
    Manager.save columns self scores o c m a e w = (Py.Ok tt, w')
    /\ Fs.is_csv (result_file self o c m a e) = true
    /\ Fs.glob_csv (World.files w') q = [q ++ [result_file self o c m a e]].
Proof.
  intros Hpath Hscores Hdir Hempty.
  set (f := result_file self o c m a e).
  set (T := identified columns self t o c m a e).
  pose proof (listdir_empty_lookup _ _ f Hdir Hempty) as Hf.
  eexists. split.
  { apply (save_spec columns self q w scores t); [done..|]. fold f. by rewrite Hf. }
  simpl. fold f T.
  assert (Fs.listdir (<[q ++ [f] := Fs.File (Py.Ok T)]> (World.files w)) q = [f])
    as Hlist.
  { apply Permutation_singleton_r.
    apply NoDup_Permutation; [apply NoDup_listdir | apply NoDup_singleton|].
    intros n. rewrite elem_of_listdir_insert by done.
    rewrite Hempty, elem_of_nil, list_elem_of_singleton. tauto. }
  split; [apply is_csv_result|].
  unfold Fs.glob_csv. rewrite Hlist.
  rewrite filter_cons_True by apply is_csv_result. done.
Qed.

(** X12. A save writes one entry of the file system and no other: the file
    named after the run identity holds the saved table, whatever it held
    before, every other entry is as it was, and so is every object there
    was. *)
Theorem save_writes_one_entry (self : Manager.t) (q : Fs.path) (w : World.world)
    (scores : World.loc) (t : Pandas.DataFrame) (o : O) (c : Corpus I St) (m : Mo)
    (a : Ad) (e : E) :
  Manager.path self = Some q ->
  World.heap w !! scores = Some t ->
  Fs.is_dir (World.files w) q = true ->
  World.files w !! (q ++ [result_file self o c m a e]) <> Some Fs.Dir ->
  exists w' : World.world,
    Manager.save columns self scores o c m a e w = (Py.Ok tt, w')
    /\ World.files w' !! (q ++ [result_file self o c m a e])
       = Some (Fs.File (Py.Ok (identified columns self t o c m a e)))
    /\ (forall k, k <> q ++ [result_file self o c m a e] ->
                  World.files w' !! k = World.files w !! k)
    /\ (forall l t0, World.heap w !! l = Some t0 -> World.heap w' !! l = Some t0).
Proof.
  intros Hpath Hscores Hdir Hfree. eexists.
  split; [by apply save_spec|]. simpl.
  split; [by rewrite lookup_insert_eq|]. split.
  - intros k Hk. by rewrite lookup_insert_ne.
  - intros l t0 Hl. by apply lookup_app_l_Some.
Qed.

End SaveLoad.

(** X13. [Manager.load] on a path that is not a directory, a regular file
    for one, raises the [ValueError] that no csv files are found in it. *)
Theorem load_not_a_directory (p : Fs.path) (w : World.world) :
  Fs.is_dir (World.files w) p = false ->
  Manager.load p w
  = Py.Raise (Py.ValueError ("No csv files found in " +:+ Fs.path_str p)).
Proof.
  intros Hdir. unfold Manager.load, Fs.glob_csv.
  by rewrite listdir_not_dir.
Qed.

(** X14. [Manager.load] does not skip an entry it cannot read: when an entry
    of the directory matching [*.csv] is a directory or a file that
    [pd.read_csv] fails on, [load] raises the error of such an entry and
    returns no table. *)
Theorem load_raises_on_unreadable (q : Fs.path) (w : World.world) (n : string)
    (e : Py.exn) :
  Fs.is_dir (World.files w) q = true ->
  Fs.is_csv n = true ->
  is_Some (World.files w !! (q ++ [n])) ->
  Fs.read_csv (World.files w) (q ++ [n]) = Py.Raise e ->
  exists n' e',
    Fs.is_csv n' = true
    /\ Fs.read_csv (World.files w) (q ++ [n']) = Py.Raise e'
    /\ Manager.load q w = Py.Raise e'.
Proof.
  intros Hdir Hcsv Hsome Hread.
  destruct (read_all_raises (World.files w) (Fs.glob_csv (World.files w) q))
    as (p & e' & Hin & Hread' & Hall).
  { exists (q ++ [n]), e. split; [|done]. unfold Fs.glob_csv.
    apply list_elem_of_fmap. exists n. split; [done|].
    apply list_elem_of_filter. split; [done|]. by apply elem_of_listdir. }
  unfold Fs.glob_csv in Hin.
  apply list_elem_of_fmap in Hin as (n' & -> & [Hcsv' _]%list_elem_of_filter).
  exists n', e'. split; [done|]. split; [done|].
  unfold Manager.load. by rewrite Hall.
Qed.

(** ** The shape of the run identity *)

(** X15. The run identity is a string of exactly 32 lowercase hexadecimal
    digits, whatever the descriptors: it holds no separator of paths and no
    space, and the name of a result file is one path component. *)
Theorem md5_is_32_hex_digits {O I St Mo Ad E : Type}
    `{!Py.Str O, !Py.Str I, !Py.Str St, !Py.Str Mo, !Py.Str Ad, !Py.Str E}
    (o : O) (c : Corpus I St) (m : Mo) (a : Ad) (e : E) (time : string) :
  String.length (Manager.md5 o c m a e time) = 32%nat
  /\ forallb is_hex (String.list_ascii_of_string (Manager.md5 o c m a e time)) = true.
Proof.
  unfold Manager.md5, Hashlib.md5_hexdigest.
  destruct (digest_bytes
              (Hashlib.encode (Py.join " " (Manager.descriptors o c m a e time))))
    as [Hlen Hrange].
  split.
  - by rewrite hex_length, Hlen.
  - by apply hex_is_hex.
Qed.

(** ** The start time *)

Lemma str_app_inv_length (a a' b b' : string) :
  String.length a = String.length a' ->
  a +:+ b = a' +:+ b' -> a = a' /\ b = b'.
Proof.
  revert a'. induction a as [|x a IH]; intros [|x' a'] Hlen; try done.
  rewrite !str_app_cons. simpl in Hlen. intros [= -> Heq].
  destruct (IH a') as [-> ->]; [lia | done | done].
Qed.

Lemma zero_padded_length (w n : nat) :
  String.length (Datetime.zero_padded w n) = w.
Proof.
  revert n. induction w as [|w IH]; intros n; [done|].
  cbn [Datetime.zero_padded]. rewrite str_length_app, IH. simpl. lia.
Qed.

Lemma digit_inj (n m : nat) :
  Datetime.digit n = Datetime.digit m -> (n mod 10 = m mod 10)%nat.
Proof.
  unfold Datetime.digit. intros Heq.
  apply (f_equal nat_of_ascii) in Heq.
  pose proof (Nat.mod_upper_bound n 10). pose proof (Nat.mod_upper_bound m 10).
  rewrite !nat_ascii_embedding in Heq by lia. lia.
Qed.

Lemma zero_padded_inj (w n m : nat) :
  Datetime.zero_padded w n = Datetime.zero_padded w m ->
  (n mod 10 ^ w = m mod 10 ^ w)%nat.
Proof.
  revert n m. induction w as [|w IH]; intros n m.
  - intros _. change (10 ^ 0)%nat with 1%nat. by rewrite !Nat.mod_1_r.
  - cbn [Datetime.zero_padded]. intros Heq.
    apply str_app_inv_length in Heq as [Hhigh [= Hlow]];
      [|by rewrite !zero_padded_length].
    apply IH in Hhigh. apply digit_inj in Hlow.
    rewrite Nat.pow_succ_r'. rewrite !Nat.Div0.mod_mul_r. lia.
Qed.

Lemma zero_padded_inj_small (w n m : nat) :
  (n < 10 ^ w)%nat -> (m < 10 ^ w)%nat ->
  Datetime.zero_padded w n = Datetime.zero_padded w m -> n = m.
Proof.
  intros Hn Hm Heq%zero_padded_inj.
  by rewrite !Nat.mod_small in Heq.
Qed.

Lemma joined_after_inj (sep : string) (l l' : list string) :
  Forall2 (fun a b => String.length a = String.length b) l l' ->
  joined_after sep l = joined_after sep l' -> l = l'.
Proof.
  induction 1 as [|a b l l' Hlen Hrest IH]; [done|].
  cbn [joined_after fold_right]. intros Heq.
  apply str_app_inv_head in Heq.
  apply str_app_inv_length in Heq as [-> Heq]; [|done].
  f_equal. by apply IH.
Qed.

(** Joined lists of items of the same lengths, item by item, are equal only
    if the lists are. *)
Lemma join_inj_lengths (sep : string) (l l' : list string) :
  Forall2 (fun a b => String.length a = String.length b) l l' ->
  Py.join sep l = Py.join sep l' -> l = l'.
Proof.
  destruct 1 as [|a b l l' Hlen Hrest]; [done|].
  rewrite !join_cons. intros Heq.
  apply str_app_inv_length in Heq as [-> Heq]; [|done].
  f_equal. by apply (joined_after_inj sep).
Qed.

Lemma Ok_inj {A : Type} (a b : A) : Py.Ok a = Py.Ok b -> a = b.
Proof. by intros [=]. Qed.

Lemma pretty_year_length (n : nat) :
  (1000 <= n < 10 ^ 4)%nat -> String.length (pretty n) = 4%nat.
Proof.
  intros Hn. unfold pretty, pretty_nat, pretty, pretty_N.
  change (10 ^ 4)%nat with (10 * (10 * (10 * (10 * 1))))%nat in Hn.
  set (x := N.of_nat n).
  assert (1000 <= x < 10000)%N as Hx by lia.
  destruct (decide (x = 0%N)) as [->|_]; [lia|].
  assert (0 < x / 10)%N as H1 by (apply N.div_str_pos; lia).
  assert (0 < x / 10 / 10)%N as H2.
  { apply N.div_str_pos. split; [lia|]. apply N.div_le_lower_bound; lia. }
  assert (0 < x / 10 / 10 / 10)%N as H3.
  { apply N.div_str_pos. split; [lia|].
    apply N.div_le_lower_bound; [lia|]. apply N.div_le_lower_bound; lia. }
  assert (x / 10 / 10 / 10 / 10 = 0)%N as H4.
  { apply N.div_small. do 3 (apply N.Div0.div_lt_upper_bound). lia. }
  rewrite pretty_N_go_step by lia.
  rewrite pretty_N_go_step by done.
  rewrite pretty_N_go_step by done.
  rewrite pretty_N_go_step by done.
  rewrite H4, pretty_N_go_0. reflexivity.
Qed.

(** X16. For a clock whose year has four digits (from 1000 to 9999),
    [Manager.current] formats the clock on 19 characters, and tells apart
    clock readings that differ in a year, month, day, hour, minute or
    second: managers constructed at different seconds have different start
    times. *)
Theorem current_tells_seconds_apart (w w' : World.world) :
  printable (World.now w) -> printable (World.now w') ->
  (exists s, (Manager.current w).1 = Py.Ok s /\ String.length s = 19%nat)
  /\ ((Manager.current w).1 = (Manager.current w').1 -> World.now w = World.now w').
Proof.
  intros (Hy & Hmo & Hd & Hh & Hmi & Hs) (Hy' & Hmo' & Hd' & Hh' & Hmi' & Hs').
  unfold Manager.current. cbn [fst]. split.
  - eexists. split; [reflexivity|].
    unfold Datetime.strftime. cbn [Py.join].
    by rewrite !str_length_app, !zero_padded_length, pretty_year_length.
  - intros Heq%Ok_inj. unfold Datetime.strftime in Heq.
    apply join_inj_lengths in Heq;
      [|repeat constructor;
        by rewrite ?zero_padded_length, ?pretty_year_length].
    pose proof (f_equal (fun l => nth 0 l "") Heq) as Ey.
    pose proof (f_equal (fun l => nth 1 l "") Heq) as Emo.
    pose proof (f_equal (fun l => nth 2 l "") Heq) as Ed.
    pose proof (f_equal (fun l => nth 3 l "") Heq) as Eh.
    pose proof (f_equal (fun l => nth 4 l "") Heq) as Emi.
    pose proof (f_equal (fun l => nth 5 l "") Heq) as Es.
    cbn [nth] in Ey, Emo, Ed, Eh, Emi, Es. clear Heq.
    destruct (World.now w) as [y mo d h mi s], (World.now w') as [y' mo' d' h' mi' s'].
    cbn [Datetime.year Datetime.month Datetime.day Datetime.hour Datetime.minute
         Datetime.second] in *.
    apply (inj pretty) in Ey.
    apply zero_padded_inj_small in Emo, Ed, Eh, Emi, Es; [|done..].
    by subst.
Qed.

(** X16, witness: the clocks of [world_bare] and of [world_results]. *)
Lemma current_tells_seconds_apart_witness :
  (exists s, (Manager.current world_bare).1 = Py.Ok s /\ String.length s = 19%nat)
  /\ ((Manager.current world_bare).1 = (Manager.current world_results).1 ->
      World.now world_bare = World.now world_results).
Proof.
  apply (current_tells_seconds_apart world_bare world_results);
    unfold printable; simpl; lia.
Defined.

(** ** Devices and embedders *)

Lemma cuda_name_not_auto (s : string) : "cuda:" +:+ s <> "auto".
Proof. rewrite str_app_cons. discriminate. Qed.

(** X17. [auto_device_list] gives one device per model. With GPUs and the
    device "auto", the models are dealt round the GPUs: model [i] is put on
    "cuda:" followed by [i mod device_count] in decimal, and two models get
    the same device exactly when their ranks are equal modulo the number of
    GPUs. Without GPUs every model is put on "cpu". With "auto" no model is
    left on the device "auto". *)
Theorem auto_device_list_round_robin (cuda : Embedders.Cuda) (device : string)
    (num_models : Z) :
  let devices := Embedders.auto_device_list cuda device num_models in
  let count := Embedders.device_count cuda in
  length devices = Z.to_nat num_models
  /\ (count = 0%nat -> Forall (fun d => d = "cpu") devices)
  /\ (device = "auto" -> Forall (fun d => d <> "auto") devices)
  /\ (count <> 0%nat -> device = "auto" ->
      (forall i, (i < Z.to_nat num_models)%nat ->
                 devices !! i = Some ("cuda:" +:+ pretty (i mod count)%nat))
      /\ (forall i j d d', devices !! i = Some d -> devices !! j = Some d' ->
                           d = d' <-> (i mod count = j mod count)%nat)).
Proof.
  intros devices count. unfold devices, Embedders.auto_device_list. fold count.
  assert (forall i, (i < Z.to_nat num_models)%nat ->
            map (fun i => "cuda:" +:+ pretty (i mod count)%nat)
                (seq 0 (Z.to_nat num_models)) !! i
            = Some ("cuda:" +:+ pretty (i mod count)%nat)) as Hnth.
  { intros i Hi. rewrite list_lookup_fmap, lookup_seq_lt by done. done. }
  destruct (Nat.eqb_spec count 0) as [Hzero|Hpos]; simpl.
  - split; [apply length_replicate|]. split.
    + intros _. apply Forall_forall. by intros d [-> _]%elem_of_replicate.
    + split; [|done]. intros _. apply Forall_forall.
      by intros d [-> _]%elem_of_replicate.
  - destruct (String.eqb_spec device "auto") as [->|Hdev].
    + split; [by rewrite length_map, length_seq|]. split; [done|]. split.
      * intros _. apply Forall_forall.
        intros d (i & -> & _)%list_elem_of_fmap. apply cuda_name_not_auto.
      * intros _ _. split; [done|].
        intros i j d d' Hi Hj.
        assert (i < Z.to_nat num_models)%nat as Hilt.
        { apply lookup_lt_Some in Hi. by rewrite length_map, length_seq in Hi. }
        assert (j < Z.to_nat num_models)%nat as Hjlt.
        { apply lookup_lt_Some in Hj. by rewrite length_map, length_seq in Hj. }
        rewrite Hnth in Hi, Hj by done.
        injection Hi as <-. injection Hj as <-. split.
        -- intros Heq%str_app_inv_head. by apply (inj pretty) in Heq.
        -- by intros ->.
    + split; [apply length_replicate|]. split; [done|]. split; [done|]. done.
Qed.

(** X17, witness: five models on two GPUs. *)
Lemma auto_device_list_round_robin_witness :
  Embedders.auto_device_list two_gpus "auto" 5
  = ["cuda:0"; "cuda:1"; "cuda:0"; "cuda:1"; "cuda:0"]
  /\ Forall (fun d => d <> "auto") (Embedders.auto_device_list two_gpus "auto" 5).
Proof.
  split; [vm_compute; reflexivity|].
  by apply (auto_device_list_round_robin two_gpus "auto" 5).
Defined.

Section EmbedderFactory.

Context (lookup : string + Embedders.EmbedderName -> Py.result Embedders.EmbedderName).

(** X18. [embedder] builds the embedder of the class that the name resolves
    to, and raises a [TypeError] exactly when the kind of the model name does
    not fit that class. SBERT with a single model name gives a
    [SbertEmbedder], HUGGINGFACE with a single model name a
    [HuggingfaceEmbedder], each for that model, with the batch size asked
    for, on the device [auto_device] chooses; HUGGINGFACE_ENSEMBLE with a
    list of model names gives an [EnsembleEmbedder] of one member per model.
    SBERT or HUGGINGFACE with a list, and HUGGINGFACE_ENSEMBLE with a single
    name, give a [TypeError] about the model name. The device chosen is
    "cpu" when there is no GPU, "cuda" for "auto" with a GPU, and otherwise
    the device asked for; it is never "auto". *)
Theorem embedder_by_resolved_name (cuda : Embedders.Cuda)
    (name : string + Embedders.EmbedderName) (resolved : Embedders.EmbedderName)
    (model_name : string + list string) (device : string) (batch_size : Z) :
  lookup name = Py.Ok resolved ->
  let result := Embedders.embedder lookup cuda name model_name device batch_size in
  let dev := Embedders.auto_device cuda device in
  match resolved, model_name with
  | Embedders.SBERT, inl model =>
      result = Embedders.Built (Embedders.SbertEmbedder model dev batch_size)
  | Embedders.HUGGINGFACE, inl model =>
      result = Embedders.Built (Embedders.HuggingfaceEmbedder model dev batch_size)
  | Embedders.HUGGINGFACE_ENSEMBLE, inr models =>
      exists members,
        result = Embedders.Built (Embedders.EnsembleEmbedder members)
        /\ length members = length models
  | Embedders.SBERT, inr _
  | Embedders.HUGGINGFACE, inr _
  | Embedders.HUGGINGFACE_ENSEMBLE, inl _ =>
      exists requires, result = Embedders.TypeError requires model_name
  end
  /\ dev <> "auto"
  /\ (Embedders.is_available cuda = false -> dev = "cpu")
  /\ (Embedders.is_available cuda = true -> device = "auto" -> dev = "cuda")
  /\ (Embedders.is_available cuda = true -> device <> "auto" -> dev = device).
Proof.
  intros Hlookup result dev. split.
  - unfold result, Embedders.embedder. rewrite Hlookup.
    destruct resolved, model_name as [model|models]; try done; try by eexists.
    eexists. split; [reflexivity|].
    rewrite length_map, length_zip_with.
    assert (length (Embedders.auto_device_list cuda device (Z.of_nat (length models)))
            = length models) as ->; [|lia].
    unfold Embedders.auto_device_list. rewrite Nat2Z.id.
    destruct (negb _); [destruct (String.eqb _ _)|];
      by rewrite ?length_map, ?length_seq, ?length_replicate.
  - unfold dev, Embedders.auto_device.
    destruct (Embedders.is_available cuda); [|done].
    by destruct (String.eqb_spec device "auto") as [->|Hne].
Qed.

(** X19. For HUGGINGFACE_ENSEMBLE, [embedder] builds one
    [HuggingfaceEmbedder] per model name, in the order of the names: none is
    dropped by the pairing with the devices. Member [i] has the model name
    [i] as its path, the device [i] of [auto_device_list], and the batch
    size given. *)
Theorem embedder_ensemble_members (cuda : Embedders.Cuda)
    (name : string + Embedders.EmbedderName) (models : list string)
    (device : string) (batch_size : Z) :
  lookup name = Py.Ok Embedders.HUGGINGFACE_ENSEMBLE ->
  exists members : list Embedders.Embedder,
    Embedders.embedder lookup cuda name (inr models) device batch_size
    = Embedders.Built (Embedders.EnsembleEmbedder members)
    /\ length members = length models
    /\ forall i model, models !! i = Some model ->
         exists dev,
           Embedders.auto_device_list cuda device (Z.of_nat (length models)) !! i
           = Some dev
           /\ members !! i = Some (Embedders.HuggingfaceEmbedder model dev batch_size).
Proof.
  intros Hlookup. unfold Embedders.embedder. rewrite Hlookup.
  eexists. split; [reflexivity|].
  pose proof (auto_device_list_round_robin cuda device (Z.of_nat (length models)))
    as [Hlen _]. rewrite Nat2Z.id in Hlen.
  split.
  - rewrite length_map, length_zip_with. lia.
  - intros i model Hi.
    destruct (lookup_lt_is_Some_2
                (Embedders.auto_device_list cuda device (Z.of_nat (length models))) i)
      as [dev Hdev].
    { rewrite Hlen. by eapply lookup_lt_Some. }
    exists dev. split; [done|].
    rewrite list_lookup_fmap.
    assert (zip models
              (Embedders.auto_device_list cuda device (Z.of_nat (length models))) !! i
            = Some (model, dev)) as ->; [|done].
    rewrite lookup_zip_with, Hi. simpl. by rewrite Hdev.
Qed.

End EmbedderFactory.

(** X18, witness: SBERT with a list of models is a [TypeError]; with one
    model and no GPU, the [SbertEmbedder] is put on "cpu" whatever device is
    asked; HUGGINGFACE with one model and a GPU gives a
    [HuggingfaceEmbedder] on "cuda". *)
Lemma embedder_by_resolved_name_witness :
  (exists requires,
     Embedders.embedder sample_lookup two_gpus (inl "SBERT") (inr ["a"; "b"]) "auto" 16
     = Embedders.TypeError requires (inr ["a"; "b"]))
  /\ Embedders.embedder sample_lookup
       {| Embedders.is_available := false; Embedders.device_count := 0 |}
       (inl "SBERT") (inl "all-mpnet-base-v2") "cuda:1" 16
     = Embedders.Built (Embedders.SbertEmbedder "all-mpnet-base-v2" "cpu" 16)
  /\ Embedders.embedder sample_lookup two_gpus
       (inl "HUGGINGFACE") (inl "bert-base-uncased") "auto" 16
     = Embedders.Built (Embedders.HuggingfaceEmbedder "bert-base-uncased" "cuda" 16).
Proof.
  split; [|split].
  - exact (proj1 (embedder_by_resolved_name sample_lookup two_gpus (inl "SBERT")
                    Embedders.SBERT (inr ["a"; "b"]) "auto" 16 eq_refl)).
  - exact (proj1 (embedder_by_resolved_name sample_lookup
                    {| Embedders.is_available := false; Embedders.device_count := 0 |}
                    (inl "SBERT") Embedders.SBERT (inl "all-mpnet-base-v2") "cuda:1" 16
                    eq_refl)).
  - exact (proj1 (embedder_by_resolved_name sample_lookup two_gpus (inl "HUGGINGFACE")
                    Embedders.HUGGINGFACE (inl "bert-base-uncased") "auto" 16 eq_refl)).
Defined.

(** X19, witness: three models on two GPUs. *)
Lemma embedder_ensemble_members_witness :
  exists members : list Embedders.Embedder,
    Embedders.embedder sample_lookup two_gpus (inl "HUGGINGFACE_ENSEMBLE")
      (inr ["bert"; "roberta"; "t5"]) "auto" 8
    = Embedders.Built (Embedders.EnsembleEmbedder members)
    /\ length members = 3%nat
    /\ members !! 2%nat = Some (Embedders.HuggingfaceEmbedder "t5" "cuda:0" 8).
Proof.
  destruct (embedder_ensemble_members sample_lookup two_gpus
              (inl "HUGGINGFACE_ENSEMBLE") ["bert"; "roberta"; "t5"] "auto" 8 eq_refl)
    as (members & Hbuilt & Hlen & Hmem).
  exists members. split; [exact Hbuilt|]. split; [exact Hlen|].
  destruct (Hmem 2%nat "t5" eq_refl) as (dev & Hdev & Hmember).
  vm_compute in Hdev. injection Hdev as <-. exact Hmember.
Defined.

(** ** Comparison by BLEU *)

Section BleuCompare.

Context (sentence_bleu : list (list string) -> list string -> PrimFloat.float).
Context (split : string -> list string).

(** X20. [BleuScore.compare] scores the generated texts against the
    references pairwise, in order, and as far as both go: there are as many
    scores as the shorter of the two sequences has items, what is beyond is
    dropped without error, and score [i] is the BLEU of generated text [i],
    split into words, against the one reference [i], split into words. *)
Theorem compare_pairs_up_to_shorter (generated reference : list string) :
  length (BleuScore.compare sentence_bleu split generated reference)
  = Nat.min (length generated) (length reference)
  /\ forall i gen ans,
       generated !! i = Some gen -> reference !! i = Some ans ->
       BleuScore.compare sentence_bleu split generated reference !! i
       = Some (sentence_bleu [split ans] (split gen)).
Proof.
  unfold BleuScore.compare. split.
  - rewrite length_map, length_zip_with. lia.
  - intros i gen ans Hgen Hans. rewrite list_lookup_fmap.
    rewrite lookup_zip_with, Hans. simpl. by rewrite Hgen.
Qed.

End BleuCompare.

(** ** The descriptor of an index *)

Lemma contains_app (c : ascii) (a b : string) :
  contains c (a +:+ b) = contains c a || contains c b.
Proof.
  induction a as [|x a IH]; [done|].
  rewrite str_app_cons. simpl. by rewrite IH, orb_assoc.
Qed.

Lemma pretty_N_char_not_space (x : N) : Ascii.eqb " " (pretty_N_char x) = false.
Proof. unfold pretty_N_char. by repeat case_match. Qed.

Lemma pretty_N_go_no_space (x : N) (s : string) :
  contains " " s = false -> contains " " (pretty_N_go x s) = false.
Proof.
  revert s. induction (N.lt_wf_0 x) as [x _ IH]; intros s Hs.
  assert (x = 0 \/ 0 < x)%N as [->|Hpos] by lia.
  - by rewrite pretty_N_go_0.
  - rewrite pretty_N_go_step by done. apply IH.
    + by apply N.div_lt.
    + cbn [contains]. by rewrite pretty_N_char_not_space.
Qed.

Lemma pretty_nat_no_space (n : nat) : contains " " (pretty n) = false.
Proof.
  unfold pretty, pretty_nat, pretty, pretty_N.
  destruct (decide (N.of_nat n = 0%N)); [done|].
  by apply pretty_N_go_no_space.
Qed.

(** Two texts cut at their last space. *)
Lemma split_at_last_space (a a' p p' : string) :
  contains " " p = false -> contains " " p' = false ->
  a +:+ " " +:+ p = a' +:+ " " +:+ p' -> a = a' /\ p = p'.
Proof.
  assert (forall b q, contains " " (b +:+ " " +:+ q) = true) as Hspace.
  { intros b q. rewrite contains_app.
    assert (contains " " (" " +:+ q) = true) as -> by reflexivity.
    apply orb_true_r. }
  intros Hp Hp'. revert a'. induction a as [|x a IH]; intros [|x' a'].
  - rewrite !str_app_nil_l. by intros ?%(str_app_inv_head " ").
  - intros Heq. change (String " " p = String x' (a' +:+ " " +:+ p')) in Heq.
    assert (p = a' +:+ " " +:+ p') as Hcut by congruence.
    rewrite Hcut, Hspace in Hp. discriminate Hp.
  - intros Heq. change (String x (a +:+ " " +:+ p) = String " " p') in Heq.
    assert (p' = a +:+ " " +:+ p) as Hcut by congruence.
    rewrite Hcut, Hspace in Hp'. discriminate Hp'.
  - rewrite !str_app_cons. intros [= -> Heq].
    by destruct (IH a' Heq) as [-> ->].
Qed.

(** X21. The descriptor of a [FaissIndex] tells the index string and the
    dimension: two indices with the same descriptor have the same index
    string and the same [dims], whatever characters the index strings
    hold. *)
Theorem faiss_repr_injective {B : Type} (idx idx' : FaissIndex.t B) :
  FaissIndex.__repr__ idx = FaissIndex.__repr__ idx' ->
  FaissIndex._index_string idx = FaissIndex._index_string idx'
  /\ FaissIndex.dims idx = FaissIndex.dims idx'.
Proof.
  unfold FaissIndex.__repr__.
  generalize (FaissIndex._index_string idx) (FaissIndex._index_string idx')
             (FaissIndex.dims idx) (FaissIndex.dims idx').
  intros s s' d d' Heq.
  apply str_app_inv_head in Heq.
  change (", " +:+ pretty d +:+ ")") with ("," +:+ " " +:+ pretty d +:+ ")") in Heq.
  change (", " +:+ pretty d' +:+ ")") with ("," +:+ " " +:+ pretty d' +:+ ")") in Heq.
  rewrite <- !(str_app_assoc _ "," _) in Heq.
  apply split_at_last_space in Heq as [Hs Hd].
  - apply str_app_inv_tail in Hs, Hd. split; [done|]. by apply (inj pretty).
  - by rewrite contains_app, pretty_nat_no_space.
  - by rewrite contains_app, pretty_nat_no_space.
Qed.

(** X21, witness: two indices built over the four points of the plane with
    different index strings have different descriptors. *)
Lemma faiss_repr_injective_witness :
  match FaissIndex.__init__ Faiss.flat sample_embeddings (inr Distance.L2) true
          "Flat" false 64,
        FaissIndex.__init__ Faiss.flat sample_embeddings (inr Distance.L2) true
          "HNSW32, Flat" false 64
  with
  | Py.Ok idx, Py.Ok idx' => FaissIndex.__repr__ idx <> FaissIndex.__repr__ idx'
  | _, _ => False
  end.
Proof.
  destruct (FaissIndex.__init__ Faiss.flat sample_embeddings (inr Distance.L2) true
              "Flat" false 64) as [idx|e] eqn:Hidx;
    [|vm_compute in Hidx; discriminate Hidx].
  destruct (FaissIndex.__init__ Faiss.flat sample_embeddings (inr Distance.L2) true
              "HNSW32, Flat" false 64) as [idx'|e] eqn:Hidx';
    [|vm_compute in Hidx'; discriminate Hidx'].
  intros Heq. apply faiss_repr_injective in Heq as [Hs _].
  vm_compute in Hidx, Hidx'. injection Hidx as <-. injection Hidx' as <-.
  discriminate Hs.
Defined.

(** ** Saving and loading at sample inputs *)

(** X11, witness: one save into the empty output directory. *)
Lemma load_globs_saved_file_witness :
  exists w' : World.world,
    Manager.save sample_columns sample_manager 0%nat
      "optimizer" corpus_ab_c "model" "adaptor" "embedder" world_empty_dir
    = (Py.Ok tt, w')
    /\ Fs.is_csv (result_file sample_manager "optimizer" corpus_ab_c "model"
                    "adaptor" "embedder") = true
    /\ Fs.glob_csv (World.files w') ["out"]
       = [["out"; result_file sample_manager "optimizer" corpus_ab_c "model"
                    "adaptor" "embedder"]].
Proof.
  apply (load_globs_saved_file sample_columns sample_manager ["out"] world_empty_dir
           0%nat sample_scores "optimizer" corpus_ab_c "model" "adaptor" "embedder");
    reflexivity.
Defined.

(** X12, witness: a save into the directory of [world_results] leaves the
    result files there as they were. *)
Lemma save_writes_one_entry_witness :
  exists w' : World.world,
    Manager.save sample_columns sample_manager 0%nat
      "optimizer" corpus_ab_c "model" "adaptor" "embedder" world_results
    = (Py.Ok tt, w')
    /\ World.files w' !! ["out"; "a.csv"] = Some (Fs.File (Py.Ok sample_scores))
    /\ World.heap w' !! 0%nat = Some sample_scores.
Proof.
  destruct (save_writes_one_entry sample_columns sample_manager ["out"]
              world_results 0%nat sample_scores "optimizer" corpus_ab_c "model"
              "adaptor" "embedder") as (w' & Hsave & _ & Hframe & Hheap).
  - reflexivity.
  - reflexivity.
  - reflexivity.
  - intros Hnode. vm_compute in Hnode. discriminate Hnode.
  - exists w'. split; [exact Hsave|]. split.
    + rewrite Hframe; [vm_compute; reflexivity|].
      intros Hk. vm_compute in Hk. discriminate Hk.
    + by apply Hheap.
Defined.

(** X13, witness: [load] on a result file rather than on its directory. *)
Lemma load_not_a_directory_witness :
  Manager.load ["out"; "a.csv"] world_results
  = Py.Raise (Py.ValueError "No csv files found in /out/a.csv").
Proof. apply (load_not_a_directory ["out"; "a.csv"] world_results). reflexivity. Defined.

(** X14, witness: a subdirectory named like a result file. *)
Lemma load_raises_on_unreadable_witness :
  exists n' e',
    Fs.is_csv n' = true
    /\ Fs.read_csv (World.files world_with_subdir) (["out"] ++ [n']) = Py.Raise e'
    /\ Manager.load ["out"] world_with_subdir = Py.Raise e'.
Proof.
  apply (load_raises_on_unreadable ["out"] world_with_subdir
           "old.csv" (Py.IsADirectoryError "/out/old.csv")).
  - vm_compute. reflexivity.
  - reflexivity.
  - simpl. rewrite lookup_insert_eq. by eexists.
  - vm_compute. reflexivity.
Defined.

(** X20, witness: three generated texts against two references. *)
Lemma compare_pairs_up_to_shorter_witness :
  length (BleuScore.compare stub_bleu String.words
            ["the cat sat"; "a dog"; "left over"] ["the cat sat"; "the dog"]) = 2%nat
  /\ BleuScore.compare stub_bleu String.words
       ["the cat sat"; "a dog"; "left over"] ["the cat sat"; "the dog"] !! 1%nat
     = Some (stub_bleu [String.words "the dog"] (String.words "a dog")).
Proof.
  destruct (compare_pairs_up_to_shorter stub_bleu String.words
              ["the cat sat"; "a dog"; "left over"] ["the cat sat"; "the dog"])
    as [Hlen Hnth].
  split; [exact Hlen|]. by apply Hnth.
Defined.
